(** * StudyBuddy AI: the AI-flow contract layer

    A shallow embedding of the flow functions under [src/ai/flows] and of
    the basic-report fallback of [src/app/tests/[testId]/page.tsx], with the
    properties the specification states about them.

    Layout: the JavaScript built-ins the flows rely on ([JS]), the monad in
    which a flow runs ([Flow]), one module per source file, the vocabulary
    in which the properties are stated, and then the theorems. *)

From Stdlib Require Import ZArith QArith Qcanon Ascii.
From stdpp Require Import base decidable option list strings gmap pretty sorting.

Local Open Scope string_scope.
Local Open Scope Z_scope.
Local Open Scope list_scope.

(* ===================================================================== *)
(** * JavaScript built-ins *)
(* ===================================================================== *)

Module JS.

(** The numbers the flows compute with are integers (counts, clock
    readings, minutes) or [NaN]. *)
Inductive number : Type :=
  | Num (z : Z)
  | NaN.

#[global] Instance number_eq_dec : EqDecision number.
Proof. solve_decision. Defined.

Definition add (a b : number) : number :=
  match a, b with Num x, Num y => Num (x + y) | _, _ => NaN end.

Definition sub (a b : number) : number :=
  match a, b with Num x, Num y => Num (x - y) | _, _ => NaN end.

Definition mul (a b : number) : number :=
  match a, b with Num x, Num y => Num (x * y) | _, _ => NaN end.

(** [a < b]: false as soon as one side is [NaN]. *)
Definition ltb (a b : number) : bool :=
  match a, b with Num x, Num y => bool_decide (x < y) | _, _ => false end.

(** [a === b] on numbers: [NaN] equals nothing. *)
Definition strict_eqb (a b : number) : bool :=
  match a, b with Num x, Num y => bool_decide (x = y) | _, _ => false end.

(** [Math.max(a, b)]. *)
Definition max (a b : number) : number :=
  match a, b with Num x, Num y => Num (Z.max x y) | _, _ => NaN end.

(** [a <= b] as a proposition; it fails as soon as one side is [NaN]. *)
Definition le (a b : number) : Prop :=
  match a, b with Num x, Num y => x ≤ y | _, _ => False end.

#[global] Instance le_dec a b : Decision (le a b).
Proof. destruct a, b; simpl; apply _. Defined.

(** [ToNumber(undefined)] is [NaN]: a missing operand of an arithmetic
    operator. *)
Definition of_undefined (a : option number) : number := default NaN a.

(** Truthiness of a number that may be [undefined]: [0], [NaN] and
    [undefined] are falsy. *)
Definition number_truthy (a : option number) : bool :=
  match a with
  | Some (Num z) => bool_decide (z ≠ 0)
  | Some NaN | None => false
  end.

(** [a || d] for a number [a] that may be [undefined]. *)
Definition number_or (a : option number) (d : number) : number :=
  if number_truthy a then default d a else d.

(** Truthiness of a string that may be [undefined]: the empty string and
    [undefined] are falsy. *)
Definition truthy (s : option string) : bool :=
  match s with
  | Some (String _ _) => true
  | Some EmptyString | None => false
  end.

(** [s || d] for a string [s] that may be [undefined]. *)
Definition string_or (s : option string) (d : string) : string :=
  if truthy s then default d s else d.

(** [s.split(sep)] for a one-character separator. The result is never
    empty: [''.split(' ')] is [['']]. *)
Fixpoint split (sep : ascii) (s : string) : list string :=
  match s with
  | EmptyString => [EmptyString]
  | String c r =>
      if Ascii.eqb c sep then EmptyString :: split sep r
      else match split sep r with
           | p :: ps => String c p :: ps
           | [] => [String c EmptyString]
           end
  end.

Definition digit (c : ascii) : option Z :=
  let n := nat_of_ascii c in
  if ((48 <=? n) && (n <=? 57))%nat then Some (Z.of_nat (n - 48)) else None.

Fixpoint digits_value (acc : Z) (s : string) : option Z :=
  match s with
  | EmptyString => Some acc
  | String c r =>
      match digit c with
      | Some d => digits_value (10 * acc + d) r
      | None => None
      end
  end.

(** [Number(s)] on the strings met here: the empty string is [0], a run
    of decimal digits is its value (exact below 2^53, which covers every
    use in this file), a string with any other character is taken as
    [NaN]. The remaining literal forms of ECMAScript's StringToNumber
    (surrounding white space, signs, fractions, exponents, radix prefixes,
    [Infinity]) are outside this model; no theorem below evaluates
    [Number] on such a string. *)
Definition Number (s : string) : number :=
  match digits_value 0 s with
  | Some z => Num z
  | None => NaN
  end.

(** [s.toLowerCase()] on ASCII letters. *)
Definition lower (c : ascii) : ascii :=
  let n := nat_of_ascii c in
  if ((65 <=? n) && (n <=? 90))%nat then ascii_of_nat (n + 32) else c.

Fixpoint toLowerCase (s : string) : string :=
  match s with
  | EmptyString => EmptyString
  | String c r => String (lower c) (toLowerCase r)
  end.

(** [s.includes(needle)]. *)
Fixpoint includes (needle s : string) : bool :=
  String.prefix needle s ||
  match s with
  | EmptyString => false
  | String _ r => includes needle r
  end.

(** A string is a sequence of code units, and the model has 256 of
    them, read as the code units 0 to 255. [trim] removes the white
    space and the line terminators of ECMAScript. Among the code units
    of the model these are TAB, LF, VT, FF, CR, SPACE and the no-break
    space U+00A0; the others (U+1680, U+2000 to U+200A, U+2028, U+2029,
    U+202F, U+205F, U+3000 and U+FEFF) lie above 255, and no string of
    the model holds one. *)
Definition is_space (c : ascii) : bool :=
  let n := nat_of_ascii c in
  ((9 <=? n) && (n <=? 13) || (n =? 32) || (n =? 160))%nat.

(** [s.trim()] is the empty string: [s] consists of white space. *)
Fixpoint trim_is_empty (s : string) : bool :=
  match s with
  | EmptyString => true
  | String c r => is_space c && trim_is_empty r
  end.

(** The properties every plain object inherits from [Object.prototype]. *)
Definition Object_prototype : list string :=
  [ "constructor"; "__defineGetter__"; "__defineSetter__"; "hasOwnProperty";
    "__lookupGetter__"; "__lookupSetter__"; "isPrototypeOf";
    "propertyIsEnumerable"; "toString"; "valueOf"; "__proto__";
    "toLocaleString" ].

(** What a property read gives on a plain object whose own properties
    hold strings: a string, or the inherited member of that name (a
    function; the prototype itself for [__proto__]). *)
Inductive value : Type :=
  | Text (s : string)
  | Member (name : string).

#[global] Instance value_eq_dec : EqDecision value.
Proof. solve_decision. Defined.

(** [o[k]]: the own property when there is one; otherwise the property
    is looked up along the prototype chain, and the read is [undefined]
    only when [Object.prototype] has no property of that name. *)
Definition get (o : gmap string string) (k : string) : option value :=
  match o !! k with
  | Some s => Some (Text s)
  | None => if bool_decide (k ∈ Object_prototype) then Some (Member k) else None
  end.

(** Truthiness of a value read: an inherited member is an object and so
    truthy. *)
Definition value_truthy (v : option value) : bool :=
  match v with
  | Some (Text s) => truthy (Some s)
  | Some (Member _) => true
  | None => false
  end.

(** [v || d] for a value read [v]. *)
Definition value_or (v : option value) (d : string) : value :=
  if value_truthy v then default (Text d) v else Text d.

(** Days from 1970-01-01 to the civil date [y]-[m]-[d] (proleptic
    Gregorian calendar). *)
Definition days_from_civil (y m d : Z) : Z :=
  let y' := if bool_decide (m ≤ 2) then y - 1 else y in
  let era := y' `div` 400 in
  let yoe := y' - era * 400 in
  let mp := (m + 9) `mod` 12 in
  let doy := (153 * mp + 2) `div` 5 + d - 1 in
  let doe := yoe * 365 + yoe `div` 4 - yoe `div` 100 + doy in
  era * 146097 + doe - 719468.

Definition is_leap (y : Z) : bool :=
  bool_decide (y `mod` 4 = 0) &&
  (negb (bool_decide (y `mod` 100 = 0)) || bool_decide (y `mod` 400 = 0)).

Definition days_in_month (y m : Z) : Z :=
  if bool_decide (m = 2) then (if is_leap y then 29 else 28)
  else if bool_decide (m = 4 ∨ m = 6 ∨ m = 9 ∨ m = 11) then 30
  else 31.

(** [new Date(s).getTime()] for a date-only ISO string [YYYY-MM-DD] naming
    a day that exists: midnight UTC of that day, in milliseconds. Every
    other string is taken as an invalid date ([NaN]); the other date
    formats an engine may accept are not modelled. The study-plan flow
    below does not depend on this function: it takes the date parser as a
    parameter, and this one instantiates it in examples. *)
Definition iso_getTime (s : string) : number :=
  match split "-" s with
  | [ys; ms; ds] =>
      match digits_value 0 ys, digits_value 0 ms, digits_value 0 ds with
      | Some y, Some m, Some d =>
          if bool_decide (String.length ys = 4%nat ∧ String.length ms = 2%nat ∧
                          String.length ds = 2%nat ∧
                          1 ≤ m ≤ 12 ∧ 1 ≤ d ≤ days_in_month y m)
          then Num (days_from_civil y m d * 86400000)
          else NaN
      | _, _, _ => NaN
      end
  | _ => NaN
  end.

(** [Array.prototype.sort(comparefn)]: a stable sort; a comparator result
    of [NaN] is read as [+0] (SortCompare). For a comparator that is not
    consistent the order is left to the engine; the stable insertion sort
    below fixes one. *)
Section sort.
Context {A : Type} (comparefn : A → A → number).

Definition sort_le (x y : A) : bool :=
  match comparefn x y with
  | Num v => bool_decide (v ≤ 0)
  | NaN => true
  end.

Fixpoint sort_insert (x : A) (l : list A) : list A :=
  match l with
  | [] => [x]
  | y :: l' => if sort_le x y then x :: l else y :: sort_insert x l'
  end.

Fixpoint sort (l : list A) : list A :=
  match l with
  | [] => []
  | x :: l' => sort_insert x (sort l')
  end.
End sort.

End JS.

(* ===================================================================== *)
(** * Flows *)
(* ===================================================================== *)

(** A flow awaits one call to a prompt and either returns or throws. The
    state threaded through a run is the list of prompt inputs sent to the
    model so far. *)
Module Flow.

Inductive Result (A : Type) : Type :=
  | Ok (a : A)
  | Throw (message : string).
Arguments Ok {A} a.
Arguments Throw {A} message.

(** What [await prompt(input)] gives: a response whose [output] may be
    [null], or a rejection (the endpoint failed) carrying an error
    message. *)
Inductive Reply (O : Type) : Type :=
  | Responds (output : option O)
  | Fails (message : string).
Arguments Responds {O} output.
Arguments Fails {O} message.

Definition M (C A : Type) : Type := list C → Result A * list C.

Definition ret {C A} (a : A) : M C A := λ calls, (Ok a, calls).

Definition throw {C A} (message : string) : M C A := λ calls, (Throw message, calls).

Definition bind {C A B} (m : M C A) (k : A → M C B) : M C B :=
  λ calls,
    match m calls with
    | (Ok a, calls') => k a calls'
    | (Throw message, calls') => (Throw message, calls')
    end.

(** [const {output} = await prompt(input)]. *)
Definition call {C O} (prompt : C → Reply O) (input : C) : M C (option O) :=
  λ calls,
    match prompt input with
    | Responds output => (Ok output, calls ++ [input])
    | Fails message => (Throw message, calls ++ [input])
    end.

(** The message of the error with which a flow rejects a value.
    genkit's message starts with these words and goes on to list the
    parse errors, the value and the schema, which are left out here. *)
Definition schemaValidationFailed : string :=
  "INVALID_ARGUMENT: Schema validation failed.".

(** [ai.defineFlow({..., inputSchema, outputSchema}, fn)]: the flow
    genkit builds validates its input against [inputSchema], runs [fn],
    and validates what [fn] resolves to against [outputSchema] before it
    hands it on; an input or a result that does not conform, [null] and
    [undefined] among the results, makes the flow reject. [accepts] and
    [conforms] are what the two schemas ask beyond the types [I] and
    [O]. *)
Definition defineFlow {C I O} (accepts : I → bool) (conforms : O → bool)
    (fn : I → M C (option O)) (input : I) : M C O :=
  if accepts input then
    bind (fn input) (λ output,
      match output with
      | Some o => if conforms o then ret o else throw schemaValidationFailed
      | None => throw schemaValidationFailed
      end)
  else throw schemaValidationFailed.

(** A run from an empty call log. *)
Definition run {C A} (m : M C A) : Result A * list C := m [].

#[global] Instance Result_eq_dec {A} `{EqDecision A} : EqDecision (Result A).
Proof. solve_decision. Defined.

End Flow.

Import Flow.

(** stdpp's monadic notation [x ← m; k] for flows, and for the code
    outside a flow that returns or throws. *)
#[global] Instance M_ret {C} : MRet (M C) := λ A, Flow.ret.
#[global] Instance M_bind {C} : MBind (M C) := λ A B k m, Flow.bind m k.
#[global] Instance Result_ret : MRet Result := λ A, Ok.
#[global] Instance Result_bind : MBind Result :=
  λ A B k m, match m with Ok a => k a | Throw message => Throw message end.

(* ===================================================================== *)
(** * types/index.ts: tests and their analysis *)
(* ===================================================================== *)

Module Types.

Inductive QuestionType : Type := subjective | objective.

#[global] Instance QuestionType_eq_dec : EqDecision QuestionType.
Proof. solve_decision. Defined.

Record TestQuestionOption : Type := {
  opt_id : string;
  opt_text : string;
}.

Record TestQuestion : Type := {
  id : string;
  type : QuestionType;
  questionText : string;
  options : option (list TestQuestionOption);
  correctAnswerKey : option string;
  correctAnswerText : option string;
}.

(** [userAnswerText] is declared a string. The basic report starts it
    from a property read, which the field holds here as the value it is;
    [basic_report_texts_are_strings] below shows it ends as a string. *)
Record QuestionAnalysis : Type := {
  questionId : string;
  qa_questionText : string;
  userAnswerText : JS.value;
  qa_correctAnswerText : option string;
  isCorrect : bool;
  feedback : string;
  suggestedScoreOutOfTen : option JS.number;
}.

(** [overallScore] is a percentage or [null]. The quotient the page
    computes is kept exact here, as a rational; the engine's double is its
    rounding, which the values 0 and 100 and the bounds 0 and 100 do not
    feel. *)
Record TestAnalysisReport : Type := {
  overallScore : option Qc;
  overallFeedback : string;
  questionAnalyses : list QuestionAnalysis;
}.

Inductive TestStatus : Type := generated | submitted | analyzing | analyzed.

Record TestSet : Type := {
  ts_id : string;
  userId : string;
  title : string;
  subject : option string;
  description : option string;
  numSubjective : Z;
  numObjective : Z;
  timeLimitMinutes : option Z;
  questions : list TestQuestion;
  createdAt : string;
  updatedAt : string;
  status : TestStatus;
  submittedAt : option string;
  userResponses : option (gmap string string);
  analysis : option TestAnalysisReport;
}.

End Types.

(* ===================================================================== *)
(** * generate-test-flow.ts *)
(* ===================================================================== *)

Module GenerateTest.
Import Types(QuestionType(..)).

Record GenerateTestInput : Type := {
  title : string;
  subject : option string;
  description : option string;
  numSubjective : Z;
  numObjective : Z;
}.

(** An [id] is a string by the schema; the flow also provides for a falsy
    one, so it is kept optional here. *)
Record TestQuestionOption : Type := {
  o_id : option string;
  o_text : string;
}.

Record TestQuestion : Type := {
  q_id : option string;
  q_type : QuestionType;
  questionText : string;
  options : option (list TestQuestionOption);
  correctAnswerKey : option string;
  correctAnswerText : option string;
}.

Record GenerateTestOutput : Type := {
  questions : option (list TestQuestion);
}.

#[global] Instance TestQuestionOption_eq_dec : EqDecision TestQuestionOption.
Proof. solve_decision. Defined.
#[global] Instance TestQuestion_eq_dec : EqDecision TestQuestion.
Proof. solve_decision. Defined.
#[global] Instance GenerateTestOutput_eq_dec : EqDecision GenerateTestOutput.
Proof. solve_decision. Defined.

Section flow.
(** [now index]: what [Date.now()] reads while the question at [index]
    is processed. *)
Variable now : nat → N.
Variable prompt : GenerateTestInput → Reply GenerateTestOutput.

Definition fillOption (questionId : string) (optIndex : nat)
    (opt : TestQuestionOption) : TestQuestionOption :=
  {| o_id := Some (JS.string_or (o_id opt)
                     (questionId +:+ "_opt" +:+ pretty optIndex));
     o_text := o_text opt |}.

(** The callback of [output.questions.map]. *)
Definition fillQuestion (index : nat) (q : TestQuestion) : TestQuestion :=
  let questionId :=
    JS.string_or (q_id q)
      ("q_" +:+ pretty (now index) +:+ "_" +:+ pretty index) in
  let optionsWithIds := imap (fillOption questionId) <$> options q in
  {| q_id := Some questionId;
     q_type := q_type q;
     questionText := questionText q;
     options :=
       match q_type q with
       | objective => Some (default [] optionsWithIds)
       | subjective => None
       end;
     correctAnswerKey :=
       match q_type q with
       | objective => correctAnswerKey q
       | subjective => None
       end;
     correctAnswerText := correctAnswerText q |}.

(** The function given to [defineFlow]. It tests the output itself
    and throws before the validation of the flow sees a missing one. The
    requests considered are those within the input schema (a title and
    two counts that are not negative), and what the function returns is
    within the output schema by its type, so that the validation
    [defineFlow] adds rejects nothing here and is left out. *)
Definition generateTestInternalFlow (input : GenerateTestInput)
    : M GenerateTestInput GenerateTestOutput :=
  if bool_decide (numObjective input + numSubjective input ≤ 0) then
    throw "Total number of questions must be greater than 0."
  else if bool_decide (numObjective input + numSubjective input > 20) then
    throw "Cannot generate more than 20 questions in total at once."
  else
    output ← call prompt input;
    match output with
    | None => throw "AI failed to generate questions or output was empty."
    | Some out =>
        match questions out with
        | None => throw "AI failed to generate questions or output was empty."
        | Some qs => ret {| questions := Some (imap fillQuestion qs) |}
        end
    end.

Definition generateTest (input : GenerateTestInput)
    : M GenerateTestInput GenerateTestOutput :=
  generateTestInternalFlow input.
End flow.

End GenerateTest.

(* ===================================================================== *)
(** * resolve-question.ts, summarize-conversation.ts,
      generate-flashcard-answer-flow.ts *)
(* ===================================================================== *)

Module ResolveQuestion.

Record ResolveQuestionInput : Type := {
  question : string;
  image : option string;
}.

Record ResolveQuestionOutput : Type := { answer : string }.

Section flow.
Variable prompt : ResolveQuestionInput → Reply ResolveQuestionOutput.

(** The function given to [defineFlow] ends in [return output!]: the
    non-null assertion is erased at run time, and a missing output
    reaches the validation of the flow. *)
Definition resolveQuestionFlow
    : ResolveQuestionInput → M ResolveQuestionInput ResolveQuestionOutput :=
  defineFlow (λ _, true) (λ _, true) (λ input,
    output ← call prompt input;
    mret output).

Definition resolveQuestion := resolveQuestionFlow.
End flow.

End ResolveQuestion.

Module SummarizeConversation.

Record SummarizeConversationInput : Type := { conversationHistory : string }.

Record SummarizeConversationOutput : Type := { summary : string }.

Section flow.
Variable prompt : SummarizeConversationInput → Reply SummarizeConversationOutput.

Definition summarizeConversationFlow
    : SummarizeConversationInput →
      M SummarizeConversationInput SummarizeConversationOutput :=
  defineFlow (λ _, true) (λ _, true) (λ input,
    output ← call prompt input;
    mret output).

Definition summarizeConversation := summarizeConversationFlow.
End flow.

End SummarizeConversation.

Module GenerateFlashcardAnswer.

Record GenerateFlashcardAnswerInput : Type := { questionText : string }.

Record GenerateFlashcardAnswerOutput : Type := { answerText : string }.

Section flow.
Variable prompt : GenerateFlashcardAnswerInput → Reply GenerateFlashcardAnswerOutput.

Definition generateFlashcardAnswerFlow
    : GenerateFlashcardAnswerInput →
      M GenerateFlashcardAnswerInput GenerateFlashcardAnswerOutput :=
  defineFlow (λ _, true) (λ _, true) (λ input,
    output ← call prompt input;
    mret output).

Definition generateFlashcardAnswer := generateFlashcardAnswerFlow.
End flow.

End GenerateFlashcardAnswer.

(* ===================================================================== *)
(** * generate-multiple-flashcards-flow.ts *)
(* ===================================================================== *)

Module GenerateMultipleFlashcards.

Record FlashcardPair : Type := {
  questionText : string;
  answerText : string;
}.

(** The caller's [numberOfCards] may be absent. *)
Record GenerateMultipleFlashcardsInput : Type := {
  topic : string;
  numberOfCards : option JS.number;
}.

Record GenerateMultipleFlashcardsOutput : Type := {
  flashcards : list FlashcardPair;
}.

(** [Math.max(input.numberOfCards || 5, 5)]. *)
Definition effectiveNumCards (input : GenerateMultipleFlashcardsInput) : JS.number :=
  JS.max (JS.number_or (numberOfCards input) (JS.Num 5)) (JS.Num 5).

Section flow.
Variable prompt :
  GenerateMultipleFlashcardsInput → Reply GenerateMultipleFlashcardsOutput.

(** What [GenerateMultipleFlashcardsInputSchema] asks beyond the type:
    [numberOfCards], when given, is a number and so not [NaN]. *)
Definition accepts (input : GenerateMultipleFlashcardsInput) : bool :=
  match numberOfCards input with
  | Some JS.NaN => false
  | Some (JS.Num _) | None => true
  end.

Definition generateMultipleFlashcardsFlow
    : GenerateMultipleFlashcardsInput →
      M GenerateMultipleFlashcardsInput GenerateMultipleFlashcardsOutput :=
  defineFlow accepts (λ _, true) (λ input,
    output ← call prompt input;
    mret output).

Definition generateMultipleFlashcards (input : GenerateMultipleFlashcardsInput)
    : M GenerateMultipleFlashcardsInput GenerateMultipleFlashcardsOutput :=
  generateMultipleFlashcardsFlow
    {| topic := topic input; numberOfCards := Some (effectiveNumCards input) |}.
End flow.

End GenerateMultipleFlashcards.

(* ===================================================================== *)
(** * generate-study-plan-flow.ts (with lib/planner-schemas.ts) *)
(* ===================================================================== *)

Module GenerateStudyPlan.

Record Exam : Type := {
  exam_id : string;
  exam_subject : string;
  exam_date : string;
  exam_type : option string;
}.

Inductive LearningPace : Type := relaxed | moderate | intensive.

Inductive Weekday : Type :=
  Monday | Tuesday | Wednesday | Thursday | Friday | Saturday | Sunday.

Definition weekday_name (d : Weekday) : string :=
  match d with
  | Monday => "Monday" | Tuesday => "Tuesday" | Wednesday => "Wednesday"
  | Thursday => "Thursday" | Friday => "Friday" | Saturday => "Saturday"
  | Sunday => "Sunday"
  end.

Record GenerateStudyPlanInput : Type := {
  exams : list Exam;
  weakAreas : option (list string);
  learningPace : LearningPace;
  studyHoursPerWeek : option JS.number;
  preferredStudyDays : option (list Weekday);
  notes : option string;
}.

(** [{...input, currentDate, preferredStudyDaysString?}]. *)
Record PromptInput : Type := {
  input : GenerateStudyPlanInput;
  currentDate : string;
  preferredStudyDaysString : option string;
}.

Record StudySession : Type := {
  s_date : string;
  startTime : string;
  endTime : string;
  s_subject : string;
  activity : string;
  isBreak : bool;
}.

Record DailySessions : Type := {
  date : string;
  sessions : option (list StudySession);
}.

Record GenerateStudyPlanOutput : Type := {
  planTitle : option string;
  dailySessions : option (list DailySessions);
  summaryNotes : option string;
}.

#[global] Instance StudySession_eq_dec : EqDecision StudySession.
Proof. solve_decision. Defined.
#[global] Instance DailySessions_eq_dec : EqDecision DailySessions.
Proof. solve_decision. Defined.

(** The local function [convertTime]: an ["hh:mm AM/PM"] string to
    minutes since midnight. *)
Definition convertTime (timeStr : string) : JS.number :=
  let parts := JS.split " " timeStr in
  let time := default "" (parts !! 0%nat) in
  let modifier := parts !! 1%nat in
  let numbers := JS.Number <$> JS.split ":" time in
  let hours := JS.of_undefined (numbers !! 0%nat) in
  let minutes := JS.of_undefined (numbers !! 1%nat) in
  let hours :=
    if bool_decide (modifier = Some "PM") && JS.ltb hours (JS.Num 12)
    then JS.add hours (JS.Num 12) else hours in
  let hours :=
    if bool_decide (modifier = Some "AM") && JS.strict_eqb hours (JS.Num 12)
    then JS.Num 0 else hours in
  JS.add (JS.mul hours (JS.Num 60)) minutes.

(** The comparator of [day.sessions.sort]. *)
Definition compareSessions (s1 s2 : StudySession) : JS.number :=
  JS.sub (convertTime (startTime s1)) (convertTime (startTime s2)).

Definition sortSessions (day : DailySessions) : DailySessions :=
  {| date := date day;
     sessions := JS.sort compareSessions <$> sessions day |}.

Section flow.
(** [Date_getTime s] stands for [new Date(s).getTime()]: a time value,
    or [NaN] for an invalid date. *)
Variable Date_getTime : string → JS.number.
(** [new Date().toISOString().split('T')[0]] at the time of the run. *)
Variable today : string.
Variable prompt : PromptInput → Reply GenerateStudyPlanOutput.

(** The comparator of [output.dailySessions.sort]. The difference of
    two time values may be rounded by the engine; its sign, which is all
    the sort reads, is not affected. *)
Definition compareDays (a b : DailySessions) : JS.number :=
  JS.sub (Date_getTime (date a)) (Date_getTime (date b)).

(** The block guarded by [if (output?.dailySessions)]. *)
Definition sortPlan (output : GenerateStudyPlanOutput) : GenerateStudyPlanOutput :=
  {| planTitle := planTitle output;
     dailySessions :=
       (λ days, sortSessions <$> JS.sort compareDays days) <$> dailySessions output;
     summaryNotes := summaryNotes output |}.

Definition promptInput (i : GenerateStudyPlanInput) : PromptInput :=
  let joined :=
    match preferredStudyDays i with
    | Some (d :: ds) => Some (String.concat ", " (weekday_name <$> (d :: ds)))
    | Some [] | None => None
    end in
  {| input := i;
     currentDate := today;
     preferredStudyDaysString := if JS.truthy joined then joined else None |}.

(** What [GenerateStudyPlanInputSchema] asks beyond the type: at least
    one exam, no exam with an empty subject, and a number of hours, when
    one is given, between 1 and 70. *)
Definition accepts (i : GenerateStudyPlanInput) : bool :=
  bool_decide (exams i ≠ []) &&
  forallb (λ exam, bool_decide (exam_subject exam ≠ "")) (exams i) &&
  match studyHoursPerWeek i with
  | Some (JS.Num hours) => bool_decide (1 ≤ hours ≤ 70)
  | Some JS.NaN => false
  | None => true
  end.

(** What [GenerateStudyPlanOutputSchema] asks beyond the type: the list
    of days and, for each day, its list of sessions are required. *)
Definition conforms (output : GenerateStudyPlanOutput) : bool :=
  match dailySessions output with
  | Some days => forallb (λ day, bool_decide (is_Some (sessions day))) days
  | None => false
  end.

(** The function given to [defineFlow] ends in [return output!]: a
    missing output reaches the validation of the flow as it is. *)
Definition generateStudyPlanFlow
    : GenerateStudyPlanInput → M PromptInput GenerateStudyPlanOutput :=
  defineFlow accepts conforms (λ i,
    output ← call prompt (promptInput i);
    mret (sortPlan <$> output)).

Definition generateStudyPlan := generateStudyPlanFlow.
End flow.

End GenerateStudyPlan.

(* ===================================================================== *)
(** * analyze-test-results-flow.ts *)
(* ===================================================================== *)

Module AnalyzeTestResults.
Import Types.

Record AnalyzeTestResultsInput : Type := {
  testTitle : string;
  testSubject : option string;
  testDescription : option string;
  in_questions : list TestQuestion;
  in_userResponses : gmap string string;
}.

(** [{...q, userAnswerTextForPrompt, questionDisplayNumber}]. The
    answer text is a string except when it is a value the read of
    [userResponses] found on the prototype chain. *)
Record ProcessedQuestion : Type := {
  original : TestQuestion;
  userAnswerTextForPrompt : JS.value;
  questionDisplayNumber : nat;
}.

Record ProcessedData : Type := {
  p_testTitle : string;
  p_testSubject : option string;
  p_testDescription : option string;
  p_questions : list ProcessedQuestion;
}.

(** The value of [userAnswerTextForPrompt] after the [if] of the map
    callback; [rawUserAnswer] is [input.userResponses[q.id]], a read
    that goes up the prototype chain of the object. *)
Definition resolveAnswer (userResponses : gmap string string) (q : TestQuestion)
    : JS.value :=
  let rawUserAnswer := JS.get userResponses (id q) in
  if JS.value_truthy rawUserAnswer then
    match type q, options q with
    | objective, Some opts =>
        match find (λ opt, bool_decide (Some (JS.Text (opt_id opt)) = rawUserAnswer))
                opts with
        | Some selectedOption => JS.Text (opt_text selectedOption)
        | None => JS.Text "Invalid option selected by user"
        end
    | _, _ => default (JS.Text "") rawUserAnswer
    end
  else JS.Text "No answer provided".

Definition processQuestion (userResponses : gmap string string) (index : nat)
    (q : TestQuestion) : ProcessedQuestion :=
  {| original := q;
     userAnswerTextForPrompt := resolveAnswer userResponses q;
     questionDisplayNumber := index + 1 |}.

Definition processedQuestions (input : AnalyzeTestResultsInput)
    : list ProcessedQuestion :=
  imap (processQuestion (in_userResponses input)) (in_questions input).

Definition processedDataForPrompt (input : AnalyzeTestResultsInput) : ProcessedData :=
  {| p_testTitle := testTitle input;
     p_testSubject := testSubject input;
     p_testDescription := testDescription input;
     p_questions := processedQuestions input |}.

Section flow.
Variable thePrompt : ProcessedData → Reply TestAnalysisReport.

(** The function given to [defineFlow]. It tests the output itself and
    throws before the validation of the flow sees a missing one; the
    inputs considered are those within the input schema and the reports
    those within the output schema, so that the validation [defineFlow]
    adds rejects nothing here and is left out. What the prompt makes of
    a processed answer that is no string (it may reject it) is part of
    [thePrompt]. *)
Definition analyzeTestResultsInternalFlow (input : AnalyzeTestResultsInput)
    : M ProcessedData TestAnalysisReport :=
  output ← call thePrompt (processedDataForPrompt input);
  match output with
  | None => throw "AI analysis failed to return an output."
  | Some report => mret report
  end.

Definition analyzeTestResults := analyzeTestResultsInternalFlow.
End flow.

End AnalyzeTestResults.

(* ===================================================================== *)
(** * app/tests/[testId]/page.tsx: the basic report and its use *)
(* ===================================================================== *)

Module TestPage.
Import Types AnalyzeTestResults.

(** The two counters the map callback of [generateBasicReport] updates. *)
Record Counters : Type := {
  correctObjectiveAnswers : nat;
  totalObjectiveQuestions : nat;
}.

Definition unavailableFeedback : string :=
  "AI-powered feedback is temporarily unavailable for this question.".

Definition basicOverallFeedback : string :=
  "Basic report generated. AI analysis is temporarily unavailable. This report primarily reflects performance on objective questions.".

(** [submittedTest.userResponses?.[q.id]]: a read that goes up the
    prototype chain of the object, when there is one. *)
Definition userAnswerValue (userResponses : option (gmap string string))
    (q : TestQuestion) : option JS.value :=
  responses ← userResponses; JS.get responses (id q).

(** [q.options?.find(opt => opt.id === userAnswerValue)]. *)
Definition findSelected (q : TestQuestion) (userAnswerValue : option JS.value)
    : option TestQuestionOption :=
  opts ← options q;
  find (λ opt, bool_decide (Some (JS.Text (opt_id opt)) = userAnswerValue)) opts.

(** [userAnswerValue && userAnswerValue === q.correctAnswerKey]. *)
Definition answeredCorrectly (q : TestQuestion) (userAnswerValue : option JS.value)
    : bool :=
  JS.value_truthy userAnswerValue &&
  bool_decide (userAnswerValue = JS.Text <$> correctAnswerKey q).

(** The message of the [TypeError] raised by a call of a property that
    is [undefined], in the words of V8, which names the callee as the
    source has it. *)
Definition notAFunction (callee : string) : string :=
  callee +:+ " is not a function".

(** [!v?.trim()]: [undefined] is passed over by [?.] and a string is
    trimmed; an inherited member is neither, has no [trim], and the call
    throws. [callee] is the text of [v?.trim] in the source. *)
Definition blank (callee : string) (v : option JS.value) : Result bool :=
  match v with
  | Some (JS.Text s) => Ok (JS.trim_is_empty s)
  | Some (JS.Member _) => Throw (notAFunction callee)
  | None => Ok true
  end.

(** One call of the map callback: the analysis of [q] and the counters
    after it, or the error thrown. *)
Definition analyseQuestion (userResponses : option (gmap string string))
    (q : TestQuestion) (c : Counters) : Result (QuestionAnalysis * Counters) :=
  let userAnswerValue := userAnswerValue userResponses q in
  let userAnswerText0 := JS.value_or userAnswerValue "Not Attempted" in
  '(userAnswerText, isCorrect, c') ←
    match type q with
    | objective =>
        let total := S (totalObjectiveQuestions c) in
        let text :=
          match findSelected q userAnswerValue with
          | Some selectedOption => JS.Text (opt_text selectedOption)
          | None =>
              if JS.value_truthy userAnswerValue
              then JS.Text "Invalid option selected"
              else userAnswerText0
          end in
        if answeredCorrectly q userAnswerValue
        then Ok (text, true,
                 {| correctObjectiveAnswers := S (correctObjectiveAnswers c);
                    totalObjectiveQuestions := total |})
        else Ok (text, false,
                 {| correctObjectiveAnswers := correctObjectiveAnswers c;
                    totalObjectiveQuestions := total |})
    | subjective =>
        notAttempted ← blank "userAnswerValue?.trim" userAnswerValue;
        Ok (if notAttempted : bool then JS.Text "Not Attempted" else userAnswerText0,
            false, c)
    end;
  Ok ({| questionId := id q;
         qa_questionText := questionText q;
         userAnswerText := userAnswerText;
         qa_correctAnswerText :=
           Some (JS.string_or (correctAnswerText q)
                   (match type q with
                    | objective => "Correct answer not specified"
                    | subjective => "Model answer not specified"
                    end));
         isCorrect := isCorrect;
         feedback := unavailableFeedback;
         suggestedScoreOutOfTen := None |}, c').

(** [submittedTest.questions.map(...)], threading the counters; an error
    thrown by the callback ends the map. *)
Fixpoint analyseQuestions (userResponses : option (gmap string string))
    (qs : list TestQuestion) (c : Counters)
    : Result (list QuestionAnalysis * Counters) :=
  match qs with
  | [] => Ok ([], c)
  | q :: qs' =>
      '(a, c') ← analyseQuestion userResponses q c;
      '(rest, c'') ← analyseQuestions userResponses qs' c';
      Ok (a :: rest, c'')
  end.

Definition percentage (correct total : nat) : Qc :=
  (Qc_of_Z (Z.of_nat correct) / Qc_of_Z (Z.of_nat total) * Qc_of_Z 100)%Qc.

Definition generateBasicReport (submittedTest : TestSet) : Result TestAnalysisReport :=
  '(analyses, c) ←
    analyseQuestions (userResponses submittedTest) (questions submittedTest)
      {| correctObjectiveAnswers := 0; totalObjectiveQuestions := 0 |};
  Ok {| overallScore :=
          if bool_decide (0 < totalObjectiveQuestions c)%nat
          then Some (percentage (correctObjectiveAnswers c)
                       (totalObjectiveQuestions c))
          else None;
        overallFeedback := basicOverallFeedback;
        questionAnalyses := analyses |}.

(** The condition of the [catch] block of [handleSubmitTest]. *)
Definition modelOverloaded (aiErrorMessage : string) : bool :=
  JS.includes "503" aiErrorMessage ||
  JS.includes "overloaded" (JS.toLowerCase aiErrorMessage) ||
  JS.includes "service unavailable" (JS.toLowerCase aiErrorMessage).

Definition analysisInput (submittedTest : TestSet) : AnalyzeTestResultsInput :=
  {| testTitle := title submittedTest;
     testSubject := subject submittedTest;
     testDescription := description submittedTest;
     in_questions :=
       (λ q, {| id := id q; questionText := questionText q; type := type q;
                options := options q; correctAnswerKey := correctAnswerKey q;
                correctAnswerText := correctAnswerText q |})
       <$> questions submittedTest;
     in_userResponses := default ∅ (userResponses submittedTest) |}.

Section handler.
Variable thePrompt : ProcessedData → Reply TestAnalysisReport.

(** The inner [try]/[catch] of [handleSubmitTest]: the value bound to
    [analysisResult], or the error thrown on; an error thrown by
    [generateBasicReport] inside the [catch] block is one of these. *)
Definition analysisResult (submittedTest : TestSet) : Result TestAnalysisReport :=
  match run (analyzeTestResults thePrompt (analysisInput submittedTest)) with
  | (Ok report, _) => Ok report
  | (Throw message, _) =>
      let aiErrorMessage := JS.string_or (Some message) "AI analysis failed." in
      if modelOverloaded aiErrorMessage
      then generateBasicReport submittedTest
      else Throw message
  end.
End handler.

End TestPage.

(* ===================================================================== *)
(** * More built-ins *)
(* ===================================================================== *)

(** A string is a sequence of code units, the character [n] of the
    model being the code unit [n] (see [JS.is_space]). The functions
    below look at a code unit only through equality and the ASCII
    classes, and so treat the code units above 255, which the model does
    not have, as they treat those from 128 to 255. *)
Module JSText.

(** [s.padStart(targetLength, c)] for a one-character pad string. *)
Definition padStart (targetLength : nat) (c : ascii) (s : string) : string :=
  String.string_of_list_ascii (replicate (targetLength - String.length s) c) +:+ s.

(** [n.toString()] for an integer. *)
Definition toString (n : Z) : string := pretty n.

(** [s.substring(0, n)]. *)
Definition substring0 (n : nat) (s : string) : string := String.substring 0 n s.

(** [parts.filter(Boolean)] on strings that may be [undefined]. *)
Definition filterBoolean (parts : list (option string)) : list string :=
  omap (λ p, if JS.truthy p then p else None) parts.

(** [parts.join(sep)]. *)
Definition join (sep : string) (parts : list string) : string :=
  String.concat sep parts.

(** A code unit matched by [/[a-z0-9]/i]. *)
Definition alphanumeric (c : ascii) : bool :=
  let n := nat_of_ascii c in
  ((48 <=? n) && (n <=? 57) || (65 <=? n) && (n <=? 90) ||
   (97 <=? n) && (n <=? 122))%nat.

(** [s.replace(/[^a-z0-9]/gi, '_')]. *)
Fixpoint replaceNonAlphanumeric (s : string) : string :=
  match s with
  | EmptyString => EmptyString
  | String c r =>
      String (if alphanumeric c then c else "_"%char) (replaceNonAlphanumeric r)
  end.

End JSText.

(* ===================================================================== *)
(** * app/tests/[testId]/page.tsx: the controls of the test page *)
(* ===================================================================== *)

Module TestControls.
Import Types AnalyzeTestResults TestPage.

#[global] Instance TestStatus_eq_dec : EqDecision TestStatus.
Proof. solve_decision. Defined.

(** The signed-in user; only its [uid] is read. *)
Record User : Type := { uid : string }.

Definition formatTime (seconds : option Z) : string :=
  match seconds with
  | None => "N/A"
  | Some seconds =>
      let minutes := seconds `div` 60 in
      let secs := seconds `rem` 60 in
      JSText.padStart 2 "0" (JSText.toString minutes) +:+ ":" +:+
      JSText.padStart 2 "0" (JSText.toString secs)
  end.

(** [testSet?.questions?.[currentQuestionIndex]]. *)
Definition currentQuestion (testSet : option TestSet) (currentQuestionIndex : Z)
    : option TestQuestion :=
  t ← testSet;
  if bool_decide (0 ≤ currentQuestionIndex)
  then questions t !! Z.to_nat currentQuestionIndex
  else None.

(** The index after [handleNextQuestion]. *)
Definition handleNextQuestion (testSet : option TestSet) (currentQuestionIndex : Z) : Z :=
  match testSet with
  | Some t =>
      if bool_decide (currentQuestionIndex < Z.of_nat (length (questions t)) - 1)
      then currentQuestionIndex + 1 else currentQuestionIndex
  | None => currentQuestionIndex
  end.

(** The index after [handlePrevQuestion]. *)
Definition handlePrevQuestion (currentQuestionIndex : Z) : Z :=
  if bool_decide (currentQuestionIndex > 0)
  then currentQuestionIndex - 1 else currentQuestionIndex.

Definition canNavigatePrev (currentQuestionIndex : Z) : bool :=
  bool_decide (currentQuestionIndex > 0).

Definition canNavigateNext (testSet : option TestSet) (currentQuestionIndex : Z) : bool :=
  match testSet with
  | Some t => bool_decide (currentQuestionIndex < Z.of_nat (length (questions t)) - 1)
  | None => false
  end.

(** [userAnswers] after [handleAnswerChange]. *)
Definition handleAnswerChange (isSubmitting isAnalyzing : bool)
    (userAnswers : gmap string string) (questionId answerValue : string)
    : gmap string string :=
  if isSubmitting || isAnalyzing then userAnswers
  else <[questionId := answerValue]> userAnswers.

(** [questions.filter(q => !userAnswers[q.id]?.trim()).length]: the
    callback is run on every question, and an error it throws ends the
    filter. The read of [userAnswers] goes up the prototype chain. *)
Fixpoint countUnanswered (userAnswers : gmap string string)
    (questions : list TestQuestion) : Result nat :=
  match questions with
  | [] => Ok 0%nat
  | q :: rest =>
      unanswered ← blank "userAnswers[q.id]?.trim" (JS.get userAnswers (id q));
      n ← countUnanswered userAnswers rest;
      Ok (if unanswered : bool then S n else n)
  end.

Definition unansweredQuestions (t : TestSet) (userAnswers : gmap string string)
    : Result nat :=
  countUnanswered userAnswers (questions t).

(** How a call of [handleSubmitTest] ends. [Rejected] is an error thrown
    outside the [try] block: the promise the handler returns is rejected,
    and nothing is shown. *)
Inductive Outcome : Type :=
  | Returned
  | ConfirmationAsked
  | AnalysisComplete (report : TestAnalysisReport)
  | SubmissionFailed (submissionError : string)
  | Rejected (message : string).

Section handler.
Variable thePrompt : ProcessedData → Reply TestAnalysisReport.
(** The two calls to the document store, with what they resolve to or
    the message they reject with. *)
Variable submitTestAndSaveAnswers :
  string → string → gmap string string → Result (option TestSet).
Variable saveTestAnalysis : string → string → TestAnalysisReport → Result ().

Definition handleSubmitTest (user : option User) (testId : string)
    (testSet : option TestSet) (userAnswers : gmap string string)
    (forceSubmit : bool) : Outcome :=
  match user, testSet with
  | Some u, Some t =>
      match status t with
      | generated =>
          let confirm : Result bool :=
            if forceSubmit then Ok false
            else
              unanswered ← unansweredQuestions t userAnswers;
              Ok (bool_decide (0 < unanswered)%nat) in
          match confirm with
          | Throw message => Rejected message
          | Ok true => ConfirmationAsked
          | Ok false =>
              let failed (message : string) :=
                SubmissionFailed
                  (JS.string_or (Some message)
                     "Could not process your test. Please try again.") in
              match submitTestAndSaveAnswers (uid u) testId userAnswers with
              | Throw message => failed message
              | Ok None =>
                  failed "Failed to retrieve submitted test data for analysis after saving answers."
              | Ok (Some submittedTest) =>
                  match analysisResult thePrompt submittedTest with
                  | Throw message => failed message
                  | Ok report =>
                      match saveTestAnalysis (uid u) testId report with
                      | Throw message => failed message
                      | Ok _ => AnalysisComplete report
                      end
                  end
              end
          end
      | _ => Returned
      end
  | _, _ => Returned
  end.
End handler.

(** The countdown effect installs its interval unless this guard holds. *)
Definition timerStopped (status : option TestStatus) (timeLeft : option Z)
    (isSubmitting isAnalyzing : bool) : bool :=
  bool_decide (status ≠ Some generated) ||
  match timeLeft with
  | None => true
  | Some t => bool_decide (t ≤ 0)
  end || isSubmitting || isAnalyzing.

(** One run of the interval callback's updater on [prevTime]: the new
    [timeLeft], and whether [handleSubmitTest(true)] is called. *)
Definition tick (status : option TestStatus) (isSubmitting isAnalyzing : bool)
    (prevTime : option Z) : Z * bool :=
  match prevTime with
  | Some p =>
      if bool_decide (p > 0) then (p - 1, false)
      else (0, bool_decide (p ≤ 1) && bool_decide (status = Some generated) &&
               negb isSubmitting && negb isAnalyzing)
  | None => (0, false)
  end.

End TestControls.

(* ===================================================================== *)
(** * lib/database.ts (file unnamed/part_000): conversations, test sets,
      flashcards *)
(* ===================================================================== *)

(** The document store is outside this development. A function that
    writes to it is given the key its [push] produces and the clock
    readings it takes, and returns what it hands to [set] together with
    its own result. The two functions that write flashcards are also
    given what the store answers to each of their writes, [Ok ()] or a
    rejection; in the other functions the store is taken to accept the
    write. *)
Module Database.
Import Types TestControls SummarizeConversation.

Inductive Role : Type := role_user | role_assistant.

Definition role_text (r : Role) : string :=
  match r with role_user => "user" | role_assistant => "assistant" end.

Record Message : Type := {
  m_id : string;
  role : Role;
  content : string;
  timestamp : string;
  imageUrl : option string;
}.

Record Conversation : Type := {
  c_id : string;
  c_title : string;
  c_createdAt : string;
  c_updatedAt : string;
  messages : list Message;
  c_userId : string;
}.

(** The title [createNewConversation] starts from. *)
Definition defaultTitle (content : string) : string :=
  JSText.substring0 50 content +:+
  (if bool_decide (50 < String.length content)%nat then "..." else "").

Section createNewConversation.
Variable prompt : SummarizeConversationInput → Reply SummarizeConversationOutput.
Variable key : option string.
Variable createdAt updatedAt : string.

Definition createNewConversation (user : option User) (firstMessage : Message)
    : M SummarizeConversationInput (string * Conversation) :=
  match user with
  | Some u =>
      if JS.truthy (Some (uid u)) then
        let conversationHistoryText :=
          role_text (role firstMessage) +:+ ": " +:+ content firstMessage in
        (** [try { title = (await summarize(...)).summary } catch {}]: a
            rejection leaves the default title. *)
        title ← (λ calls,
          match summarizeConversation prompt
                  {| conversationHistory := conversationHistoryText |} calls with
          | (Ok summaryResult, calls') => (Ok (summary summaryResult), calls')
          | (Throw _, calls') => (Ok (defaultTitle (content firstMessage)), calls')
          end);
        if JS.truthy key then
          let newConversationId := default "" key in
          mret (newConversationId,
                {| c_id := newConversationId; c_title := title;
                   c_createdAt := createdAt; c_updatedAt := updatedAt;
                   messages := [firstMessage]; c_userId := uid u |})
        else throw "Failed to generate conversation ID."
      else throw "User not authenticated."
  | None => throw "User not authenticated."
  end.
End createNewConversation.

Record TestDetails : Type := {
  td_title : string;
  td_subject : option string;
  td_description : option string;
  td_numSubjective : Z;
  td_numObjective : Z;
  td_timeLimitMinutes : option JS.number;
}.

(** The test set as it is first written; its questions are stored as
    they are given. *)
Record NewTestSet (Q : Type) : Type := {
  n_id : string;
  n_userId : string;
  n_title : string;
  n_subject : string;
  n_description : string;
  n_numSubjective : Z;
  n_numObjective : Z;
  n_timeLimitMinutes : JS.number;
  n_questions : list Q;
  n_createdAt : string;
  n_updatedAt : string;
  n_status : TestStatus;
}.
Arguments n_id {Q}. Arguments n_userId {Q}. Arguments n_title {Q}.
Arguments n_subject {Q}. Arguments n_description {Q}.
Arguments n_numSubjective {Q}. Arguments n_numObjective {Q}.
Arguments n_timeLimitMinutes {Q}. Arguments n_questions {Q}.
Arguments n_createdAt {Q}. Arguments n_updatedAt {Q}. Arguments n_status {Q}.

Definition createTestSetAndGenerateQuestions {Q : Type} (key : option string)
    (createdAt updatedAt : string) (userId : string) (testDetails : TestDetails)
    (generatedQuestions : list Q) : Result (string * NewTestSet Q) :=
  if negb (JS.truthy (Some userId)) then Throw "User not authenticated."
  else if negb (JS.truthy key) then Throw "Failed to generate test set ID."
  else
    let testSetId := default "" key in
    Ok (testSetId,
        {| n_id := testSetId; n_userId := userId;
           n_title := td_title testDetails;
           n_subject := JS.string_or (td_subject testDetails) "";
           n_description := JS.string_or (td_description testDetails) "";
           n_numSubjective := td_numSubjective testDetails;
           n_numObjective := td_numObjective testDetails;
           n_timeLimitMinutes :=
             JS.number_or (td_timeLimitMinutes testDetails) (JS.Num 60);
           n_questions := generatedQuestions;
           n_createdAt := createdAt; n_updatedAt := updatedAt;
           n_status := generated |}).

Record FlashcardSet : Type := {
  fs_id : string;
  fs_userId : string;
  fs_title : string;
  fs_subject : option string;
  fs_chapter : option string;
  fs_createdAt : string;
  fs_updatedAt : string;
  flashcardCount : option Z;
}.

Record Flashcard : Type := {
  f_id : string;
  setId : string;
  frontText : string;
  backText : string;
  f_createdAt : string;
  f_updatedAt : string;
}.

(** [stored] is what [await set(newSetRef, setData)] gives. *)
Definition createFlashcardSet (key : option string) (stored : Result ())
    (createdAt updatedAt : string)
    (userId title : string) (subject chapter : option string)
    : Result (string * FlashcardSet) :=
  if negb (JS.truthy (Some userId)) then Throw "User not authenticated."
  else if negb (JS.truthy key) then Throw "Failed to generate flashcard set ID."
  else
    let setId := default "" key in
    let setData :=
      {| fs_id := setId; fs_userId := userId; fs_title := title;
         fs_subject := Some (JS.string_or subject "");
         fs_chapter := Some (JS.string_or chapter "");
         fs_createdAt := createdAt; fs_updatedAt := updatedAt;
         flashcardCount := Some 0 |} in
    _ ← stored;
    Ok (setId, setData).

(** [stored] is what [await set(newCardRef, cardData)] gives, and
    [counted] what the [await update(setRef, ...)] gives that adds one to
    the [flashcardCount] of the set. The result is the card the store
    holds afterwards, if any, and what the function itself returns: the
    id of the card, or the error it throws. A card whose counter update
    is rejected stays written. *)
Definition addFlashcardToSet (key : option string) (stored counted : Result ())
    (createdAt updatedAt : string)
    (userId setId frontText backText : string) : option Flashcard * Result string :=
  if negb (JS.truthy key) then (None, Throw "Failed to generate flashcard ID.")
  else
    let cardId := default "" key in
    let cardData :=
      {| f_id := cardId; setId := setId; frontText := frontText;
         backText := backText; f_createdAt := createdAt;
         f_updatedAt := updatedAt |} in
    match stored with
    | Throw message => (None, Throw message)
    | Ok _ =>
        match counted with
        | Throw message => (Some cardData, Throw message)
        | Ok _ => (Some cardData, Ok cardId)
        end
    end.

End Database.

(* ===================================================================== *)
(** * app/tests/page.tsx: creating a test *)
(* ===================================================================== *)

Module TestsPage.
Import Types TestControls Database.

Record TestSetFormValues : Type := {
  title : string;
  subject : option string;
  description : option string;
  numSubjective : Z;
  numObjective : Z;
  timeLimitMinutes : Z;
}.

(** [testSetSchema], on values whose numbers are integers. *)
Definition testSetSchema (values : TestSetFormValues) : bool :=
  bool_decide (1 ≤ String.length (title values) ≤ 100)%nat &&
  bool_decide (String.length (default "" (subject values)) ≤ 50)%nat &&
  bool_decide (String.length (default "" (description values)) ≤ 500)%nat &&
  bool_decide (0 ≤ numSubjective values ≤ 20) &&
  bool_decide (0 ≤ numObjective values ≤ 20) &&
  bool_decide (10 ≤ timeLimitMinutes values ≤ 180) &&
  (bool_decide (numObjective values > 0) || bool_decide (numSubjective values > 0)).

(** How [handleCreateTestSet] ends, by the toast it shows. *)
Inductive CreateOutcome : Type :=
  | NotSignedIn
  | GenerationFailed
  | TestCreated (testSetId : string) (testSet : NewTestSet GenerateTest.TestQuestion)
  | CreationFailed.

Definition generateTestInput (values : TestSetFormValues) : GenerateTest.GenerateTestInput :=
  {| GenerateTest.title := title values;
     GenerateTest.subject := subject values;
     GenerateTest.description := description values;
     GenerateTest.numSubjective := numSubjective values;
     GenerateTest.numObjective := numObjective values |}.

Section handler.
Variable now : nat → N.
Variable prompt : GenerateTest.GenerateTestInput → Reply GenerateTest.GenerateTestOutput.
Variable key : option string.
Variable createdAt updatedAt : string.

(** The outcome, and the calls made to the model. *)
Definition handleCreateTestSet (user : option User) (values : TestSetFormValues)
    : CreateOutcome * list GenerateTest.GenerateTestInput :=
  match user with
  | None => (NotSignedIn, [])
  | Some u =>
      match run (GenerateTest.generateTest now prompt (generateTestInput values)) with
      | (Throw _, calls) => (CreationFailed, calls)
      | (Ok generatedTestOutput, calls) =>
          match GenerateTest.questions generatedTestOutput with
          | None | Some [] => (GenerationFailed, calls)
          | Some qs =>
              let testDetailsForDb :=
                {| td_title := title values; td_subject := subject values;
                   td_description := description values;
                   td_numSubjective := numSubjective values;
                   td_numObjective := numObjective values;
                   td_timeLimitMinutes := Some (JS.Num (timeLimitMinutes values)) |} in
              match createTestSetAndGenerateQuestions key createdAt updatedAt
                      (uid u) testDetailsForDb qs with
              | Ok (testSetId, testSet) => (TestCreated testSetId testSet, calls)
              | Throw _ => (CreationFailed, calls)
              end
          end
      end
  end.
End handler.

End TestsPage.

(* ===================================================================== *)
(** * app/flashcards/page.tsx (file unnamed/part_005): creating a set of
      flashcards *)
(* ===================================================================== *)

Module FlashcardsPage.
Import TestControls Database.

Record FlashcardSetFormValues : Type := {
  title : string;
  subject : option string;
  chapter : option string;
}.

(** [[title, subject, chapter].filter(Boolean).join(" - ") || "General Knowledge"]. *)
Definition topicOf (values : FlashcardSetFormValues) : string :=
  let topicParts :=
    JSText.filterBoolean [Some (title values); subject values; chapter values] in
  JS.string_or (Some (JSText.join " - " topicParts)) "General Knowledge".

(** What [handleCreateSet] has written when it ends. *)
Inductive Written : Type :=
  | WrittenSet (setId : string) (set : FlashcardSet)
  | WrittenCard (cardId : string) (card : Flashcard).

Definition writtenCard (card : option Flashcard) : list Written :=
  match card with
  | Some card => [WrittenCard (f_id card) card]
  | None => []
  end.

Inductive SetOutcome : Type :=
  | SetNotSignedIn
  | SetGenerationFailed
  | FlashcardsAdded (count : nat)
  | SetCreationFailed.

Section handler.
Variable prompt :
  GenerateMultipleFlashcards.GenerateMultipleFlashcardsInput →
  Reply GenerateMultipleFlashcards.GenerateMultipleFlashcardsOutput.
(** The key of the set and what the store answers to its write; the key
    of the card written at each position, and what the store answers to
    the write of that card and to the update of the counter after it. *)
Variable setKey : option string.
Variable setStored : Result ().
Variable cardKey : nat → option string.
Variable cardStored countRaised : nat → Result ().
Variable createdAt updatedAt : string.

(** [for (const card of flashcards) await addFlashcardToSet(...)], from
    position [index] on: the cards written, and whether the loop ran to
    its end. *)
Fixpoint addCards (userId setId : string) (index : nat)
    (cards : list GenerateMultipleFlashcards.FlashcardPair) : list Written * bool :=
  match cards with
  | [] => ([], true)
  | card :: rest =>
      match addFlashcardToSet (cardKey index) (cardStored index) (countRaised index)
              createdAt updatedAt userId setId
              (GenerateMultipleFlashcards.questionText card)
              (GenerateMultipleFlashcards.answerText card) with
      | (written, Ok _) =>
          let '(more, done) := addCards userId setId (S index) rest in
          (writtenCard written ++ more, done)
      | (written, Throw _) => (writtenCard written, false)
      end
  end.

(** The outcome, the calls made to the model, and what was written. The
    flow resolves to an output that has its list of cards, so that of
    the three tests after the call only the one on the length can hold. *)
Definition handleCreateSet (user : option User) (values : FlashcardSetFormValues)
    : SetOutcome * list GenerateMultipleFlashcards.GenerateMultipleFlashcardsInput *
      list Written :=
  match user with
  | None => (SetNotSignedIn, [], [])
  | Some u =>
      match run (GenerateMultipleFlashcards.generateMultipleFlashcards prompt
                   {| GenerateMultipleFlashcards.topic := topicOf values;
                      GenerateMultipleFlashcards.numberOfCards := Some (JS.Num 5) |}) with
      | (Throw _, calls) => (SetCreationFailed, calls, [])
      | (Ok aiGeneratedCards, calls) =>
          match GenerateMultipleFlashcards.flashcards aiGeneratedCards with
          | [] => (SetGenerationFailed, calls, [])
          | cards =>
              match createFlashcardSet setKey setStored createdAt updatedAt (uid u)
                      (title values) (subject values) (chapter values) with
              | Throw _ => (SetCreationFailed, calls, [])
              | Ok (setId, set) =>
                  let '(written, done) := addCards (uid u) setId 0 cards in
                  (if done then FlashcardsAdded (length cards) else SetCreationFailed,
                   calls, WrittenSet setId set :: written)
              end
          end
      end
  end.
End handler.

End FlashcardsPage.

(* ===================================================================== *)
(** * app/planner/page.tsx: the name of the downloaded plan *)
(* ===================================================================== *)

Module PlannerPage.

(** The [fileName] of [handleDownloadPlan]. *)
Definition fileName (planTitle : option string) : string :=
  JS.toLowerCase (JSText.replaceNonAlphanumeric (JS.string_or planTitle "Study Plan")).

(** [link.download]. *)
Definition download (planTitle : option string) : string :=
  fileName planTitle +:+ ".ics".

End PlannerPage.

(* ===================================================================== *)
(** * The page of one set of flashcards, [FlashcardSetPage] (second part
      of file app/signup/page.tsx) *)
(* ===================================================================== *)

Module FlashcardSetPage.
Import TestControls Database.

(** The three state variables of the study session. *)
Record StudyState : Type := {
  isStudySessionActive : bool;
  currentStudyCardIndex : Z;
  isStudyCardFlipped : bool;
}.

Definition handleStartStudySession (flashcards : list Flashcard) (st : StudyState)
    : StudyState :=
  if bool_decide (length flashcards = 0%nat) then st
  else {| isStudySessionActive := true; currentStudyCardIndex := 0;
          isStudyCardFlipped := false |}.

Definition handleStudyNext (flashcards : list Flashcard) (st : StudyState)
    : StudyState :=
  if bool_decide (currentStudyCardIndex st < Z.of_nat (length flashcards) - 1) then
    {| isStudySessionActive := isStudySessionActive st;
       currentStudyCardIndex := currentStudyCardIndex st + 1;
       isStudyCardFlipped := false |}
  else st.

Definition handleStudyPrev (st : StudyState) : StudyState :=
  if bool_decide (currentStudyCardIndex st > 0) then
    {| isStudySessionActive := isStudySessionActive st;
       currentStudyCardIndex := currentStudyCardIndex st - 1;
       isStudyCardFlipped := false |}
  else st.

Definition handleToggleStudyFlip (st : StudyState) : StudyState :=
  {| isStudySessionActive := isStudySessionActive st;
     currentStudyCardIndex := currentStudyCardIndex st;
     isStudyCardFlipped := negb (isStudyCardFlipped st) |}.

(** [flashcards[currentStudyCardIndex]], the card the session shows. *)
Definition currentStudyCard (flashcards : list Flashcard) (st : StudyState)
    : option Flashcard :=
  if bool_decide (0 ≤ currentStudyCardIndex st)
  then flashcards !! Z.to_nat (currentStudyCardIndex st) else None.

(** The toast [handleGenerateAnswer] shows. *)
Inductive AnswerToast : Type := QuestionNeeded | AnswerGenerated | AIError.

(** [handleGenerateAnswer]: the [backText] of the form afterwards, the
    toast, and the calls made to the model. *)
Definition handleGenerateAnswer
    (prompt : GenerateFlashcardAnswer.GenerateFlashcardAnswerInput →
              Reply GenerateFlashcardAnswer.GenerateFlashcardAnswerOutput)
    (frontText backText : string)
    : string * AnswerToast * list GenerateFlashcardAnswer.GenerateFlashcardAnswerInput :=
  if JS.trim_is_empty frontText then (backText, QuestionNeeded, [])
  else
    match run (GenerateFlashcardAnswer.generateFlashcardAnswer prompt
                 {| GenerateFlashcardAnswer.questionText := frontText |}) with
    | (Ok result, calls) =>
        (GenerateFlashcardAnswer.answerText result, AnswerGenerated, calls)
    | (Throw _, calls) => (backText, AIError, calls)
    end.

(** [[title, subject, chapter].filter(Boolean).join(" - ") || "General"]. *)
Definition topicOf (setDetails : FlashcardSet) : string :=
  let topicParts :=
    JSText.filterBoolean
      [Some (fs_title setDetails); fs_subject setDetails; fs_chapter setDetails] in
  JS.string_or (Some (JSText.join " - " topicParts)) "General".

Inductive MoreOutcome : Type :=
  | NotAvailable
  | MoreGenerationFailed
  | MoreAdded (count : nat)
  | MoreFailed.

Section handler.
Variable prompt :
  GenerateMultipleFlashcards.GenerateMultipleFlashcardsInput →
  Reply GenerateMultipleFlashcards.GenerateMultipleFlashcardsOutput.
Variable cardKey : nat → option string.
Variable cardStored countRaised : nat → Result ().
Variable createdAt updatedAt : string.

(** The outcome, the calls made to the model, and the cards written; the
    loop over the cards is the one of [handleCreateSet]. *)
Definition handleGenerateMoreCards (user : option User)
    (setDetails : option FlashcardSet) (setId : string)
    : MoreOutcome * list GenerateMultipleFlashcards.GenerateMultipleFlashcardsInput *
      list FlashcardsPage.Written :=
  match user, setDetails with
  | Some u, Some setDetails =>
      match run (GenerateMultipleFlashcards.generateMultipleFlashcards prompt
                   {| GenerateMultipleFlashcards.topic := topicOf setDetails;
                      GenerateMultipleFlashcards.numberOfCards := Some (JS.Num 5) |}) with
      | (Throw _, calls) => (MoreFailed, calls, [])
      | (Ok aiGeneratedCards, calls) =>
          match GenerateMultipleFlashcards.flashcards aiGeneratedCards with
          | [] => (MoreGenerationFailed, calls, [])
          | cards =>
              let '(written, done) :=
                FlashcardsPage.addCards cardKey cardStored countRaised
                  createdAt updatedAt (uid u) setId 0 cards in
              (if done then MoreAdded (length cards) else MoreFailed, calls, written)
          end
      end
  | _, _ => (NotAvailable, [], [])
  end.
End handler.

End FlashcardSetPage.

(* ===================================================================== *)
(** * lib/database.ts (file unnamed/part_000): the community and the list
      of conversations *)
(* ===================================================================== *)

Module Community.

Record CommunityComment : Type := {
  cc_id : string;
  cc_postId : string;
  cc_userId : string;
  cc_username : string;
  cc_text : string;
  cc_timestamp : string;
  cc_updatedAt : option string;
  cc_likes : option JS.number;
  cc_likedBy : option (gmap string bool);
}.

Record CommunityPost : Type := {
  cp_id : string;
  cp_userId : string;
  cp_username : string;
  cp_questionText : string;
  cp_imageUrl : option string;
  cp_timestamp : string;
  cp_updatedAt : option string;
  cp_likes : option JS.number;
  cp_likedBy : option (gmap string bool);
  cp_comments : option (gmap string CommunityComment);
  cp_commentCount : option JS.number;
}.


Definition addCommentToCommunityPost (key : option string) (timestamp : string)
    (postId userId username text : string) : Result (string * CommunityComment) :=
  if negb (JS.truthy key) then Throw "Failed to generate comment ID."
  else
    let commentId := default "" key in
    Ok (commentId,
        {| cc_id := commentId; cc_postId := postId; cc_userId := userId;
           cc_username := username; cc_text := text; cc_timestamp := timestamp;
           cc_updatedAt := None;
           cc_likes := Some (JS.Num 0); cc_likedBy := Some ∅ |}).

(** The body shared, word for word, by the update functions of
    [likeCommunityPost] and [likeCommunityComment], on the two fields it
    touches. A missing [likedBy] is replaced by the empty object first.
    [likedBy[userId]] is read as an own property of the object: a user id
    is not the name of a property of [Object.prototype]. *)
Definition toggleLike (userId : string)
    (likes : option JS.number) (likedBy : option (gmap string bool))
    : option JS.number * option (gmap string bool) :=
  let likedBy := default ∅ likedBy in
  if default false (likedBy !! userId) then
    (Some (JS.sub (JS.number_or likes (JS.Num 0)) (JS.Num 1)),
     Some (delete userId likedBy))
  else
    (Some (JS.add (JS.number_or likes (JS.Num 0)) (JS.Num 1)),
     Some (<[userId := true]> likedBy)).

(** The update function [likeCommunityPost] hands to [runTransaction]. *)
Definition likeCommunityPost (userId : string) (post : option CommunityPost)
    : option CommunityPost :=
  match post with
  | Some post =>
      let '(likes, likedBy) := toggleLike userId (cp_likes post) (cp_likedBy post) in
      Some {| cp_id := cp_id post; cp_userId := cp_userId post;
              cp_username := cp_username post;
              cp_questionText := cp_questionText post;
              cp_imageUrl := cp_imageUrl post; cp_timestamp := cp_timestamp post;
              cp_updatedAt := cp_updatedAt post;
              cp_likes := likes; cp_likedBy := likedBy;
              cp_comments := cp_comments post;
              cp_commentCount := cp_commentCount post |}
  | None => None
  end.

(** The update function [likeCommunityComment] hands to [runTransaction]. *)
Definition likeCommunityComment (userId : string) (comment : option CommunityComment)
    : option CommunityComment :=
  match comment with
  | Some comment =>
      let '(likes, likedBy) :=
        toggleLike userId (cc_likes comment) (cc_likedBy comment) in
      Some {| cc_id := cc_id comment; cc_postId := cc_postId comment;
              cc_userId := cc_userId comment; cc_username := cc_username comment;
              cc_text := cc_text comment; cc_timestamp := cc_timestamp comment;
              cc_updatedAt := cc_updatedAt comment;
              cc_likes := likes; cc_likedBy := likedBy |}
  | None => None
  end.

End Community.

Module ConversationList.

(** A conversation as the snapshot holds it; every field may be missing. *)
Record ConversationNode : Type := {
  cn_title : option string;
  cn_updatedAt : option string;
  cn_createdAt : option string;
}.

Record ConversationListItem : Type := {
  li_id : string;
  li_title : string;
  lastMessageAt : option string;
}.

Section getConversationList.
(** [Date_getTime s] stands for [new Date(s).getTime()], which is [NaN]
    for [undefined]. *)
Variable Date_getTime : string → JS.number.

Definition getTime (s : option string) : JS.number :=
  match s with Some s => Date_getTime s | None => JS.NaN end.

Definition toListItem (entry : string * ConversationNode) : ConversationListItem :=
  let '(id, convo) := entry in
  {| li_id := id;
     li_title := JS.string_or (cn_title convo) "Untitled Conversation";
     lastMessageAt :=
       if JS.truthy (cn_updatedAt convo) then cn_updatedAt convo
       else cn_createdAt convo |}.

(** The comparator of the sort: the later conversation first. *)
Definition compareItems (a b : ConversationListItem) : JS.number :=
  JS.sub (getTime (lastMessageAt b)) (getTime (lastMessageAt a)).

(** The list handed to the callback for a snapshot; [conversationsData]
    is the value of the snapshot, with its entries in the order of
    [Object.entries]. *)
Definition getConversationList
    (conversationsData : option (list (string * ConversationNode)))
    : list ConversationListItem :=
  match conversationsData with
  | Some entries => JS.sort compareItems (toListItem <$> entries)
  | None => []
  end.
End getConversationList.

End ConversationList.

(* ===================================================================== *)
(** * Vocabulary of the properties, and sample data *)
(* ===================================================================== *)

(** How a run ends. *)
Definition throws {A C : Type} (outcome : Result A * list C) : Prop :=
  ∃ message, outcome.1 = Throw message.

Definition returns {A C : Type} (outcome : Result A * list C) : Prop :=
  ∃ a, outcome.1 = Ok a.

(** The order a sort by [key] aims at, and the keys it can order. *)
Definition key_le {A : Type} (key : A → JS.number) (a b : A) : Prop :=
  JS.le (key a) (key b).

Definition numeric {A : Type} (key : A → JS.number) (a : A) : Prop :=
  key a ≠ JS.NaN.

Section vocabulary_generate_test.
Import Types(QuestionType(..)).
Import GenerateTest.

(** The two messages with which the flow rejects a request. *)
Definition InputValidationError (message : string) : Prop :=
  message = "Total number of questions must be greater than 0." ∨
  message = "Cannot generate more than 20 questions in total at once.".

Definition sample_request (nS nO : Z) : GenerateTestInput :=
  {| title := "Algebra"; subject := None; description := None;
     numSubjective := nS; numObjective := nO |}.

(** An id that is present and not the empty string. *)
Definition has_id (i : option string) : Prop := ∃ v, i = Some v ∧ v ≠ "".

(** The options of [q] whose id is [key]. *)
Definition optionsWithId (key : string) (opts : list TestQuestionOption)
    : list TestQuestionOption :=
  filter (λ o, o_id o = Some key) opts.

(** How a returned option [o'] stands to the model's option [o]: it has
    a non-empty id, the model's when that was one, and the model's text. *)
Definition filledOption (o o' : TestQuestionOption) : Prop :=
  has_id (o_id o') ∧
  (JS.truthy (o_id o) = true → o_id o' = o_id o) ∧
  o_text o' = o_text o.

(** How a returned question [q'] stands to the model's question [q]. The
    options of an objective question are the model's, one for one and in
    the model's order, and none when the model gave no list. *)
Definition filled (q q' : TestQuestion) : Prop :=
  has_id (q_id q') ∧
  (JS.truthy (q_id q) = true → q_id q' = q_id q) ∧
  q_type q' = q_type q ∧
  questionText q' = questionText q ∧
  correctAnswerText q' = correctAnswerText q ∧
  match q_type q' with
  | objective =>
      ∃ opts', options q' = Some opts' ∧
        Forall2 filledOption (default [] (options q)) opts' ∧
        correctAnswerKey q' = correctAnswerKey q
  | subjective => options q' = None ∧ correctAnswerKey q' = None
  end.

(** A model answer with one objective question whose key names none of
    its options. *)
Definition stray_key_question : TestQuestion :=
  {| q_id := Some "q1"; q_type := objective; questionText := "Capital of France?";
     options := Some [ {| o_id := Some "a"; o_text := "Paris" |};
                       {| o_id := Some "b"; o_text := "Rome" |} ];
     correctAnswerKey := Some "c"; correctAnswerText := Some "Paris" |}.

Definition stray_key_model (_ : GenerateTestInput) : Reply GenerateTestOutput :=
  Responds (Some {| questions := Some [stray_key_question] |}).

(** A model answer the output schema accepts, with an empty question id. *)
Definition unnamed_question : GenerateTest.TestQuestion :=
  {| GenerateTest.q_id := Some ""; GenerateTest.q_type := subjective;
     GenerateTest.questionText := "Explain osmosis.";
     GenerateTest.options := None; GenerateTest.correctAnswerKey := None;
     GenerateTest.correctAnswerText := None |}.

Definition unnamed_model (_ : GenerateTest.GenerateTestInput)
    : Reply GenerateTest.GenerateTestOutput :=
  Responds (Some {| GenerateTest.questions := Some [unnamed_question] |}).
End vocabulary_generate_test.

Section vocabulary_study_plan.
Import GenerateStudyPlan.

(** A one- or two-digit number. *)
Definition twoDigits (s : string) : option Z :=
  if bool_decide (1 ≤ String.length s ≤ 2)%nat then JS.digits_value 0 s else None.

(** The 12-hour clock format ["hh:mm AM"] / ["hh:mm PM"]: the hour, the
    minutes, and whether the modifier is PM. *)
Definition parseClock (s : string) : option (Z * Z * bool) :=
  match JS.split " " s with
  | [time; modifier] =>
      match JS.split ":" time with
      | [hh; mm] =>
          match twoDigits hh, twoDigits mm with
          | Some h, Some m =>
              if bool_decide (1 ≤ h ≤ 12 ∧ 0 ≤ m ≤ 59 ∧ String.length mm = 2%nat) then
                if bool_decide (modifier = "AM") then Some (h, m, false)
                else if bool_decide (modifier = "PM") then Some (h, m, true)
                else None
              else None
          | _, _ => None
          end
      | _ => None
      end
  | _ => None
  end.

Definition clockTime (s : string) : Prop := is_Some (parseClock s).

(** Minutes since midnight of a 12-hour clock reading, in the words of
    the claim: 12 AM is hour 0, and PM adds 12 to an hour below 12. *)
Definition minutesSinceMidnight (h m : Z) (pm : bool) : Z :=
  (if pm then (if bool_decide (h < 12) then h + 12 else h)
   else (if bool_decide (h = 12) then 0 else h)) * 60 + m.

(** The minutes since midnight a start time stands for, when it is in
    the clock format. This is the reading of the claim, which owes
    nothing to [convertTime]; [convertTime_clock] below compares the
    two. *)
Definition clockMinutes (s : string) : option Z :=
  '(h, m, pm) ← parseClock s; Some (minutesSinceMidnight h m pm).

(** The two orders of the claim: by date, and by start time in minutes
    since midnight. *)
Definition dateOrder (Date_getTime : string → JS.number) (a b : DailySessions) : Prop :=
  JS.le (Date_getTime (date a)) (Date_getTime (date b)).

Definition startOrder (s1 s2 : StudySession) : Prop :=
  match clockMinutes (startTime s1), clockMinutes (startTime s2) with
  | Some m1, Some m2 => m1 ≤ m2
  | _, _ => False
  end.

#[global] Instance dateOrder_dec g a b : Decision (dateOrder g a b).
Proof. unfold dateOrder. apply _. Defined.

#[global] Instance startOrder_dec a b : Decision (startOrder a b).
Proof.
  unfold startOrder.
  destruct (clockMinutes (startTime a)), (clockMinutes (startTime b)); apply _.
Defined.

(** A day of the model's answer that the comparators can order: its date
    is a valid date and its start times are in the clock format. *)
Definition orderable (Date_getTime : string → JS.number) (day : DailySessions) : Prop :=
  Date_getTime (date day) ≠ JS.NaN ∧
  Forall (λ s, clockTime (startTime s)) (default [] (sessions day)).

#[global] Instance orderable_dec g day : Decision (orderable g day).
Proof. unfold orderable, clockTime. apply _. Defined.

(** [day'] is [day] with its sessions in some other order. *)
Definition rearranged (day day' : DailySessions) : Prop :=
  date day' = date day ∧
  match sessions day, sessions day' with
  | Some ss, Some ss' => ss' ≡ₚ ss
  | None, None => True
  | _, _ => False
  end.

Definition sessionsSorted (day : DailySessions) : Prop :=
  StronglySorted startOrder (default [] (sessions day)).

Definition session (day start stop : string) : StudySession :=
  {| s_date := day; startTime := start; endTime := stop;
     s_subject := "Biology"; activity := "Review"; isBreak := false |}.

Definition sample_plan_request : GenerateStudyPlanInput :=
  {| exams := [ {| exam_id := "e1"; exam_subject := "Biology";
                   exam_date := "2025-03-10"; exam_type := None |} ];
     weakAreas := None; learningPace := moderate; studyHoursPerWeek := None;
     preferredStudyDays := Some [Monday; Wednesday]; notes := None |}.

(** A plan whose days and sessions come out of order. *)
Definition shuffled_days : list DailySessions :=
  [ {| date := "2025-03-02";
       sessions := Some [ session "2025-03-02" "02:00 PM" "03:00 PM";
                          session "2025-03-02" "12:00 PM" "01:00 PM";
                          session "2025-03-02" "09:00 AM" "10:00 AM" ] |};
    {| date := "2025-03-01";
       sessions := Some [ session "2025-03-01" "12:30 AM" "01:00 AM" ] |} ].

Definition shuffled_plan : GenerateStudyPlanOutput :=
  {| planTitle := None; dailySessions := Some shuffled_days; summaryNotes := None |}.

(** A plan the output schema accepts (its fields are strings) with a
    start time that is not in the clock format. *)
Definition noon_sessions : list StudySession :=
  [ session "2025-03-01" "10:00 AM" "11:00 AM";
    session "2025-03-01" "noon" "01:00 PM";
    session "2025-03-01" "09:00 AM" "09:45 AM" ].

Definition noon_plan : GenerateStudyPlanOutput :=
  {| planTitle := None;
     dailySessions := Some [ {| date := "2025-03-01"; sessions := Some noon_sessions |} ];
     summaryNotes := None |}.

(** A plan the output schema accepts with a date that is no date,
    between two days that are out of order. *)
Definition someday_days : list DailySessions :=
  [ {| date := "2025-03-02"; sessions := Some [] |};
    {| date := "someday"; sessions := Some [] |};
    {| date := "2025-03-01"; sessions := Some [] |} ].

Definition someday_plan : GenerateStudyPlanOutput :=
  {| planTitle := None; dailySessions := Some someday_days; summaryNotes := None |}.
End vocabulary_study_plan.

Section vocabulary_analysis.
Import Types AnalyzeTestResults TestPage.

(** [o] is the first entry of [opts] whose id is [r]: the one
    [opts.find(opt => opt.id === r)] returns. *)
Definition firstWithId (r : string) (opts : list TestQuestionOption)
    (o : TestQuestionOption) : Prop :=
  ∃ before after,
    opts = before ++ o :: after ∧ opt_id o = r ∧
    Forall (λ o', opt_id o' ≠ r) before.

(** The questions of the scenarios. *)
Definition capital_question : TestQuestion :=
  {| id := "q1"; type := objective; questionText := "Capital of France?";
     options := Some [ {| opt_id := "a"; opt_text := "Paris" |};
                       {| opt_id := "b"; opt_text := "Rome" |} ];
     correctAnswerKey := Some "a"; correctAnswerText := Some "Paris" |}.

Definition bare_question : TestQuestion :=
  {| id := "q2"; type := objective; questionText := "Largest planet?";
     options := None; correctAnswerKey := Some "b";
     correctAnswerText := Some "Jupiter" |}.

Definition essay_question : TestQuestion :=
  {| id := "q3"; type := subjective; questionText := "Explain osmosis.";
     options := None; correctAnswerKey := None;
     correctAnswerText := Some "Water moves across a membrane." |}.

(** Questions whose id is the name of a member of [Object.prototype]. *)
Definition constructor_question : TestQuestion :=
  {| id := "constructor"; type := objective; questionText := "Capital of France?";
     options := Some [ {| opt_id := "a"; opt_text := "Paris" |};
                       {| opt_id := "b"; opt_text := "Rome" |} ];
     correctAnswerKey := Some "a"; correctAnswerText := Some "Paris" |}.

Definition toString_question : TestQuestion :=
  {| id := "toString"; type := subjective; questionText := "Explain osmosis.";
     options := None; correctAnswerKey := None;
     correctAnswerText := Some "Water moves across a membrane." |}.

Definition valueOf_question : TestQuestion :=
  {| id := "valueOf"; type := objective; questionText := "Largest planet?";
     options := None; correctAnswerKey := Some "b";
     correctAnswerText := Some "Jupiter" |}.

Definition inherited_analysis_input : AnalyzeTestResultsInput :=
  {| testTitle := "Quiz"; testSubject := None; testDescription := None;
     in_questions := [constructor_question; toString_question];
     in_userResponses := ∅ |}.

Definition sample_analysis_input (responses : gmap string string)
    : AnalyzeTestResultsInput :=
  {| testTitle := "Quiz"; testSubject := None; testDescription := None;
     in_questions := [capital_question; bare_question; essay_question];
     in_userResponses := responses |}.

(** The response stored for [q]: the entry that [userResponses] itself
    has under the id of [q]. *)
Definition storedResponse (responses : option (gmap string string))
    (q : TestQuestion) : option string :=
  rs ← responses; rs !! id q.

(** The read of the response to [q] finds a member of
    [Object.prototype]: the id of [q] is the name of one, and the object
    holds no response under it. *)
Definition readsInherited (responses : gmap string string) (q : TestQuestion) : Prop :=
  responses !! id q = None ∧ id q ∈ JS.Object_prototype.

#[global] Instance readsInherited_dec responses q : Decision (readsInherited responses q).
Proof. unfold readsInherited. apply _. Defined.

(** The same for the responses of a stored test, which may be missing
    as a whole; nothing is read from a missing object. *)
Definition inheritedResponse (responses : option (gmap string string))
    (q : TestQuestion) : Prop :=
  match responses with
  | Some rs => readsInherited rs q
  | None => False
  end.

#[global] Instance inheritedResponse_dec responses q :
  Decision (inheritedResponse responses q).
Proof. unfold inheritedResponse. destruct responses; apply _. Defined.

(** No subjective question has its response read from the prototype
    chain. *)
Definition readable (responses : option (gmap string string))
    (qs : list TestQuestion) : Prop :=
  Forall (λ q, type q = subjective → ¬ inheritedResponse responses q) qs.

(** The white space of ECMAScript among the code units of the model:
    TAB, LF, VT, FF, CR, SPACE and the no-break space. *)
Definition whiteSpaceUnits : list nat := [9; 10; 11; 12; 13; 32; 160]%nat.

(** A string of white space only, the empty string among them. This is
    said of the string itself and owes nothing to [JS.trim_is_empty];
    [trim_is_empty_whiteSpace] below compares the two. *)
Definition whiteSpace (s : string) : Prop :=
  Forall (λ c, nat_of_ascii c ∈ whiteSpaceUnits) (String.list_ascii_of_string s).

#[global] Instance whiteSpace_dec s : Decision (whiteSpace s).
Proof. unfold whiteSpace. apply _. Defined.

(** The page holds no answer for [q], or one that [trim] leaves empty. *)
Definition blankAnswer (userAnswers : gmap string string) (q : TestQuestion) : Prop :=
  match userAnswers !! id q with
  | Some s => whiteSpace s
  | None => True
  end.

#[global] Instance blankAnswer_dec userAnswers q : Decision (blankAnswer userAnswers q).
Proof. unfold blankAnswer. destruct (userAnswers !! id q); apply _. Defined.

(** The no-break space U+00A0, a string of one code unit. *)
Definition no_break_space : string := String (ascii_of_nat 160) "".

(** The stored response of an objective question is its key. *)
Definition matchesKey (responses : option (gmap string string))
    (q : TestQuestion) : Prop :=
  ∃ r, r ≠ "" ∧ storedResponse responses q = Some r ∧ correctAnswerKey q = Some r.

#[global] Instance matchesKey_dec responses q : Decision (matchesKey responses q).
Proof.
  unfold matchesKey. destruct (storedResponse responses q) as [r |].
  - destruct (decide (r ≠ "" ∧ correctAnswerKey q = Some r)) as [[Hr Hk] | Hno].
    + left. by exists r.
    + right. intros (r' & Hr & [= <-] & Hk). by apply Hno.
  - right. by intros (r & _ & [=] & _).
Defined.

(** [a] is an entry the map callback returns for [q]. *)
Definition entryOf (responses : option (gmap string string))
    (q : TestQuestion) (a : QuestionAnalysis) : Prop :=
  ∃ c c', analyseQuestion responses q c = Ok (a, c').

Definition objectiveQuestions (qs : list TestQuestion) : list TestQuestion :=
  filter (λ q, type q = objective) qs.

(** The objective questions whose stored response is their key. *)
Definition correctQuestions (responses : option (gmap string string))
    (qs : list TestQuestion) : list TestQuestion :=
  filter (λ q, type q = objective ∧ matchesKey responses q) qs.

(** The report fits the shape a [TestAnalysisReport] has by its schema
    and the specification's data model: a score that is [null] or within
    0 and 100, and one entry for each question. *)
Definition conformant (t : TestSet) (report : TestAnalysisReport) : Prop :=
  match overallScore report with
  | Some p => (Qc_of_Z 0 ≤ p ≤ Qc_of_Z 100)%Qc
  | None => True
  end ∧
  length (questionAnalyses report) = length (questions t) ∧
  Forall (λ a, ∃ text, userAnswerText a = JS.Text text) (questionAnalyses report).

Definition sample_test (qs : list TestQuestion)
    (responses : option (gmap string string)) : TestSet :=
  {| ts_id := "t1"; userId := "u1"; title := "Quiz"; subject := None;
     description := None; numSubjective := 1; numObjective := 1;
     timeLimitMinutes := None; questions := qs;
     createdAt := "2025-03-01T10:00:00.000Z";
     updatedAt := "2025-03-01T10:30:00.000Z"; status := submitted;
     submittedAt := Some "2025-03-01T10:30:00.000Z";
     userResponses := responses; analysis := None |}.


Definition overloaded_message : string :=
  "[GoogleGenerativeAI Error]: [503 Service Unavailable] The model is overloaded.".

(** An objective question whose key is the empty string. *)
Definition blank_key_question : TestQuestion :=
  {| id := "q1"; type := objective; questionText := "Capital of France?";
     options := Some [ {| opt_id := "a"; opt_text := "Paris" |} ];
     correctAnswerKey := Some ""; correctAnswerText := Some "Paris" |}.
End vocabulary_analysis.

(** ** Vocabulary for the page controls and the store functions *)

(** A string of decimal digits. *)
Fixpoint digitsOnly (s : string) : bool :=
  match s with
  | EmptyString => true
  | String c r => bool_decide (is_Some (JS.digit c)) && digitsOnly r
  end.

Section vocabulary_test_controls.
Import Types AnalyzeTestResults TestPage TestControls.

(** A click on one of the two navigation buttons. *)
Inductive Click : Type := ClickNext | ClickPrev.

Definition click (testSet : option TestSet) (currentQuestionIndex : Z) (c : Click) : Z :=
  match c with
  | ClickNext => handleNextQuestion testSet currentQuestionIndex
  | ClickPrev => handlePrevQuestion currentQuestionIndex
  end.

(** The index after a series of clicks. *)
Definition clicks (testSet : option TestSet) (cs : list Click)
    (currentQuestionIndex : Z) : Z :=
  foldl (click testSet) currentQuestionIndex cs.

(** [userAnswers] after an answer [answer q] was entered for each
    question of [qs] in turn, while nothing is being submitted. *)
Definition answerAll (answer : TestQuestion → string) (qs : list TestQuestion)
    (userAnswers : gmap string string) : gmap string string :=
  foldl (λ answers q, handleAnswerChange false false answers (id q) (answer q))
    userAnswers qs.

(** A store that keeps the answers it is given on the test [t]. *)
Definition storeAnswers (t : TestSet) (_ _ : string) (answers : gmap string string)
    : Result (option TestSet) :=
  Ok (Some {| ts_id := ts_id t; userId := userId t; title := title t;
              subject := subject t; description := description t;
              numSubjective := numSubjective t; numObjective := numObjective t;
              timeLimitMinutes := timeLimitMinutes t; questions := questions t;
              createdAt := createdAt t; updatedAt := updatedAt t;
              status := submitted; submittedAt := submittedAt t;
              userResponses := Some answers; analysis := None |}).

Definition open_test (qs : list TestQuestion) : TestSet :=
  {| ts_id := "t1"; userId := "u1"; title := "Quiz"; subject := None;
     description := None; numSubjective := 1; numObjective := 1;
     timeLimitMinutes := Some 60; questions := qs;
     createdAt := "2025-03-01T10:00:00.000Z";
     updatedAt := "2025-03-01T10:00:00.000Z"; status := generated;
     submittedAt := None; userResponses := None; analysis := None |}.
(** What [handleSubmitTest] does once it has decided to submit: the part
    of its body inside the outer [try]. *)
Definition submitAndAnalyse (thePrompt : ProcessedData → Reply TestAnalysisReport)
    (submitTestAndSaveAnswers :
       string → string → gmap string string → Result (option TestSet))
    (saveTestAnalysis : string → string → TestAnalysisReport → Result ())
    (u : User) (testId : string) (userAnswers : gmap string string) : Outcome :=
  let failed (message : string) :=
    SubmissionFailed
      (JS.string_or (Some message) "Could not process your test. Please try again.") in
  match submitTestAndSaveAnswers (uid u) testId userAnswers with
  | Throw message => failed message
  | Ok None =>
      failed "Failed to retrieve submitted test data for analysis after saving answers."
  | Ok (Some submittedTest) =>
      match analysisResult thePrompt submittedTest with
      | Throw message => failed message
      | Ok report =>
          match saveTestAnalysis (uid u) testId report with
          | Throw message => failed message
          | Ok _ => AnalysisComplete report
          end
      end
  end.

Definition acceptAnalysis (_ _ : string) (_ : TestAnalysisReport) : Result () := Ok ().

End vocabulary_test_controls.

Section vocabulary_flashcards.
Import Database FlashcardsPage.

(** The store takes the card at position [i] whole: it issues a key,
    accepts the card, and accepts the update of the counter of the set. *)
Definition cardAccepted (cardKey : nat → option string)
    (cardStored countRaised : nat → Result ()) (i : nat) : Prop :=
  JS.truthy (cardKey i) = true ∧ cardStored i = Ok () ∧ countRaised i = Ok ().

(** The store holds the card at position [i] afterwards: it issued a key
    and accepted the card. *)
Definition cardKept (cardKey : nat → option string)
    (cardStored : nat → Result ()) (i : nat) : Prop :=
  JS.truthy (cardKey i) = true ∧ cardStored i = Ok ().

#[global] Instance cardAccepted_dec cardKey cardStored countRaised i :
  Decision (cardAccepted cardKey cardStored countRaised i).
Proof. unfold cardAccepted. apply _. Defined.

#[global] Instance cardKept_dec cardKey cardStored i :
  Decision (cardKept cardKey cardStored i).
Proof. unfold cardKept. apply _. Defined.

(** A store that accepts every write. *)
Definition accepting (_ : nat) : Result () := Ok ().

(** The two faces of each card among what was written, in order. *)
Definition cardTexts (written : list Written) : list (string * string) :=
  omap (λ w, match w with
             | WrittenCard _ card => Some (frontText card, backText card)
             | WrittenSet _ _ => None
             end) written.

(** The two texts of each card of the model, in order. *)
Definition pairTexts (cards : list GenerateMultipleFlashcards.FlashcardPair)
    : list (string * string) :=
  (λ card, (GenerateMultipleFlashcards.questionText card,
            GenerateMultipleFlashcards.answerText card)) <$> cards.

(** The request [handleCreateSet] sends, as the flow passes it on. *)
Definition flashcardsRequest (values : FlashcardSetFormValues)
    : GenerateMultipleFlashcards.GenerateMultipleFlashcardsInput :=
  {| GenerateMultipleFlashcards.topic := topicOf values;
     GenerateMultipleFlashcards.numberOfCards := Some (JS.Num 5) |}.

(** A model answer with two cards, and a form with a title only. *)
Definition sums_cards : list GenerateMultipleFlashcards.FlashcardPair :=
  [ {| GenerateMultipleFlashcards.questionText := "2+2?";
       GenerateMultipleFlashcards.answerText := "4" |};
    {| GenerateMultipleFlashcards.questionText := "3+3?";
       GenerateMultipleFlashcards.answerText := "6" |} ].

Definition sums_model (_ : GenerateMultipleFlashcards.GenerateMultipleFlashcardsInput)
    : Reply GenerateMultipleFlashcards.GenerateMultipleFlashcardsOutput :=
  Responds (Some {| GenerateMultipleFlashcards.flashcards := sums_cards |}).

Definition sums_form : FlashcardSetFormValues :=
  {| title := "Sums"; subject := None; chapter := None |}.

End vocabulary_flashcards.

(** A lower-case letter, a digit or the underscore. *)
Definition fileNameChar (c : ascii) : bool :=
  let n := nat_of_ascii c in
  ((48 <=? n) && (n <=? 57) || (97 <=? n) && (n <=? 122) || (n =? 95))%nat.

Section vocabulary_study_session.
Import Database FlashcardSetPage.

(** A click in the study session. *)
Inductive StudyAction : Type := StudyNext | StudyPrev | StudyFlip.

Definition studyStep (flashcards : list Flashcard) (st : StudyState)
    (a : StudyAction) : StudyState :=
  match a with
  | StudyNext => handleStudyNext flashcards st
  | StudyPrev => handleStudyPrev st
  | StudyFlip => handleToggleStudyFlip st
  end.

Definition studySteps (flashcards : list Flashcard) (st : StudyState)
    (actions : list StudyAction) : StudyState :=
  foldl (studyStep flashcards) st actions.

Definition sample_card (front back : string) : Flashcard :=
  {| f_id := "c"; setId := "-Nset"; frontText := front; backText := back;
     f_createdAt := "t0"; f_updatedAt := "t0" |}.

Definition idle : StudyState :=
  {| isStudySessionActive := false; currentStudyCardIndex := 0;
     isStudyCardFlipped := false |}.

End vocabulary_study_session.

Section vocabulary_community.
Import Community.

(** The users a [likedBy] object counts as having liked. *)
Definition liked (userId : string) (likedBy : option (gmap string bool)) : bool :=
  default false (default ∅ likedBy !! userId).

(** The counter and the object agree: every entry of [likedBy] is [true]
    and [likes] is the number of entries. *)
Definition likesConsistent (likes : option JS.number)
    (likedBy : option (gmap string bool)) : Prop :=
  map_Forall (λ _ v, v = true) (default ∅ likedBy) ∧
  likes = Some (JS.Num (Z.of_nat (size (default ∅ likedBy)))).



(** A post with one like, and a comment with none. *)
Definition sample_post : CommunityPost :=
  {| cp_id := "-Npost"; cp_userId := "u1"; cp_username := "Ada";
     cp_questionText := "What is a monad?"; cp_imageUrl := None;
     cp_timestamp := "2025-03-01T10:00:00.000Z"; cp_updatedAt := None;
     cp_likes := Some (JS.Num 1); cp_likedBy := Some {[ "u1" := true ]};
     cp_comments := None; cp_commentCount := Some (JS.Num 0) |}.

Definition sample_comment : CommunityComment :=
  {| cc_id := "-Ncomment"; cc_postId := "-Npost"; cc_userId := "u2";
     cc_username := "Bob"; cc_text := "A monoid in a category of endofunctors.";
     cc_timestamp := "2025-03-01T11:00:00.000Z"; cc_updatedAt := None;
     cc_likes := Some (JS.Num 0); cc_likedBy := None |}.

End vocabulary_community.

Section vocabulary_conversation_list.
Import ConversationList.

(** The order [getConversationList] aims at: the later conversation
    first. *)
Definition newestFirst (Date_getTime : string → JS.number)
    (a b : ConversationListItem) : Prop :=
  JS.le (getTime Date_getTime (lastMessageAt b))
        (getTime Date_getTime (lastMessageAt a)).

(** Sorting the later first is sorting by the negated time. *)
Definition negatedTime (Date_getTime : string → JS.number)
    (item : ConversationListItem) : JS.number :=
  JS.sub (JS.Num 0) (getTime Date_getTime (lastMessageAt item)).

Definition sample_conversations : list (string * ConversationNode) :=
  [ ("c1", {| cn_title := Some "Algebra"; cn_updatedAt := Some "2025-03-01";
              cn_createdAt := Some "2025-02-01" |});
    ("c2", {| cn_title := None; cn_updatedAt := None;
              cn_createdAt := Some "2025-03-05" |});
    ("c3", {| cn_title := Some ""; cn_updatedAt := Some "2025-03-03";
              cn_createdAt := Some "2025-01-01" |}) ].

End vocabulary_conversation_list.

(* ===================================================================== *)
(** * Running a flow *)
(* ===================================================================== *)

Section flow_facts.
Context {C O : Type} (prompt : C → Reply O).

Lemma call_responds (input : C) (output : option O) (calls : list C) :
  prompt input = Responds output →
  call prompt input calls = (Ok output, calls ++ [input]).
Proof. intros H. unfold call. by rewrite H. Qed.

Lemma call_fails (input : C) (message : string) (calls : list C) :
  prompt input = Fails message →
  call prompt input calls = (Throw message, calls ++ [input]).
Proof. intros H. unfold call. by rewrite H. Qed.

Lemma bind_call_responds {B} (k : option O → M C B) input output calls :
  prompt input = Responds output →
  (call prompt input ≫= k) calls = k output (calls ++ [input]).
Proof.
  intros H. unfold mbind, M_bind, bind. by rewrite (call_responds _ _ _ H).
Qed.

Lemma bind_call_fails {B} (k : option O → M C B) input message calls :
  prompt input = Fails message →
  (call prompt input ≫= k) calls = (Throw message, calls ++ [input]).
Proof.
  intros H. unfold mbind, M_bind, bind. by rewrite (call_fails _ _ _ H).
Qed.
End flow_facts.

(** A flow built by [defineFlow], step by step. *)
Lemma defineFlow_run {C I O} (accepts : I → bool) (conforms : O → bool)
    (fn : I → M C (option O)) (input : I) (calls : list C) :
  defineFlow accepts conforms fn input calls =
    if accepts input then
      match fn input calls with
      | (Ok (Some o), calls') =>
          if conforms o then (Ok o, calls')
          else (Throw schemaValidationFailed, calls')
      | (Ok None, calls') => (Throw schemaValidationFailed, calls')
      | (Throw message, calls') => (Throw message, calls')
      end
    else (Throw schemaValidationFailed, calls).
Proof.
  unfold defineFlow. destruct (accepts input); [| done].
  unfold bind. destruct (fn input calls) as [[[o |] | message] calls']; try done.
  by destruct (conforms o).
Qed.

(** A flow whose function only awaits the prompt and returns its
    output. *)
Lemma defineFlow_call {C O} (accepts : C → bool) (conforms : O → bool)
    (prompt : C → Reply O) (input : C) (calls : list C) :
  defineFlow accepts conforms (λ input, output ← call prompt input; mret output)
    input calls =
    if accepts input then
      match prompt input with
      | Responds (Some o) =>
          if conforms o then (Ok o, calls ++ [input])
          else (Throw schemaValidationFailed, calls ++ [input])
      | Responds None => (Throw schemaValidationFailed, calls ++ [input])
      | Fails message => (Throw message, calls ++ [input])
      end
    else (Throw schemaValidationFailed, calls).
Proof.
  rewrite defineFlow_run. destruct (accepts input); [| done].
  unfold mbind, M_bind, bind, call.
  by destruct (prompt input) as [[o |] | message].
Qed.

(* ===================================================================== *)
(** * Test generation: input validation *)
(* ===================================================================== *)

Section generate_test_validation.
Import GenerateTest.

Lemma generateTest_accepts now prompt input mo calls :
  0 < numSubjective input + numObjective input ≤ 20 →
  prompt input = Responds mo →
  generateTest now prompt input calls =
    match mo ≫= questions with
    | Some qs =>
        (Ok {| questions := Some (imap (fillQuestion now) qs) |}, calls ++ [input])
    | None =>
        (Throw "AI failed to generate questions or output was empty.",
         calls ++ [input])
    end.
Proof.
  intros Hsum Hp. unfold generateTest, generateTestInternalFlow.
  rewrite !bool_decide_eq_false_2 by lia.
  rewrite (bind_call_responds _ _ _ _ _ Hp).
  destruct mo as [[[qs|]]|]; reflexivity.
Qed.

(** C1. A request whose [numSubjective] and [numObjective] sum to 0, and
    one whose sum exceeds 20, makes [generateTest] throw one of its two
    validation messages, and the log of calls to the model is left as it
    was: no call is issued. *)
Theorem generateTest_rejects_bad_totals now prompt input calls :
  numSubjective input + numObjective input = 0 ∨
  numSubjective input + numObjective input > 20 →
  ∃ message,
    generateTest now prompt input calls = (Throw message, calls) ∧
    InputValidationError message.
Proof.
  intros H. unfold generateTest, generateTestInternalFlow, InputValidationError.
  destruct H as [H0 | H20].
  - rewrite bool_decide_eq_true_2 by lia. eauto.
  - rewrite bool_decide_eq_false_2 by lia.
    rewrite bool_decide_eq_true_2 by lia. eauto.
Qed.

Lemma generateTest_rejects_bad_totals_witness :
  (numSubjective (sample_request 12 9) + numObjective (sample_request 12 9) = 0 ∨
   numSubjective (sample_request 12 9) + numObjective (sample_request 12 9) > 20) ∧
  ∃ message,
    generateTest (λ _, 0%N) (λ _, Responds None) (sample_request 12 9) [] =
      (Throw message, []) ∧
    InputValidationError message.
Proof.
  assert (H : numSubjective (sample_request 12 9) + numObjective (sample_request 12 9) = 0 ∨
              numSubjective (sample_request 12 9) + numObjective (sample_request 12 9) > 20)
    by (right; simpl; lia).
  split; [exact H |].
  exact (generateTest_rejects_bad_totals (λ _, 0%N) (λ _, Responds None)
           (sample_request 12 9) [] H).
Defined.
End generate_test_validation.

(* ===================================================================== *)
(** * Flashcards: the number of cards requested *)
(* ===================================================================== *)

Section flashcard_count.
Import GenerateMultipleFlashcards.

Lemma effectiveNumCards_number topic n :
  effectiveNumCards {| topic := topic; numberOfCards := Some (JS.Num n) |} =
    JS.Num (Z.max n 5).
Proof.
  unfold effectiveNumCards, JS.number_or; simpl.
  case_bool_decide as Hn; simpl; [reflexivity |].
  assert (n = 0) as -> by (destruct (decide (n = 0)); [done | contradiction]).
  reflexivity.
Qed.

Lemma effectiveNumCards_absent topic :
  effectiveNumCards {| topic := topic; numberOfCards := None |} = JS.Num 5.
Proof. reflexivity. Qed.

Lemma effectiveNumCards_NaN topic :
  effectiveNumCards {| topic := topic; numberOfCards := Some JS.NaN |} = JS.Num 5.
Proof. reflexivity. Qed.

(** The number handed to the flow is a number, which its input schema
    asks for. *)
Lemma effectiveNumCards_accepted input :
  accepts {| topic := topic input; numberOfCards := Some (effectiveNumCards input) |} =
    true.
Proof.
  unfold accepts, effectiveNumCards, JS.number_or; simpl.
  by destruct (numberOfCards input) as [[n |] |]; simpl; [case_bool_decide | |].
Qed.

Lemma generateMultipleFlashcards_run prompt input :
  run (generateMultipleFlashcards prompt input) =
    let request :=
      {| topic := topic input; numberOfCards := Some (effectiveNumCards input) |} in
    (match prompt request with
     | Responds (Some output) => Ok output
     | Responds None => Throw schemaValidationFailed
     | Fails message => Throw message
     end, [request]).
Proof.
  unfold run, generateMultipleFlashcards, generateMultipleFlashcardsFlow.
  rewrite defineFlow_call, effectiveNumCards_accepted. cbn zeta.
  by destruct (prompt _) as [[output |] | message].
Qed.

Lemma generateMultipleFlashcards_calls prompt input :
  (run (generateMultipleFlashcards prompt input)).2 =
    [ {| topic := topic input; numberOfCards := Some (effectiveNumCards input) |} ].
Proof. by rewrite generateMultipleFlashcards_run. Qed.

(** C8. [generateMultipleFlashcards] sends exactly one request to the
    model, and the [numberOfCards] of that request is the larger of the
    caller's value and 5: a value below 5 (0 and the negative ones among
    them) and an absent value are raised to 5, a value of 5 or more is
    passed on as it is. *)
Theorem generateMultipleFlashcards_requests_max prompt topic :
  (∀ n : Z,
     (run (generateMultipleFlashcards prompt
             {| topic := topic; numberOfCards := Some (JS.Num n) |})).2 =
       [ {| topic := topic; numberOfCards := Some (JS.Num (Z.max n 5)) |} ] ∧
     Z.max n 5 = (if bool_decide (n < 5) then 5 else n)) ∧
  (run (generateMultipleFlashcards prompt
          {| topic := topic; numberOfCards := None |})).2 =
    [ {| topic := topic; numberOfCards := Some (JS.Num 5) |} ].
Proof.
  split.
  - intros n. rewrite generateMultipleFlashcards_calls; simpl.
    rewrite effectiveNumCards_number. split; [reflexivity |].
    case_bool_decide; lia.
  - rewrite generateMultipleFlashcards_calls; simpl.
    by rewrite effectiveNumCards_absent.
Qed.

Example flashcards_two_cards :
  (run (generateMultipleFlashcards (λ _, Responds None)
          {| topic := "Cells"; numberOfCards := Some (JS.Num 2) |})).2 =
    [ {| topic := "Cells"; numberOfCards := Some (JS.Num 5) |} ].
Proof. reflexivity. Qed.
End flashcard_count.

(* ===================================================================== *)
(** * A missing model output *)
(* ===================================================================== *)

Section missing_output.

(** The flows that test the output throw when it is missing. *)
Lemma generateTest_missing_output now prompt input calls :
  0 < GenerateTest.numSubjective input + GenerateTest.numObjective input ≤ 20 →
  prompt input = Responds None →
  GenerateTest.generateTest now prompt input calls =
    (Throw "AI failed to generate questions or output was empty.", calls ++ [input]).
Proof.
  intros Hsum Hp. by rewrite (generateTest_accepts _ _ _ _ _ Hsum Hp).
Qed.

Lemma generateTest_missing_questions now prompt input calls :
  0 < GenerateTest.numSubjective input + GenerateTest.numObjective input ≤ 20 →
  prompt input = Responds (Some {| GenerateTest.questions := None |}) →
  GenerateTest.generateTest now prompt input calls =
    (Throw "AI failed to generate questions or output was empty.", calls ++ [input]).
Proof.
  intros Hsum Hp. by rewrite (generateTest_accepts _ _ _ _ _ Hsum Hp).
Qed.

Lemma analyzeTestResults_missing_output thePrompt input calls :
  thePrompt (AnalyzeTestResults.processedDataForPrompt input) = Responds None →
  AnalyzeTestResults.analyzeTestResults thePrompt input calls =
    (Throw "AI analysis failed to return an output.",
     calls ++ [AnalyzeTestResults.processedDataForPrompt input]).
Proof.
  intros Hp. unfold AnalyzeTestResults.analyzeTestResults,
    AnalyzeTestResults.analyzeTestResultsInternalFlow.
  by rewrite (bind_call_responds _ _ _ _ _ Hp).
Qed.

(** The five flows that return [output!], step by step. *)
Lemma resolveQuestion_run prompt input :
  run (ResolveQuestion.resolveQuestion prompt input) =
    (match prompt input with
     | Responds (Some output) => Ok output
     | Responds None => Throw schemaValidationFailed
     | Fails message => Throw message
     end, [input]).
Proof.
  unfold run, ResolveQuestion.resolveQuestion, ResolveQuestion.resolveQuestionFlow.
  rewrite defineFlow_call. by destruct (prompt input) as [[output |] | message].
Qed.

Lemma summarizeConversation_run prompt input calls :
  SummarizeConversation.summarizeConversation prompt input calls =
    (match prompt input with
     | Responds (Some output) => Ok output
     | Responds None => Throw schemaValidationFailed
     | Fails message => Throw message
     end, calls ++ [input]).
Proof.
  unfold SummarizeConversation.summarizeConversation,
    SummarizeConversation.summarizeConversationFlow.
  rewrite defineFlow_call. by destruct (prompt input) as [[output |] | message].
Qed.

Lemma generateFlashcardAnswer_run prompt input :
  run (GenerateFlashcardAnswer.generateFlashcardAnswer prompt input) =
    (match prompt input with
     | Responds (Some output) => Ok output
     | Responds None => Throw schemaValidationFailed
     | Fails message => Throw message
     end, [input]).
Proof.
  unfold run, GenerateFlashcardAnswer.generateFlashcardAnswer,
    GenerateFlashcardAnswer.generateFlashcardAnswerFlow.
  rewrite defineFlow_call. by destruct (prompt input) as [[output |] | message].
Qed.

Lemma generateStudyPlan_run Date_getTime today prompt i :
  run (GenerateStudyPlan.generateStudyPlan Date_getTime today prompt i) =
    if GenerateStudyPlan.accepts i then
      (match prompt (GenerateStudyPlan.promptInput today i) with
       | Responds (Some output) =>
           if GenerateStudyPlan.conforms (GenerateStudyPlan.sortPlan Date_getTime output)
           then Ok (GenerateStudyPlan.sortPlan Date_getTime output)
           else Throw schemaValidationFailed
       | Responds None => Throw schemaValidationFailed
       | Fails message => Throw message
       end, [GenerateStudyPlan.promptInput today i])
    else (Throw schemaValidationFailed, []).
Proof.
  unfold run, GenerateStudyPlan.generateStudyPlan,
    GenerateStudyPlan.generateStudyPlanFlow.
  rewrite defineFlow_run. destruct (GenerateStudyPlan.accepts i); [| done].
  unfold mbind, M_bind, bind, call.
  destruct (prompt _) as [[output |] | message]; simpl; try done.
  by destruct (GenerateStudyPlan.conforms _).
Qed.

(** C2. A model that answers the request of a flow with no output makes
    the flow throw, whatever the request: [generateTest] and
    [analyzeTestResults] by their own test of the output, the other five
    flows by the validation of what they return against their output
    schema. The same holds for an output that lacks the list the flow is
    there to return (the questions of [generateTest], the days of
    [generateStudyPlan]). And no flow returns without an output of the
    model: when a flow returns, the model had answered its request with
    one. A missing or empty output is read here as a response without
    output or without that list; a list with no entry is an output. *)
Theorem flows_reject_missing_output :
  (∀ prompt input,
     (prompt input = Responds None →
      throws (run (ResolveQuestion.resolveQuestion prompt input))) ∧
     (returns (run (ResolveQuestion.resolveQuestion prompt input)) →
      ∃ output, prompt input = Responds (Some output))) ∧
  (∀ prompt input,
     (prompt input = Responds None →
      throws (run (SummarizeConversation.summarizeConversation prompt input))) ∧
     (returns (run (SummarizeConversation.summarizeConversation prompt input)) →
      ∃ output, prompt input = Responds (Some output))) ∧
  (∀ Date_getTime today prompt input,
     let sent := GenerateStudyPlan.promptInput today input in
     let outcome :=
       run (GenerateStudyPlan.generateStudyPlan Date_getTime today prompt input) in
     (prompt sent = Responds None → throws outcome) ∧
     (∀ output,
        prompt sent = Responds (Some output) →
        GenerateStudyPlan.dailySessions output = None → throws outcome) ∧
     (returns outcome → ∃ output, prompt sent = Responds (Some output))) ∧
  (∀ now prompt input,
     let outcome := run (GenerateTest.generateTest now prompt input) in
     (prompt input = Responds None → throws outcome) ∧
     (∀ output,
        prompt input = Responds (Some output) →
        GenerateTest.questions output = None → throws outcome) ∧
     (returns outcome → ∃ output, prompt input = Responds (Some output))) ∧
  (∀ thePrompt input,
     let sent := AnalyzeTestResults.processedDataForPrompt input in
     (thePrompt sent = Responds None →
      throws (run (AnalyzeTestResults.analyzeTestResults thePrompt input))) ∧
     (returns (run (AnalyzeTestResults.analyzeTestResults thePrompt input)) →
      ∃ output, thePrompt sent = Responds (Some output))) ∧
  (∀ prompt input,
     (prompt input = Responds None →
      throws (run (GenerateFlashcardAnswer.generateFlashcardAnswer prompt input))) ∧
     (returns (run (GenerateFlashcardAnswer.generateFlashcardAnswer prompt input)) →
      ∃ output, prompt input = Responds (Some output))) ∧
  (∀ prompt input,
     let sent :=
       {| GenerateMultipleFlashcards.topic := GenerateMultipleFlashcards.topic input;
          GenerateMultipleFlashcards.numberOfCards :=
            Some (GenerateMultipleFlashcards.effectiveNumCards input) |} in
     let outcome :=
       run (GenerateMultipleFlashcards.generateMultipleFlashcards prompt input) in
     (prompt sent = Responds None → throws outcome) ∧
     (returns outcome → ∃ output, prompt sent = Responds (Some output))).
Proof.
  unfold throws, returns. split_and!.
  - intros prompt input. rewrite resolveQuestion_run. split.
    + intros ->. by eexists.
    + intros [out Hout]. simpl in Hout.
      destruct (prompt input) as [[output |] | message]; try done. by eexists.
  - intros prompt input. unfold run. rewrite summarizeConversation_run. split.
    + intros ->. by eexists.
    + intros [out Hout]. simpl in Hout.
      destruct (prompt input) as [[output |] | message]; try done. by eexists.
  - intros Date_getTime today prompt input. cbn zeta.
    rewrite generateStudyPlan_run.
    destruct (GenerateStudyPlan.accepts input); split_and!.
    + intros ->. by eexists.
    + intros output -> Hdays. unfold GenerateStudyPlan.conforms. simpl.
      rewrite Hdays. simpl. by eexists.
    + intros [out Hout]. simpl in Hout.
      destruct (prompt _) as [[output |] | message]; try done. by eexists.
    + intros _. by eexists.
    + intros output _ _. by eexists.
    + by intros [out Hout].
  - intros now prompt input. cbn zeta.
    unfold run, GenerateTest.generateTest, GenerateTest.generateTestInternalFlow.
    do 2 (case_bool_decide;
      [split_and!; [by eexists | by eexists | by intros [out Hout]] |]).
    unfold mbind, M_bind, bind, call. split_and!.
    + intros ->. by eexists.
    + intros output -> Hqs. simpl. rewrite Hqs. by eexists.
    + intros [out Hout].
      destruct (prompt input) as [[output |] | message]; try done. by eexists.
  - intros thePrompt input. cbn zeta.
    unfold run, AnalyzeTestResults.analyzeTestResults,
      AnalyzeTestResults.analyzeTestResultsInternalFlow.
    unfold mbind, M_bind, bind, call. split.
    + intros ->. by eexists.
    + intros [out Hout].
      destruct (thePrompt _) as [[output |] | message]; try done. by eexists.
  - intros prompt input. rewrite generateFlashcardAnswer_run. split.
    + intros ->. by eexists.
    + intros [out Hout]. simpl in Hout.
      destruct (prompt input) as [[output |] | message]; try done. by eexists.
  - intros prompt input. cbn zeta. rewrite generateMultipleFlashcards_run. split.
    + cbn zeta. intros ->. by eexists.
    + intros [out Hout]. cbn zeta in Hout. simpl in Hout.
      destruct (prompt _) as [[output |] | message]; try done. by eexists.
Qed.

(** The error of the five flows is the one of the validation. *)
Example resolveQuestion_missing_output :
  run (ResolveQuestion.resolveQuestion (λ _, Responds None)
         {| ResolveQuestion.question := "What is 2+2?";
            ResolveQuestion.image := None |}) =
    (Throw "INVALID_ARGUMENT: Schema validation failed.",
     [ {| ResolveQuestion.question := "What is 2+2?";
          ResolveQuestion.image := None |} ]).
Proof. reflexivity. Qed.
End missing_output.

(* ===================================================================== *)
(** * Test generation: ids and options of the returned questions *)
(* ===================================================================== *)

Section generate_test_output.
Import Types(QuestionType(..)).
Import GenerateTest.

Lemma append_nonempty (a b : string) : b ≠ "" → a +:+ b ≠ "".
Proof. destruct a; simpl; [done | discriminate]. Qed.

Lemma string_or_nonempty (s : option string) (d : string) :
  d ≠ "" → JS.string_or s d ≠ "".
Proof. intros Hd. by destruct s as [[|c r]|]. Qed.

Lemma string_or_truthy (s : option string) (d : string) :
  JS.truthy s = true → Some (JS.string_or s d) = s.
Proof. by destruct s as [[|c r]|]. Qed.

Lemma truthy_has_id (s : option string) : JS.truthy s = true ↔ has_id s.
Proof.
  split.
  - destruct s as [[|c r]|]; try done. intros _. by exists (String c r).
  - intros (v & -> & Hv). by destruct v.
Qed.

Lemma fillOption_has_id questionId optIndex opt :
  has_id (o_id (fillOption questionId optIndex opt)).
Proof.
  eexists; split; [reflexivity |].
  apply string_or_nonempty, append_nonempty. discriminate.
Qed.

Lemma fillOption_keeps questionId optIndex opt :
  JS.truthy (o_id opt) = true → fillOption questionId optIndex opt = opt.
Proof.
  intros H. destruct opt as [i t]; unfold fillOption; simpl in *.
  by rewrite string_or_truthy.
Qed.

Lemma imap_fillOption_has_id questionId opts :
  Forall (λ o, has_id (o_id o)) (imap (fillOption questionId) opts).
Proof.
  apply Forall_lookup_2. intros i o. rewrite list_lookup_imap.
  destruct (opts !! i); simpl; [| done].
  intros [= <-]. apply fillOption_has_id.
Qed.

Lemma imap_fillOption_keeps questionId opts :
  Forall (λ o, JS.truthy (o_id o) = true) opts →
  imap (fillOption questionId) opts = opts.
Proof.
  intros Hall. apply list_eq. intros i. rewrite list_lookup_imap.
  destruct (opts !! i) as [o|] eqn:Ho; simpl; [| done].
  f_equal. apply fillOption_keeps.
  by apply (Forall_lookup_1 _ _ _ _ Hall Ho).
Qed.

Lemma fillOption_filled questionId optIndex opt :
  filledOption opt (fillOption questionId optIndex opt).
Proof.
  split; [apply fillOption_has_id |]. split; [| done].
  intros Hid. by rewrite fillOption_keeps.
Qed.

Lemma imap_fillOption_filled questionId opts :
  Forall2 filledOption opts (imap (fillOption questionId) opts).
Proof.
  apply Forall2_lookup. intros i. rewrite list_lookup_imap.
  destruct (opts !! i); simpl; constructor. apply fillOption_filled.
Qed.

Lemma fillQuestion_filled now index q : filled q (fillQuestion now index q).
Proof.
  unfold filled; simpl. repeat split.
  - eexists; split; [reflexivity |]. by apply string_or_nonempty.
  - intros Hid. by apply string_or_truthy.
  - destruct (q_type q); simpl; [done |].
    eexists; split; [reflexivity |]. split; [| done].
    destruct (options q) as [opts |]; simpl; [| constructor].
    apply imap_fillOption_filled.
Qed.

(** What [filled] says of the options, spelled out: they are as many as
    the model's, none when the model gave no list, each with a non-empty
    id, and the model's own entries where each of those had an id. *)
Lemma filled_options q q' opts' :
  filled q q' → options q' = Some opts' →
  length opts' = length (default [] (options q)) ∧
  Forall (λ o, has_id (o_id o)) opts' ∧
  (options q = None → opts' = []) ∧
  (∀ opts, options q = Some opts →
     Forall (λ o, JS.truthy (o_id o) = true) opts → opts' = opts).
Proof.
  intros (_ & _ & _ & _ & _ & Hq) Hopts'.
  destruct (q_type q'); [destruct Hq; congruence |].
  destruct Hq as (opts'' & Heq & Hall & _).
  assert (opts'' = opts') as -> by congruence. clear Heq Hopts'.
  split_and!.
  - symmetry. by eapply Forall2_length.
  - eapply Forall2_Forall_r; [exact Hall |].
    apply Forall_forall. by intros o _ o' (Hid & _).
  - intros Hnone. rewrite Hnone in Hall. by apply Forall2_nil_inv_l in Hall.
  - intros opts Hsome Htruthy. rewrite Hsome in Hall. simpl in Hall.
    clear Hsome. induction Hall as [| o o' opts opts' (_ & Hid & Htext) _ IH];
      [done |].
    apply Forall_cons in Htruthy as [Ho Htruthy]. rewrite IH by done.
    f_equal. destruct o, o'; simpl in *. rewrite Htext. f_equal.
    by apply Hid.
Qed.

(** C3, as the flow has it. When [generateTest] returns, the model had
    answered with a list of questions and the result has one question for
    each, in the same order; every returned question has a non-empty id
    (the model's when it gave one) and the model's type and texts; a
    returned objective question has an [options] array (empty when the
    model gave none) with one entry for each option of the model, in the
    model's order, each with the model's text and a non-empty id (the
    model's when it gave that option one), and its [correctAnswerKey] is
    the model's, unchanged; a returned subjective question has neither
    [options] nor [correctAnswerKey]. *)
Theorem generateTest_output_shape now prompt input calls out calls' :
  generateTest now prompt input calls = (Ok out, calls') →
  ∃ qs qs',
    prompt input = Responds (Some {| questions := Some qs |}) ∧
    questions out = Some qs' ∧
    length qs' = length qs ∧
    ∀ i q q', qs !! i = Some q → qs' !! i = Some q' → filled q q'.
Proof.
  unfold generateTest, generateTestInternalFlow.
  do 2 (case_bool_decide; [discriminate |]).
  unfold mbind, M_bind, bind, call.
  destruct (prompt input) as [[[[qs|]]|] | message]; try discriminate.
  intros [= <- <-]. exists qs, (imap (fillQuestion now) qs).
  split; [reflexivity |]. split; [reflexivity |]. split; [apply length_imap |].
  intros i q q' Hq. rewrite list_lookup_imap, Hq. simpl. intros [= <-].
  apply fillQuestion_filled.
Qed.

Lemma generateTest_output_shape_witness :
  generateTest (λ _, 0%N) stray_key_model (sample_request 0 1) [] =
    (Ok {| questions := Some [stray_key_question] |}, [sample_request 0 1]) ∧
  ∃ qs qs',
    stray_key_model (sample_request 0 1) =
      Responds (Some {| questions := Some qs |}) ∧
    questions {| questions := Some [stray_key_question] |} = Some qs' ∧
    length qs' = length qs ∧
    ∀ i q q', qs !! i = Some q → qs' !! i = Some q' → filled q q'.
Proof.
  assert (H : generateTest (λ _, 0%N) stray_key_model (sample_request 0 1) [] =
          (Ok {| questions := Some [stray_key_question] |}, [sample_request 0 1]))
    by reflexivity.
  split; [exact H |].
  exact (generateTest_output_shape _ _ _ _ _ _ H).
Defined.

(** C3 as stated fails on the key: the flow returns an objective question
    whose [correctAnswerKey] is present and is the id of none of its
    options. *)
Lemma generateTest_keeps_stray_key :
  ∃ q opts key,
    run (generateTest (λ _, 0%N) stray_key_model (sample_request 0 1)) =
      (Ok {| questions := Some [q] |}, [sample_request 0 1]) ∧
    q_type q = objective ∧
    options q = Some opts ∧
    correctAnswerKey q = Some key ∧
    length (optionsWithId key opts) = 0%nat.
Proof.
  exists stray_key_question; do 2 eexists.
  split; [reflexivity |]. split; [reflexivity |]. split; [reflexivity |].
  split; reflexivity.
Qed.

(** Ids are made up where the model left them out. *)
Example generateTest_backfills_ids :
  imap (fillQuestion (λ _, 1700000000000%N))
    [ {| q_id := None; q_type := objective; questionText := "2 + 2?";
         options := Some [ {| o_id := None; o_text := "4" |};
                           {| o_id := Some "b"; o_text := "5" |} ];
         correctAnswerKey := Some "b"; correctAnswerText := None |};
      {| q_id := Some ""; q_type := subjective; questionText := "Why?";
         options := Some []; correctAnswerKey := Some "x";
         correctAnswerText := None |} ] =
    [ {| q_id := Some "q_1700000000000_0"; q_type := objective;
         questionText := "2 + 2?";
         options := Some [ {| o_id := Some "q_1700000000000_0_opt0"; o_text := "4" |};
                           {| o_id := Some "b"; o_text := "5" |} ];
         correctAnswerKey := Some "b"; correctAnswerText := None |};
      {| q_id := Some "q_1700000000000_1"; q_type := subjective;
         questionText := "Why?"; options := None; correctAnswerKey := None;
         correctAnswerText := None |} ].
Proof. vm_compute. reflexivity. Qed.
End generate_test_output.

(* ===================================================================== *)
(** * Sorting with a comparator that subtracts two keys *)
(* ===================================================================== *)

Section sort_facts.
Context {A : Type} (comparefn : A → A → JS.number).

Lemma sort_insert_Permutation x l : JS.sort_insert comparefn x l ≡ₚ x :: l.
Proof.
  induction l as [| y l IH]; simpl; [done |].
  destruct (JS.sort_le comparefn x y); [done |].
  rewrite IH. apply Permutation_swap.
Qed.

Lemma sort_Permutation l : JS.sort comparefn l ≡ₚ l.
Proof.
  induction l as [| x l IH]; simpl; [done |].
  by rewrite sort_insert_Permutation, IH.
Qed.

Lemma sort_length l : length (JS.sort comparefn l) = length l.
Proof. apply Permutation_length, sort_Permutation. Qed.

(** The comparator of both sorts of the study plan: [key a - key b]. *)
Context (key : A → JS.number).
Hypothesis comparefn_key : ∀ a b, comparefn a b = JS.sub (key a) (key b).

Lemma sort_le_key a b :
  numeric key a → numeric key b →
  JS.sort_le comparefn a b = bool_decide (key_le key a b).
Proof.
  unfold numeric, key_le, JS.sort_le. rewrite comparefn_key.
  destruct (key a) as [x|], (key b) as [y|]; try done. simpl.
  intros _ _. apply bool_decide_ext. lia.
Qed.

Lemma key_le_trans a b c : key_le key a b → key_le key b c → key_le key a c.
Proof.
  unfold key_le. destruct (key a), (key b), (key c); simpl; try done. lia.
Qed.

Lemma key_le_total a b : numeric key a → numeric key b → key_le key a b ∨ key_le key b a.
Proof.
  unfold numeric, key_le. destruct (key a), (key b); simpl; try done. lia.
Qed.

Lemma sort_insert_sorted x l :
  numeric key x → Forall (numeric key) l →
  StronglySorted (key_le key) l →
  StronglySorted (key_le key) (JS.sort_insert comparefn x l).
Proof.
  intros Hx Hl Hs. induction l as [| y l IH]; simpl.
  - repeat constructor.
  - apply Forall_cons in Hl as [Hy Hl].
    apply StronglySorted_inv in Hs as [Hs Hyl].
    rewrite sort_le_key by done. case_bool_decide as Hxy.
    + constructor; [by constructor |].
      constructor; [done |].
      eapply Forall_impl; [exact Hyl |]. intros z. by apply key_le_trans.
    + constructor; [by apply IH |].
      rewrite sort_insert_Permutation. constructor; [| done].
      by destruct (key_le_total x y).
Qed.

Lemma sort_sorted l :
  Forall (numeric key) l → StronglySorted (key_le key) (JS.sort comparefn l).
Proof.
  induction l as [| x l IH]; simpl; intros Hl; [constructor |].
  apply Forall_cons in Hl as [Hx Hl].
  apply sort_insert_sorted; [done | | by apply IH].
  by rewrite sort_Permutation.
Qed.

(** A key that is [NaN] has no place in an ordered list of two or more. *)
Lemma Sorted_numeric l :
  Sorted (key_le key) l → (2 ≤ length l)%nat → Forall (numeric key) l.
Proof.
  assert (Hle : ∀ a b, key_le key a b → numeric key a ∧ numeric key b).
  { intros a b. unfold key_le, numeric. by destruct (key a), (key b). }
  induction l as [| a [| b l] IH]; simpl; intros Hs Hlen; try lia.
  apply Sorted_inv in Hs as [Hs Hhd]. apply HdRel_inv in Hhd.
  destruct (Hle _ _ Hhd) as [Ha Hb]. constructor; [done |].
  destruct l as [| c l]; [by repeat constructor |].
  apply IH; [done | simpl; lia].
Qed.

(** The sort is stable: a list already in order is left as it is. *)
Lemma sort_sorted_id l :
  Forall (numeric key) l → StronglySorted (key_le key) l → JS.sort comparefn l = l.
Proof.
  induction l as [| x l IH]; simpl; intros Hl Hs; [done |].
  apply Forall_cons in Hl as [Hx Hl].
  apply StronglySorted_inv in Hs as [Hs Hxl].
  rewrite IH by done. destruct l as [| y l]; simpl; [done |].
  apply Forall_cons in Hl as [Hy _]. apply Forall_cons in Hxl as [Hxy _].
  rewrite sort_le_key by done. by rewrite bool_decide_eq_true_2.
Qed.
End sort_facts.

(* ===================================================================== *)
(** * Study plan: order of the returned days and sessions *)
(* ===================================================================== *)

Section study_plan_order.
Import GenerateStudyPlan.

Lemma convertTime_clock s h m pm :
  parseClock s = Some (h, m, pm) →
  convertTime s = JS.Num (minutesSinceMidnight h m pm).
Proof.
  unfold parseClock, convertTime, twoDigits, minutesSinceMidnight, JS.Number.
  destruct (JS.split " " s) as [| time [| modifier [| ? ?]]]; try done. simpl.
  destruct (JS.split ":" time) as [| hh [| mm [| ? ?]]]; try done. simpl.
  destruct (bool_decide (1 ≤ String.length hh ≤ 2)%nat); [| done].
  destruct (bool_decide (1 ≤ String.length mm ≤ 2)%nat);
    [| by destruct (JS.digits_value 0 hh)].
  destruct (JS.digits_value 0 hh) as [h'|]; [| done].
  destruct (JS.digits_value 0 mm) as [m'|]; [| done].
  case_bool_decide as Hrange; [| done].
  case_bool_decide as Ham; [subst modifier |].
  - intros [= <- <- <-]. simpl. by case_bool_decide.
  - case_bool_decide as Hpm; [subst modifier | done].
    intros [= <- <- <-]. simpl. by case_bool_decide.
Qed.

Lemma clockTime_numeric s : clockTime s → convertTime s ≠ JS.NaN.
Proof.
  unfold clockTime. intros [[[h m] pm] H].
  by rewrite (convertTime_clock _ _ _ _ H).
Qed.

Lemma minutesSinceMidnight_range h m pm :
  1 ≤ h ≤ 12 → 0 ≤ m ≤ 59 → 0 ≤ minutesSinceMidnight h m pm < 1440.
Proof.
  unfold minutesSinceMidnight. intros Hh Hm.
  destruct pm; repeat case_bool_decide; lia.
Qed.

Example convertTime_midnight : convertTime "12:05 AM" = JS.Num 5.
Proof. reflexivity. Qed.
Example convertTime_morning : convertTime "09:00 AM" = JS.Num 540.
Proof. reflexivity. Qed.
Example convertTime_noon : convertTime "12:30 PM" = JS.Num 750.
Proof. reflexivity. Qed.
Example convertTime_afternoon : convertTime "1:15 PM" = JS.Num 795.
Proof. reflexivity. Qed.
Example convertTime_no_minutes : convertTime "9 AM" = JS.NaN.
Proof. reflexivity. Qed.
Example convertTime_word : convertTime "noon" = JS.NaN.
Proof. reflexivity. Qed.

Lemma sortSessions_rearranged day : rearranged day (sortSessions day).
Proof.
  split; [done |]. unfold sortSessions; simpl.
  destruct (sessions day); simpl; [apply sort_Permutation | done].
Qed.

(** Among start times in the clock format, the order of the numbers
    [convertTime] gives is the order of the minutes since midnight. *)
Lemma convertTime_order s1 s2 :
  clockTime (startTime s1) → clockTime (startTime s2) →
  key_le (λ s, convertTime (startTime s)) s1 s2 ↔ startOrder s1 s2.
Proof.
  intros [[[h1 m1] pm1] H1] [[[h2 m2] pm2] H2].
  unfold key_le, startOrder, clockMinutes.
  rewrite (convertTime_clock _ _ _ _ H1), (convertTime_clock _ _ _ _ H2).
  by rewrite H1, H2.
Qed.

Lemma startOrder_clockTime s1 s2 :
  startOrder s1 s2 → clockTime (startTime s1) ∧ clockTime (startTime s2).
Proof.
  unfold startOrder, clockMinutes, clockTime.
  destruct (parseClock (startTime s1)) as [[[h1 m1] pm1] |]; [| done].
  destruct (parseClock (startTime s2)) as [[[h2 m2] pm2] |]; [| done].
  by split.
Qed.

Lemma StronglySorted_among {A} (P : A → Prop) (R R' : A → A → Prop) (l : list A) :
  (∀ a b, P a → P b → R a b → R' a b) →
  Forall P l → StronglySorted R l → StronglySorted R' l.
Proof.
  intros HR HP Hs. induction Hs as [| a l Hl IH Ha]; [constructor |].
  apply Forall_cons in HP as [Pa HP]. constructor; [by apply IH |].
  apply Forall_forall. intros b Hb.
  apply HR; [done | by apply (proj1 (Forall_forall _ _) HP) |
             by apply (proj1 (Forall_forall _ _) Ha)].
Qed.

(** A start time outside the clock format has no place in an ordered
    list of two or more. *)
Lemma Sorted_startOrder_clockTime l :
  Sorted startOrder l → (2 ≤ length l)%nat →
  Forall (λ s, clockTime (startTime s)) l.
Proof.
  induction l as [| a [| b l] IH]; simpl; intros Hs Hlen; try lia.
  apply Sorted_inv in Hs as [Hs Hhd]. apply HdRel_inv in Hhd.
  destruct (startOrder_clockTime _ _ Hhd) as [Ha Hb]. constructor; [done |].
  destruct l as [| c l]; [by repeat constructor |].
  apply IH; [done | simpl; lia].
Qed.

Lemma sortSessions_sorted g day : orderable g day → sessionsSorted (sortSessions day).
Proof.
  intros [_ Hss]. unfold sessionsSorted, sortSessions; simpl.
  destruct (sessions day) as [ss|]; simpl in *; [| constructor].
  apply (StronglySorted_among (λ s, clockTime (startTime s))
           (key_le (λ s, convertTime (startTime s)))).
  - intros s1 s2 H1 H2. by apply convertTime_order.
  - by rewrite sort_Permutation.
  - apply (sort_sorted compareSessions (λ s, convertTime (startTime s))); [done |].
    eapply Forall_impl; [exact Hss |]. intros s. apply clockTime_numeric.
Qed.

Lemma sortPlan_days g output days :
  dailySessions output = Some days →
  Forall (orderable g) days →
  ∃ days',
    dailySessions (sortPlan g output) = Some days' ∧
    (∃ p, p ≡ₚ days ∧ Forall2 rearranged p days') ∧
    StronglySorted (dateOrder g) days' ∧
    Forall sessionsSorted days'.
Proof.
  intros Hd Hall. exists (sortSessions <$> JS.sort (compareDays g) days).
  assert (Hperm : JS.sort (compareDays g) days ≡ₚ days) by apply sort_Permutation.
  split; [unfold sortPlan; simpl; by rewrite Hd |]. split; [| split].
  - exists (JS.sort (compareDays g) days). split; [done |].
    apply Forall2_fmap_r, Forall_Forall2_diag, Forall_forall.
    intros day _. apply sortSessions_rearranged.
  - apply (StronglySorted_fmap _ (key_le (λ day, g (date day))) (dateOrder g)).
    { intros a b. by unfold key_le, dateOrder. }
    apply (sort_sorted (compareDays g) (λ day, g (date day))); [done |].
    eapply Forall_impl; [exact Hall |]. by intros day [Hdate _].
  - apply Forall_fmap. rewrite Hperm.
    eapply Forall_impl; [exact Hall |]. intros day. apply sortSessions_sorted.
Qed.

Lemma forallb_Forall {A} (p : A → bool) (l : list A) :
  forallb p l = true ↔ Forall (λ x, p x = true) l.
Proof.
  induction l as [| x l IH]; simpl; [by split |].
  by rewrite andb_true_iff, Forall_cons, IH.
Qed.

(** Sorting keeps a plan within the output schema. *)
Lemma sortPlan_conforms g output : conforms (sortPlan g output) = conforms output.
Proof.
  unfold conforms, sortPlan; simpl.
  destruct (dailySessions output) as [days |]; simpl; [| done].
  apply eq_true_iff_eq. rewrite !forallb_Forall, Forall_fmap, sort_Permutation.
  apply Forall_iff. intros day. simpl. by destruct (sessions day).
Qed.

(** C4, for an answer the comparators can order. For a request the
    input schema accepts and an answer of the model the output schema
    accepts, in which every date is a valid date and every start time
    has the form ["hh:mm AM/PM"], [generateStudyPlan] returns the
    model's days and sessions rearranged, with the days non-decreasing
    by date and, within each day, the sessions non-decreasing by start
    time in minutes since midnight (12 AM being hour 0, and PM adding 12
    to an hour below 12), whatever order the model gave them in. *)
Theorem generateStudyPlan_sorted Date_getTime today prompt i mo days :
  accepts i = true →
  prompt (promptInput today i) = Responds (Some mo) →
  conforms mo = true →
  dailySessions mo = Some days →
  Forall (orderable Date_getTime) days →
  ∃ out days',
    run (generateStudyPlan Date_getTime today prompt i) =
      (Ok out, [promptInput today i]) ∧
    dailySessions out = Some days' ∧
    (∃ p, p ≡ₚ days ∧ Forall2 rearranged p days') ∧
    StronglySorted (dateOrder Date_getTime) days' ∧
    Forall sessionsSorted days'.
Proof.
  intros Hi Hp Hmo Hd Hall.
  destruct (sortPlan_days Date_getTime mo days Hd Hall) as (days' & Hd' & H).
  exists (sortPlan Date_getTime mo), days'. split; [| done].
  by rewrite generateStudyPlan_run, Hi, Hp, sortPlan_conforms, Hmo.
Qed.

Example sortPlan_shuffled :
  dailySessions (sortPlan JS.iso_getTime shuffled_plan) =
    Some [ {| date := "2025-03-01";
              sessions := Some [ session "2025-03-01" "12:30 AM" "01:00 AM" ] |};
           {| date := "2025-03-02";
              sessions := Some [ session "2025-03-02" "09:00 AM" "10:00 AM";
                                 session "2025-03-02" "12:00 PM" "01:00 PM";
                                 session "2025-03-02" "02:00 PM" "03:00 PM" ] |} ].
Proof. vm_compute. reflexivity. Qed.

(** Noon comes after the morning and before the afternoon, and the
    half hour after midnight before them all. *)
Example clockMinutes_values :
  clockMinutes <$> ["12:30 AM"; "09:00 AM"; "12:00 PM"; "02:00 PM"; "11:59 PM"; "noon"] =
    [Some 30; Some 540; Some 720; Some 840; Some 1439; None].
Proof. reflexivity. Qed.

Lemma generateStudyPlan_sorted_witness :
  (accepts sample_plan_request = true ∧
   conforms shuffled_plan = true ∧
   Forall (orderable JS.iso_getTime) shuffled_days) ∧
  ∃ out days',
    run (generateStudyPlan JS.iso_getTime "2025-02-27"
           (λ _, Responds (Some shuffled_plan)) sample_plan_request) =
      (Ok out, [promptInput "2025-02-27" sample_plan_request]) ∧
    dailySessions out = Some days' ∧
    (∃ p, p ≡ₚ shuffled_days ∧ Forall2 rearranged p days') ∧
    StronglySorted (dateOrder JS.iso_getTime) days' ∧
    Forall sessionsSorted days'.
Proof.
  assert (H : Forall (orderable JS.iso_getTime) shuffled_days)
    by (apply (bool_decide_unpack _); vm_compute; exact I).
  split; [by split_and! |].
  exact (generateStudyPlan_sorted JS.iso_getTime "2025-02-27"
           (λ _, Responds (Some shuffled_plan)) sample_plan_request
           shuffled_plan shuffled_days eq_refl eq_refl eq_refl eq_refl H).
Defined.

(** C4 as stated fails twice, on answers the output schema accepts, for
    which any string is a date and a start time. With a start time that
    is not in the clock format the flow returns the 10:00 AM session
    before the 09:00 AM one; with a date that is no date it returns the
    2nd of March before the 1st. In both cases the comparator gives
    [NaN] next to the odd entry, which the sort reads as equal. *)
Lemma generateStudyPlan_leaves_unsorted :
  (∃ out ss,
     run (generateStudyPlan JS.iso_getTime "2025-02-27"
            (λ _, Responds (Some noon_plan)) sample_plan_request) =
       (Ok out, [promptInput "2025-02-27" sample_plan_request]) ∧
     dailySessions out = Some [ {| date := "2025-03-01"; sessions := Some ss |} ] ∧
     startTime <$> ss = ["10:00 AM"; "noon"; "09:00 AM"] ∧
     clockMinutes <$> (startTime <$> ss) = [Some 600; None; Some 540] ∧
     ¬ Sorted startOrder ss) ∧
  (∃ out days,
     run (generateStudyPlan JS.iso_getTime "2025-02-27"
            (λ _, Responds (Some someday_plan)) sample_plan_request) =
       (Ok out, [promptInput "2025-02-27" sample_plan_request]) ∧
     dailySessions out = Some days ∧
     date <$> days = ["2025-03-02"; "someday"; "2025-03-01"] ∧
     JS.iso_getTime <$> (date <$> days) =
       [JS.Num 1740873600000; JS.NaN; JS.Num 1740787200000] ∧
     ¬ Sorted (dateOrder JS.iso_getTime) days).
Proof.
  split.
  - exists (sortPlan JS.iso_getTime noon_plan), noon_sessions.
    split; [by vm_compute |]. split; [by vm_compute |].
    split; [reflexivity |]. split; [reflexivity |].
    intros Hs. apply Sorted_startOrder_clockTime in Hs; [| simpl; lia].
    apply Forall_cons in Hs as [_ Hs]. apply Forall_cons in Hs as [[x Hnoon] _].
    by vm_compute in Hnoon.
  - exists (sortPlan JS.iso_getTime someday_plan), someday_days.
    split; [by vm_compute |]. split; [by vm_compute |].
    split; [reflexivity |]. split; [by vm_compute |].
    intros Hs.
    apply (Sorted_numeric (λ day, JS.iso_getTime (date day))) in Hs;
      [| simpl; lia].
    apply Forall_cons in Hs as [_ Hs]. apply Forall_cons in Hs as [Hday _].
    by vm_compute in Hday.
Qed.
End study_plan_order.

(* ===================================================================== *)
(** * Test analysis: the answer text given to the model *)
(* ===================================================================== *)

Section answer_resolution.
Import Types AnalyzeTestResults.

Lemma firstWithId_unique r opts o1 o2 :
  firstWithId r opts o1 → firstWithId r opts o2 → o1 = o2.
Proof.
  intros (b1 & a1 & -> & Hr1 & Hb1) (b2 & a2 & Heq & Hr2 & Hb2).
  revert b2 Heq Hb2. induction Hb1 as [| x b1 Hx Hb1 IH]; intros b2 Heq Hb2.
  - destruct b2 as [| y b2]; simpl in Heq; [by inversion Heq |].
    inversion Heq; subst. by apply Forall_cons in Hb2 as [Hy _].
  - destruct b2 as [| y b2]; simpl in Heq; inversion Heq; subst; [done |].
    apply Forall_cons in Hb2 as [_ Hb2]. by apply (IH b2).
Qed.

Lemma find_id r opts :
  match find (λ opt, bool_decide (opt_id opt = r)) opts with
  | Some o => firstWithId r opts o
  | None => Forall (λ o, opt_id o ≠ r) opts
  end.
Proof.
  induction opts as [| x opts IH]; simpl; [constructor |].
  case_bool_decide as Hx.
  - by exists [], opts.
  - destruct (find _ opts) as [o|].
    + destruct IH as (before & after & -> & Hr & Hb).
      exists (x :: before), after. by repeat split; [| constructor].
    + by constructor.
Qed.

Lemma find_id_Some r opts o :
  firstWithId r opts o →
  find (λ opt, bool_decide (opt_id opt = r)) opts = Some o.
Proof.
  intros Ho. pose proof (find_id r opts) as H.
  destruct (find _ opts) as [o'|].
  - f_equal. by apply (firstWithId_unique r opts).
  - destruct Ho as (before & after & -> & Hr & _).
    apply Forall_app in H as [_ H]. by apply Forall_cons in H as [H _].
Qed.

Lemma find_id_None r opts :
  Forall (λ o, opt_id o ≠ r) opts →
  find (λ opt, bool_decide (opt_id opt = r)) opts = None.
Proof.
  intros Hall. pose proof (find_id r opts) as H.
  destruct (find _ opts) as [o|]; [| done].
  destruct H as (before & after & -> & Hr & _).
  apply Forall_app in Hall as [_ Hall]. by apply Forall_cons in Hall as [Hall _].
Qed.

(** What a read of the responses gives. *)
Lemma get_stored (rs : gmap string string) k r :
  rs !! k = Some r → JS.get rs k = Some (JS.Text r).
Proof. intros H. unfold JS.get. by rewrite H. Qed.

Lemma get_inherited rs q :
  readsInherited rs q → JS.get rs (id q) = Some (JS.Member (id q)).
Proof.
  intros [Hnone Hproto]. unfold JS.get. rewrite Hnone.
  by rewrite bool_decide_eq_true_2.
Qed.

Lemma get_absent (rs : gmap string string) k :
  rs !! k = None → k ∉ JS.Object_prototype → JS.get rs k = None.
Proof.
  intros Hnone Hproto. unfold JS.get. rewrite Hnone.
  by rewrite bool_decide_eq_false_2.
Qed.

Lemma find_text r opts :
  find (λ opt, bool_decide (Some (JS.Text (opt_id opt)) = Some (JS.Text r))) opts =
  find (λ opt, bool_decide (opt_id opt = r)) opts.
Proof.
  induction opts as [| o opts IH]; simpl; [done |].
  destruct (decide (opt_id o = r)) as [Ho | Ho].
  - by rewrite !bool_decide_eq_true_2 by congruence.
  - by rewrite !bool_decide_eq_false_2 by congruence.
Qed.

Lemma find_member name opts :
  find (λ opt, bool_decide (Some (JS.Text (opt_id opt)) = Some (JS.Member name)))
    opts = None.
Proof.
  induction opts as [| o opts IH]; [done |].
  cbn [find]. by rewrite bool_decide_eq_false_2.
Qed.

(** The outcomes of [resolveAnswer]. *)
Lemma resolveAnswer_option userResponses q r opts o :
  type q = objective → options q = Some opts →
  userResponses !! id q = Some r → r ≠ "" →
  firstWithId r opts o →
  resolveAnswer userResponses q = JS.Text (opt_text o).
Proof.
  intros Ht Ho Hr Hne Hfirst. unfold resolveAnswer.
  rewrite (get_stored _ _ _ Hr), Ht, Ho.
  destruct r as [| c r]; [done |]. simpl.
  by rewrite find_text, (find_id_Some _ _ _ Hfirst).
Qed.

Lemma resolveAnswer_invalid userResponses q r opts :
  type q = objective → options q = Some opts →
  userResponses !! id q = Some r → r ≠ "" →
  Forall (λ o, opt_id o ≠ r) opts →
  resolveAnswer userResponses q = JS.Text "Invalid option selected by user".
Proof.
  intros Ht Ho Hr Hne Hnone. unfold resolveAnswer.
  rewrite (get_stored _ _ _ Hr), Ht, Ho.
  destruct r as [| c r]; [done |]. simpl.
  by rewrite find_text, (find_id_None _ _ Hnone).
Qed.

Lemma resolveAnswer_missing userResponses q :
  userResponses !! id q = None → id q ∉ JS.Object_prototype →
  resolveAnswer userResponses q = JS.Text "No answer provided".
Proof.
  intros Hr Hproto. unfold resolveAnswer. by rewrite (get_absent _ _ Hr Hproto).
Qed.

Lemma resolveAnswer_empty userResponses q :
  userResponses !! id q = Some "" →
  resolveAnswer userResponses q = JS.Text "No answer provided".
Proof. intros Hr. unfold resolveAnswer. by rewrite (get_stored _ _ _ Hr). Qed.

Lemma resolveAnswer_subjective userResponses q r :
  type q = subjective →
  userResponses !! id q = Some r → r ≠ "" →
  resolveAnswer userResponses q = JS.Text r.
Proof.
  intros Ht Hr Hne. unfold resolveAnswer. rewrite (get_stored _ _ _ Hr), Ht.
  by destruct r as [| c r].
Qed.

Lemma resolveAnswer_no_options userResponses q r :
  options q = None →
  userResponses !! id q = Some r → r ≠ "" →
  resolveAnswer userResponses q = JS.Text r.
Proof.
  intros Ho Hr Hne. unfold resolveAnswer. rewrite (get_stored _ _ _ Hr), Ho.
  destruct r as [| c r]; [done |]. by destruct (type q).
Qed.

Lemma resolveAnswer_inherited userResponses q :
  readsInherited userResponses q →
  resolveAnswer userResponses q =
    if bool_decide (type q = objective ∧ is_Some (options q))
    then JS.Text "Invalid option selected by user"
    else JS.Member (id q).
Proof.
  intros Hq. unfold resolveAnswer. rewrite (get_inherited _ _ Hq).
  cbn [JS.value_truthy].
  destruct (type q); [by rewrite bool_decide_eq_false_2 by (by intros []) |].
  destruct (options q) as [opts |].
  - rewrite find_member. by rewrite bool_decide_eq_true_2.
  - rewrite bool_decide_eq_false_2; [done |]. by intros [_ [opts Hopts]].
Qed.

(** The resolution of C5, for the questions whose response is not read
    from the prototype chain. The question at position [i] of the
    request is processed into an entry at position [i] that keeps the
    question, has display number [i + 1], and whose answer text is: for
    an objective question with options and a recorded response, the text
    of the option with that id (the first such option), or
    ["Invalid option selected by user"] when no option has that id;
    ["No answer provided"] when no response is recorded and the id of the
    question is not the name of a member of [Object.prototype]; for a
    subjective question with a recorded response, the response itself. A
    recorded response is a non-empty entry of [userResponses]: the flow
    tests [if (rawUserAnswer)], so that an empty entry counts as no
    response. *)
Lemma analyzeTestResults_resolves_answers input i q :
  in_questions input !! i = Some q →
  ∃ pq,
    processedQuestions input !! i = Some pq ∧
    original pq = q ∧
    questionDisplayNumber pq = (i + 1)%nat ∧
    (∀ r opts,
       type q = objective → options q = Some opts →
       in_userResponses input !! id q = Some r → r ≠ "" →
       (∀ o, firstWithId r opts o →
             userAnswerTextForPrompt pq = JS.Text (opt_text o)) ∧
       (Forall (λ o, opt_id o ≠ r) opts →
        userAnswerTextForPrompt pq = JS.Text "Invalid option selected by user")) ∧
    (in_userResponses input !! id q = None ∧ id q ∉ JS.Object_prototype ∨
     in_userResponses input !! id q = Some "" →
     userAnswerTextForPrompt pq = JS.Text "No answer provided") ∧
    (∀ r,
       type q = subjective →
       in_userResponses input !! id q = Some r → r ≠ "" →
       userAnswerTextForPrompt pq = JS.Text r).
Proof.
  intros Hq. exists (processQuestion (in_userResponses input) i q).
  split; [unfold processedQuestions; by rewrite list_lookup_imap, Hq |].
  split; [done |]. split; [done |]. simpl. split; [| split].
  - intros r opts Ht Ho Hr Hne. split.
    + intros o. by apply resolveAnswer_option.
    + by apply resolveAnswer_invalid.
  - intros [[Hr Hproto] | Hr];
      [by apply resolveAnswer_missing | by apply resolveAnswer_empty].
  - intros r. apply resolveAnswer_subjective.
Qed.

(** C5, where the flow departs from it. For a question whose id is the
    name of a member of [Object.prototype] and for which [userResponses]
    holds no response, the answer text is not ["No answer provided"]:
    the read [input.userResponses[q.id]] finds the inherited member,
    which is truthy. For an objective question with options the text is
    ["Invalid option selected by user"]; for any other question it is
    the member itself, which is no string. *)
Theorem resolveAnswer_inherited_member input i q :
  in_questions input !! i = Some q →
  readsInherited (in_userResponses input) q →
  ∃ pq,
    processedQuestions input !! i = Some pq ∧
    userAnswerTextForPrompt pq =
      (if bool_decide (type q = objective ∧ is_Some (options q))
       then JS.Text "Invalid option selected by user"
       else JS.Member (id q)) ∧
    userAnswerTextForPrompt pq ≠ JS.Text "No answer provided".
Proof.
  intros Hq Hin. exists (processQuestion (in_userResponses input) i q).
  split; [unfold processedQuestions; by rewrite list_lookup_imap, Hq |].
  simpl. rewrite (resolveAnswer_inherited _ _ Hin).
  split; [done |]. by case_bool_decide.
Qed.

(** The resolution of C10, for the ids that are not names of members of
    [Object.prototype]. For an objective question without an [options]
    field, a recorded non-empty response is the answer text as it stands
    (so it is ["Invalid option selected by user"] only if the response is
    that very text), whatever the id; and an empty recorded response
    gives ["No answer provided"], the text a missing response gives. *)
Lemma resolveAnswer_without_options userResponses q :
  type q = objective → options q = None →
  (∀ r, userResponses !! id q = Some r → r ≠ "" →
     resolveAnswer userResponses q = JS.Text r ∧
     (r ≠ "Invalid option selected by user" →
      resolveAnswer userResponses q ≠ JS.Text "Invalid option selected by user")) ∧
  (userResponses !! id q = Some "" →
     resolveAnswer userResponses q = JS.Text "No answer provided" ∧
     (id q ∉ JS.Object_prototype →
      resolveAnswer userResponses q = resolveAnswer (delete (id q) userResponses) q)).
Proof.
  intros Ht Ho. split.
  - intros r Hr Hne. rewrite (resolveAnswer_no_options _ _ _ Ho Hr Hne).
    split; [done |]. congruence.
  - intros Hr. rewrite (resolveAnswer_empty _ _ Hr). split; [done |].
    intros Hproto. symmetry. apply resolveAnswer_missing; [| done].
    apply lookup_delete_eq.
Qed.

(** C10, where the flow departs from it. For an objective question
    without options whose id is the name of a member of
    [Object.prototype], an empty recorded response gives
    ["No answer provided"], and a missing response does not: without the
    entry the read finds the inherited member, and the answer text is
    that member. *)
Theorem resolveAnswer_missing_differs_from_empty userResponses q :
  type q = objective → options q = None →
  id q ∈ JS.Object_prototype →
  userResponses !! id q = Some "" →
  resolveAnswer userResponses q = JS.Text "No answer provided" ∧
  resolveAnswer (delete (id q) userResponses) q = JS.Member (id q).
Proof.
  intros Ht Ho Hproto Hr. split; [by apply resolveAnswer_empty |].
  rewrite resolveAnswer_inherited.
  - rewrite bool_decide_eq_false_2; [done |]. rewrite Ho. by intros [_ [opts Hopts]].
  - split; [apply lookup_delete_eq | done].
Qed.

Example resolve_scenarios :
  userAnswerTextForPrompt <$>
    processedQuestions (sample_analysis_input {[ "q1" := "c"; "q2" := "b" ]}) =
    [JS.Text "Invalid option selected by user"; JS.Text "b";
     JS.Text "No answer provided"] ∧
  userAnswerTextForPrompt <$>
    processedQuestions (sample_analysis_input {[ "q1" := "a"; "q2" := ""; "q3" := "It diffuses." ]}) =
    [JS.Text "Paris"; JS.Text "No answer provided"; JS.Text "It diffuses."] ∧
  questionDisplayNumber <$> processedQuestions (sample_analysis_input ∅) =
    [1; 2; 3]%nat.
Proof. repeat split; vm_compute; reflexivity. Qed.

(** A test with an objective question named [constructor] and an essay
    named [toString], and no response to either. *)
Lemma resolveAnswer_inherited_member_witness :
  (in_questions inherited_analysis_input !! 0%nat = Some constructor_question ∧
   readsInherited (in_userResponses inherited_analysis_input) constructor_question) ∧
  userAnswerTextForPrompt <$> processedQuestions inherited_analysis_input =
    [JS.Text "Invalid option selected by user"; JS.Member "toString"].
Proof.
  assert (Hin : readsInherited (in_userResponses inherited_analysis_input)
                  constructor_question).
  { split; [reflexivity |]. apply (bool_decide_unpack _). by vm_compute. }
  split; [by split |].
  destruct (resolveAnswer_inherited_member inherited_analysis_input 0
              constructor_question eq_refl Hin) as (pq & Hpq & Htext & _).
  injection Hpq as <-. by vm_compute.
Defined.

Lemma resolveAnswer_missing_differs_from_empty_witness :
  (type valueOf_question = objective ∧ options valueOf_question = None ∧
   id valueOf_question ∈ JS.Object_prototype) ∧
  resolveAnswer {[ "valueOf" := "" ]} valueOf_question = JS.Text "No answer provided" ∧
  resolveAnswer ∅ valueOf_question = JS.Member "valueOf".
Proof.
  assert (Hproto : id valueOf_question ∈ JS.Object_prototype)
    by (apply (bool_decide_unpack _); by vm_compute).
  split; [by split_and! |].
  exact (resolveAnswer_missing_differs_from_empty {[ "valueOf" := "" ]}
           valueOf_question eq_refl eq_refl Hproto eq_refl).
Defined.
End answer_resolution.

(* ===================================================================== *)
(** * The basic report *)
(* ===================================================================== *)

Section basic_report.
Import Types AnalyzeTestResults TestPage TestControls.

(** The three things the read of a response can give. *)
Lemma userAnswerValue_stored responses q r :
  storedResponse responses q = Some r →
  userAnswerValue responses q = Some (JS.Text r).
Proof.
  unfold storedResponse, userAnswerValue.
  destruct responses as [rs |]; simpl; [apply get_stored | done].
Qed.

Lemma userAnswerValue_inherited responses q :
  inheritedResponse responses q →
  userAnswerValue responses q = Some (JS.Member (id q)).
Proof.
  unfold userAnswerValue.
  destruct responses as [rs |]; simpl; [apply get_inherited | done].
Qed.

Lemma userAnswerValue_absent responses q :
  storedResponse responses q = None → ¬ inheritedResponse responses q →
  userAnswerValue responses q = None.
Proof.
  unfold storedResponse, userAnswerValue.
  destruct responses as [rs |]; simpl; [| done].
  intros Hnone Hno. apply get_absent; [done |].
  intros Hproto. apply Hno. by split.
Qed.

Lemma inheritedResponse_not_stored responses q :
  inheritedResponse responses q → storedResponse responses q = None.
Proof. destruct responses as [rs |]; simpl; [by intros [Hnone _] | done]. Qed.

Lemma userAnswerValue_cases responses q :
  (∃ r, storedResponse responses q = Some r ∧
        userAnswerValue responses q = Some (JS.Text r)) ∨
  (inheritedResponse responses q ∧
   userAnswerValue responses q = Some (JS.Member (id q))) ∨
  (storedResponse responses q = None ∧ ¬ inheritedResponse responses q ∧
   userAnswerValue responses q = None).
Proof.
  destruct (storedResponse responses q) as [r |] eqn:Hr.
  - left. exists r. split; [done |]. by apply userAnswerValue_stored.
  - right. destruct (decide (inheritedResponse responses q)) as [Hin | Hno].
    + left. split; [done |]. by apply userAnswerValue_inherited.
    + right. split; [done |]. split; [done |]. by apply userAnswerValue_absent.
Qed.

Lemma answeredCorrectly_matchesKey responses q :
  answeredCorrectly q (userAnswerValue responses q) = true ↔ matchesKey responses q.
Proof.
  unfold answeredCorrectly, matchesKey.
  destruct (userAnswerValue_cases responses q)
    as [(r & Hr & ->) | [[Hin ->] | (Hr & _ & ->)]].
  - rewrite Hr. destruct r as [| c r]; simpl.
    + split; [done |]. by intros (r & Hne & [= <-] & _).
    + rewrite bool_decide_eq_true. split.
      * destruct (correctAnswerKey q) as [k |]; simpl; [| done].
        intros [= <-]. by exists (String c r).
      * by intros (r' & _ & [= <-] & ->).
  - rewrite (inheritedResponse_not_stored _ _ Hin). simpl. split.
    + rewrite bool_decide_eq_true. by destruct (correctAnswerKey q).
    + by intros (r & _ & [=] & _).
  - rewrite Hr. simpl. split; [done |]. by intros (r & _ & [=] & _).
Qed.


Lemma analyseQuestion_returns responses q c :
  (type q = subjective → ¬ inheritedResponse responses q) →
  ∃ a c', analyseQuestion responses q c = Ok (a, c').
Proof.
  intros Hq. unfold analyseQuestion. destruct (type q).
  - destruct (userAnswerValue_cases responses q)
      as [(r & _ & ->) | [[Hin _] | (_ & _ & ->)]]; simpl.
    + by eexists _, _.
    + by destruct Hq.
    + by eexists _, _.
  - destruct (answeredCorrectly _ _); simpl; by eexists _, _.
Qed.

Lemma analyseQuestion_counters responses q c a c' :
  analyseQuestion responses q c = Ok (a, c') →
  c' = {| correctObjectiveAnswers :=
            correctObjectiveAnswers c + length (correctQuestions responses [q]);
          totalObjectiveQuestions :=
            totalObjectiveQuestions c + length (objectiveQuestions [q]) |}.
Proof.
  unfold analyseQuestion, correctQuestions, objectiveQuestions.
  rewrite !filter_cons, !filter_nil.
  pose proof (answeredCorrectly_matchesKey responses q) as Hkey.
  destruct c as [correct total]. destruct (type q) eqn:Ht.
  - destruct (blank _ _) as [b | e]; simpl; [| done]. intros [= <- <-].
    f_equal; lia.
  - destruct (decide (objective = objective ∧ matchesKey responses q))
      as [[_ Hm] | Hno];
      destruct (answeredCorrectly _ _) eqn:Hc; simpl; intros [= <- <-];
      simpl; try (f_equal; lia).
    + apply Hkey in Hm. congruence.
    + destruct Hno. split; [done | by apply Hkey].
Qed.

Lemma analyseQuestions_Ok responses qs c analyses c' :
  analyseQuestions responses qs c = Ok (analyses, c') →
  Forall2 (entryOf responses) qs analyses ∧
  c' = {| correctObjectiveAnswers :=
            correctObjectiveAnswers c + length (correctQuestions responses qs);
          totalObjectiveQuestions :=
            totalObjectiveQuestions c + length (objectiveQuestions qs) |}.
Proof.
  revert c analyses c'. induction qs as [| q qs IH]; intros c analyses c'; simpl.
  - intros [= <- <-]. split; [constructor |]. destruct c; simpl. f_equal; lia.
  - destruct (analyseQuestion responses q c) as [[a c1] | e] eqn:Hq; simpl; [| done].
    destruct (analyseQuestions responses qs c1) as [[rest c2] | e] eqn:Hqs;
      simpl; [| done].
    intros [= <- <-]. destruct (IH _ _ _ Hqs) as [Hall ->].
    split; [constructor; [by exists c, c1 | done] |].
    rewrite (analyseQuestion_counters _ _ _ _ _ Hq). simpl.
    change (q :: qs) with ([q] ++ qs).
    unfold correctQuestions, objectiveQuestions.
    rewrite !filter_app, !length_app. f_equal; lia.
Qed.

Lemma analyseQuestions_returns responses qs c :
  readable responses qs →
  ∃ analyses c', analyseQuestions responses qs c = Ok (analyses, c').
Proof.
  intros Hall. revert c. induction Hall as [| q qs Hq _ IH]; intros c; simpl.
  - by eexists _, _.
  - destruct (analyseQuestion_returns responses q c Hq) as (a & c1 & ->). simpl.
    destruct (IH c1) as (rest & c2 & ->). simpl. by eexists _, _.
Qed.


(** The report, when there is one. *)
Lemma generateBasicReport_Ok t report :
  generateBasicReport t = Ok report →
  overallScore report =
    (if bool_decide (0 < length (objectiveQuestions (questions t)))%nat
     then Some (percentage
                  (length (correctQuestions (userResponses t) (questions t)))
                  (length (objectiveQuestions (questions t))))
     else None) ∧
  overallFeedback report =
    "Basic report generated. AI analysis is temporarily unavailable. This report primarily reflects performance on objective questions." ∧
  Forall2 (entryOf (userResponses t)) (questions t) (questionAnalyses report).
Proof.
  unfold generateBasicReport.
  destruct (analyseQuestions _ _ _) as [[analyses c] | e] eqn:Hqs; simpl; [| done].
  intros [= <-]. simpl. by destruct (analyseQuestions_Ok _ _ _ _ _ Hqs) as [Hall ->].
Qed.

Lemma generateBasicReport_returns t :
  readable (userResponses t) (questions t) →
  ∃ report, generateBasicReport t = Ok report.
Proof.
  intros Hall. unfold generateBasicReport.
  destruct (analyseQuestions_returns _ _
              {| correctObjectiveAnswers := 0; totalObjectiveQuestions := 0 |} Hall)
    as (analyses & c & ->).
  simpl. by eexists.
Qed.


Lemma correctQuestions_le responses qs :
  (length (correctQuestions responses qs) ≤ length (objectiveQuestions qs))%nat.
Proof.
  unfold correctQuestions, objectiveQuestions.
  induction qs as [| q qs IH]; [done |]. rewrite !filter_cons.
  destruct (decide (type q = objective)) as [Ht | Ht].
  - case_decide; simpl; lia.
  - rewrite decide_False by (by intros []). done.
Qed.

(** What the entry for one question says. *)
Lemma entryOf_entry responses q a :
  entryOf responses q a →
  questionId a = id q ∧
  qa_questionText a = questionText q ∧
  feedback a = "AI-powered feedback is temporarily unavailable for this question." ∧
  suggestedScoreOutOfTen a = None ∧
  (∃ text, userAnswerText a = JS.Text text) ∧
  match type q with
  | objective => isCorrect a = true ↔ matchesKey responses q
  | subjective => isCorrect a = false
  end.
Proof.
  intros (c & c' & Ha). revert Ha. unfold analyseQuestion.
  pose proof (answeredCorrectly_matchesKey responses q) as Hkey.
  destruct (type q) eqn:Ht.
  - destruct (userAnswerValue_cases responses q)
      as [(r & _ & ->) | [[_ ->] | (_ & _ & ->)]]; simpl; [| done |].
    + intros [= <- _]. simpl. split_and!; try done.
      destruct (JS.trim_is_empty r); [by eexists |].
      unfold JS.value_or. simpl. destruct r; by eexists.
    + intros [= <- _]. simpl. split_and!; try done. by eexists.
  - assert (Htext : ∃ text,
      match findSelected q (userAnswerValue responses q) with
      | Some selectedOption => JS.Text (opt_text selectedOption)
      | None =>
          if JS.value_truthy (userAnswerValue responses q)
          then JS.Text "Invalid option selected"
          else JS.value_or (userAnswerValue responses q) "Not Attempted"
      end = JS.Text text).
    { destruct (findSelected _ _); [by eexists |].
      unfold JS.value_or. destruct (JS.value_truthy _); by eexists. }
    destruct (answeredCorrectly _ _); simpl; intros [= <- _]; simpl;
      split_and!; try done.
    all: try (by intros _; apply Hkey).
    all: try (intros Hm; by apply Hkey in Hm).
Qed.

(** The percentage is exact at full marks and stays within 0 and 100. *)
Lemma percentage_full n : (0 < n)%nat → percentage n n = Qc_of_Z 100.
Proof.
  intros Hn. unfold percentage, Qcdiv.
  rewrite Qcmult_inv_r; [apply Qcmult_1_l |].
  rewrite <- Z2Qc_inj_0. intros H%Z2Qc_inj. clear -Hn H. lia.
Qed.

Lemma percentage_range correct total :
  (correct ≤ total)%nat → (0 < total)%nat →
  (Qc_of_Z 0 ≤ percentage correct total ≤ Qc_of_Z 100)%Qc.
Proof.
  intros Hle Hpos. unfold percentage.
  assert (HT : (Qc_of_Z 0 < Qc_of_Z (Z.of_nat total))%Qc).
  { apply (proj1 (Z2Qc_inj_lt 0 (Z.of_nat total))). clear -Hpos. lia. }
  assert (HC : (Qc_of_Z 0 ≤ Qc_of_Z (Z.of_nat correct))%Qc).
  { apply (proj1 (Z2Qc_inj_le 0 (Z.of_nat correct))). clear. lia. }
  assert (HCT : (Qc_of_Z (Z.of_nat correct) ≤ Qc_of_Z (Z.of_nat total))%Qc).
  { apply (proj1 (Z2Qc_inj_le (Z.of_nat correct) (Z.of_nat total))). clear -Hle. lia. }
  assert (H100 : (Qc_of_Z 0 ≤ Qc_of_Z 100)%Qc).
  { by apply (proj1 (Z2Qc_inj_le 0 100)). }
  revert HT HC HCT H100. rewrite Z2Qc_inj_0.
  generalize (Qc_of_Z (Z.of_nat correct)) (Qc_of_Z (Z.of_nat total)) (Qc_of_Z 100).
  intros C T hundred HT HC HCT H100.
  assert (HTne : T ≠ Q2Qc 0).
  { intros HT0. rewrite HT0 in HT. by apply Qclt_not_eq in HT. }
  assert (H0 : (Q2Qc 0 ≤ C / T)%Qc).
  { apply (Qcmult_le_mono_pos_r _ _ T HT). by rewrite Qcmult_0_l, test_field. }
  assert (H1 : (C / T ≤ 1)%Qc).
  { apply (Qcmult_le_mono_pos_r _ _ T HT). by rewrite Qcmult_1_l, test_field. }
  split.
  - by apply Qcmult_nonneg_nonneg.
  - rewrite <- (Qcmult_1_l hundred) at 2. by apply Qcmult_le_compat_r.
Qed.

Lemma modelOverloaded_nonempty message :
  modelOverloaded message = true →
  JS.string_or (Some message) "AI analysis failed." = message.
Proof. by destruct message. Qed.

Lemma analysisResult_overloaded thePrompt t message :
  thePrompt (processedDataForPrompt (analysisInput t)) = Fails message →
  modelOverloaded message = true →
  analysisResult thePrompt t = generateBasicReport t.
Proof.
  intros Hfail Hover.
  unfold analysisResult, run, analyzeTestResults, analyzeTestResultsInternalFlow.
  rewrite (bind_call_fails _ _ _ _ _ Hfail).
  by rewrite (modelOverloaded_nonempty _ Hover), Hover.
Qed.

(** The fallback of C6, for the tests in which no subjective question
    has its response read from the prototype chain. When the call to
    the model made by [analyzeTestResults] fails with a message that
    names a 503, an overload or an unavailable service, the page's
    [analysisResult] is a report and not an error: the basic report. It
    has one entry for each question, each with the placeholder feedback,
    no suggested score and a string as the answer text; an objective
    question is marked correct exactly when its stored response is
    non-empty and equal to its [correctAnswerKey], a subjective question
    is never marked correct; the overall score is the share of correct
    objective questions, or [null] when there is no objective question;
    and the overall feedback says that the AI analysis is unavailable. *)
Lemma analysis_falls_back_to_basic_report thePrompt t message :
  thePrompt (processedDataForPrompt (analysisInput t)) = Fails message →
  modelOverloaded message = true →
  readable (userResponses t) (questions t) →
  ∃ report,
    analysisResult thePrompt t = Ok report ∧
    generateBasicReport t = Ok report ∧
    conformant t report ∧
    (∀ i q a,
       questions t !! i = Some q → questionAnalyses report !! i = Some a →
       questionId a = id q ∧
       qa_questionText a = questionText q ∧
       feedback a =
         "AI-powered feedback is temporarily unavailable for this question." ∧
       suggestedScoreOutOfTen a = None ∧
       match type q with
       | objective => isCorrect a = true ↔ matchesKey (userResponses t) q
       | subjective => isCorrect a = false
       end) ∧
    overallScore report =
      (if bool_decide (0 < length (objectiveQuestions (questions t)))%nat
       then Some (percentage
                    (length (correctQuestions (userResponses t) (questions t)))
                    (length (objectiveQuestions (questions t))))
       else None) ∧
    overallFeedback report =
      "Basic report generated. AI analysis is temporarily unavailable. This report primarily reflects performance on objective questions." ∧
    JS.includes "AI analysis is temporarily unavailable" (overallFeedback report) = true.
Proof.
  intros Hfail Hover Hread.
  destruct (generateBasicReport_returns t Hread) as [report Hreport].
  exists report. rewrite (analysisResult_overloaded _ _ _ Hfail Hover).
  destruct (generateBasicReport_Ok t report Hreport) as (Hscore & Hfeedback & Hall).
  split_and!; try done.
  - unfold conformant. split_and!.
    + rewrite Hscore. case_bool_decide; [| done].
      apply percentage_range; [apply correctQuestions_le | done].
    + symmetry. by eapply Forall2_length.
    + apply Forall_forall. intros a Ha.
      apply list_elem_of_lookup in Ha as [i Ha].
      destruct (Forall2_lookup_r _ _ _ _ _ Hall Ha) as (q & _ & Hentry).
      by destruct (entryOf_entry _ _ _ Hentry) as (_ & _ & _ & _ & Htext & _).
  - intros i q a Hq Ha.
    pose proof (Forall2_lookup_lr _ _ _ _ _ _ Hall Hq Ha) as Hentry.
    destruct (entryOf_entry _ _ _ Hentry) as (H1 & H2 & H3 & H4 & _ & H5).
    by split_and!.
  - by rewrite Hfeedback.
Qed.


Lemma objective_readable responses qs :
  Forall (λ q, type q = objective) qs → readable responses qs.
Proof.
  intros Hall. eapply Forall_impl; [exact Hall |].
  intros q Ht. by rewrite Ht.
Qed.

(** C7, for a test that has a question. When every question is objective
    and has a non-empty stored response equal to its [correctAnswerKey],
    and there is at least one question, the basic report has an overall
    score of 100 and marks every entry correct. *)
Theorem basic_report_full_marks t :
  questions t ≠ [] →
  Forall (λ q, type q = objective ∧ matchesKey (userResponses t) q) (questions t) →
  ∃ report,
    generateBasicReport t = Ok report ∧
    overallScore report = Some (Qc_of_Z 100) ∧
    length (questionAnalyses report) = length (questions t) ∧
    Forall (λ a, isCorrect a = true) (questionAnalyses report).
Proof.
  intros Hne Hall.
  destruct (generateBasicReport_returns t) as [report Hreport].
  { apply objective_readable. eapply Forall_impl; [exact Hall |]. by intros q []. }
  exists report. split; [done |].
  destruct (generateBasicReport_Ok t report Hreport) as (Hscore & _ & Hentries).
  assert (Hobj : objectiveQuestions (questions t) = questions t).
  { unfold objectiveQuestions. clear Hne Hreport Hscore Hentries.
    induction Hall as [| q qs [Ht _] _ IH]; [done |].
    rewrite filter_cons, decide_True by done. by rewrite IH. }
  assert (Hcor : correctQuestions (userResponses t) (questions t) = questions t).
  { unfold correctQuestions. clear Hne Hobj Hreport Hscore Hentries.
    induction Hall as [| q qs [Ht Hm] _ IH]; [done |].
    rewrite filter_cons, decide_True, IH; done. }
  rewrite Hobj, Hcor in Hscore. split_and!.
  - rewrite Hscore.
    assert (0 < length (questions t))%nat by (destruct (questions t); simpl; [done | lia]).
    rewrite bool_decide_eq_true_2 by done. by rewrite percentage_full.
  - symmetry. by eapply Forall2_length.
  - apply Forall_forall. intros a Ha.
    apply list_elem_of_lookup in Ha as [i Ha].
    destruct (Forall2_lookup_r _ _ _ _ _ Hentries Ha) as (q & Hq & Hentry).
    destruct (proj1 (Forall_forall _ _) Hall q) as [Ht Hm];
      [by eapply list_elem_of_lookup_2 |].
    destruct (entryOf_entry _ _ _ Hentry) as (_ & _ & _ & _ & _ & H).
    rewrite Ht in H. by apply H.
Qed.

Example modelOverloaded_cases :
  modelOverloaded overloaded_message = true ∧
  modelOverloaded "The model is OVERLOADED. Please try again later." = true ∧
  modelOverloaded "Service Unavailable" = true ∧
  modelOverloaded "AI analysis failed to return an output." = false ∧
  modelOverloaded "" = false.
Proof. repeat split. Qed.

Example basic_report_mixed :
  ∃ report,
    generateBasicReport
      (sample_test [capital_question; essay_question]
         (Some {[ "q1" := "a"; "q3" := "It diffuses." ]})) = Ok report ∧
    overallScore report = Some (Qc_of_Z 100) ∧
    (isCorrect <$> questionAnalyses report) = [true; false] ∧
    (userAnswerText <$> questionAnalyses report) =
      [JS.Text "Paris"; JS.Text "It diffuses."] ∧
    (suggestedScoreOutOfTen <$> questionAnalyses report) = [None; None].
Proof.
  eexists. split; [reflexivity |]. split; [| by vm_compute].
  simpl. f_equal. change (percentage 1 1 = Qc_of_Z 100). apply percentage_full. lia.
Qed.


Lemma basic_report_full_marks_witness :
  (questions (sample_test [capital_question] (Some {[ "q1" := "a" ]})) ≠ [] ∧
   Forall (λ q, type q = objective ∧ matchesKey (Some {[ "q1" := "a" ]}) q)
     [capital_question]) ∧
  ∃ report,
    generateBasicReport (sample_test [capital_question] (Some {[ "q1" := "a" ]})) =
      Ok report ∧
    overallScore report = Some (Qc_of_Z 100).
Proof.
  assert (Hne : questions (sample_test [capital_question] (Some {[ "q1" := "a" ]})) ≠ [])
    by discriminate.
  assert (Hall : Forall (λ q, type q = objective ∧ matchesKey (Some {[ "q1" := "a" ]}) q)
                   [capital_question]).
  { repeat constructor. exists "a". by repeat split. }
  split; [by split |].
  destruct (basic_report_full_marks
              (sample_test [capital_question] (Some {[ "q1" := "a" ]})) Hne Hall)
    as (report & Hreport & Hscore & _).
  by exists report.
Defined.

(** C7 as stated fails twice. A test without questions meets its
    condition and has no score at all; a test whose only question has the
    empty string both as key and as stored response meets it too, and the
    question is marked wrong, for a score of 0. *)
Lemma basic_report_without_full_marks :
  (Forall (λ q, type q = objective ∧
                storedResponse (Some ∅) q = correctAnswerKey q) [] ∧
   ∃ report,
     generateBasicReport (sample_test [] (Some ∅)) = Ok report ∧
     overallScore report = None) ∧
  (Forall (λ q, type q = objective ∧
                storedResponse (Some {[ "q1" := "" ]}) q = correctAnswerKey q)
     [blank_key_question] ∧
   ∃ report,
     generateBasicReport
       (sample_test [blank_key_question] (Some {[ "q1" := "" ]})) = Ok report ∧
     overallScore report = Some (Qc_of_Z 0) ∧
     isCorrect <$> questionAnalyses report = [false]).
Proof.
  split; [split; [constructor | by eexists] |].
  split; [by repeat constructor |].
  eexists. split; [reflexivity |]. split; [| by vm_compute].
  simpl. f_equal. apply Qc_is_canon. reflexivity.
Qed.
End basic_report.

(* ===================================================================== *)
(** * Two runs on the same model output *)
(* ===================================================================== *)

Section determinism.
Import Types(QuestionType(..)).

Lemma string_or_default_irrelevant (s : option string) (d1 d2 : string) :
  JS.truthy s = true → JS.string_or s d1 = JS.string_or s d2.
Proof. by destruct s as [[| c r]|]. Qed.

Lemma fillQuestion_clock now1 now2 index q :
  JS.truthy (GenerateTest.q_id q) = true ∨ now1 index = now2 index →
  GenerateTest.fillQuestion now1 index q = GenerateTest.fillQuestion now2 index q.
Proof.
  intros H. unfold GenerateTest.fillQuestion.
  assert (Hid : ∀ d1 d2, d1 = d2 ∨ JS.truthy (GenerateTest.q_id q) = true →
            JS.string_or (GenerateTest.q_id q) d1 = JS.string_or (GenerateTest.q_id q) d2).
  { intros d1 d2 [-> | Ht]; [done | by apply string_or_default_irrelevant]. }
  rewrite (Hid _ ("q_" +:+ pretty (now2 index) +:+ "_" +:+ pretty index)); [done |].
  destruct H as [Ht | ->]; [by right | by left].
Qed.

Lemma generateTest_result now prompt input :
  (run (GenerateTest.generateTest now prompt input)).1 =
    if bool_decide (GenerateTest.numObjective input + GenerateTest.numSubjective input ≤ 0)
    then Throw "Total number of questions must be greater than 0."
    else if bool_decide (GenerateTest.numObjective input + GenerateTest.numSubjective input > 20)
    then Throw "Cannot generate more than 20 questions in total at once."
    else match prompt input with
         | Responds mo =>
             match mo ≫= GenerateTest.questions with
             | Some qs =>
                 Ok {| GenerateTest.questions :=
                         Some (imap (GenerateTest.fillQuestion now) qs) |}
             | None => Throw "AI failed to generate questions or output was empty."
             end
         | Fails message => Throw message
         end.
Proof.
  unfold run, GenerateTest.generateTest, GenerateTest.generateTestInternalFlow.
  do 2 (case_bool_decide; [done |]).
  unfold mbind, M_bind, bind, call.
  by destruct (prompt input) as [[[[qs|]]|] | message].
Qed.

(** C9, with the clock taken into account. Two runs that receive the
    same model output return the same result in the study-plan flow
    (whatever the day of the run); in the test-generation flow they do so
    when every question of the output has a non-empty id, or when both
    runs read the same clock values; the analysis flow sends the model
    the same processed questions in both runs, and the flashcard flow
    asks for the same number of cards in both. *)
Theorem post_processing_deterministic :
  (∀ Date_getTime today1 today2 prompt1 prompt2 input mo,
     prompt1 (GenerateStudyPlan.promptInput today1 input) = Responds mo →
     prompt2 (GenerateStudyPlan.promptInput today2 input) = Responds mo →
     (run (GenerateStudyPlan.generateStudyPlan Date_getTime today1 prompt1 input)).1 =
     (run (GenerateStudyPlan.generateStudyPlan Date_getTime today2 prompt2 input)).1) ∧
  (∀ now1 now2 prompt1 prompt2 input mo,
     prompt1 input = Responds mo →
     prompt2 input = Responds mo →
     (∀ qs, mo ≫= GenerateTest.questions = Some qs →
            Forall (λ q, JS.truthy (GenerateTest.q_id q) = true) qs) ∨
     (∀ index, now1 index = now2 index) →
     (run (GenerateTest.generateTest now1 prompt1 input)).1 =
     (run (GenerateTest.generateTest now2 prompt2 input)).1) ∧
  (∀ prompt1 prompt2 input,
     (run (AnalyzeTestResults.analyzeTestResults prompt1 input)).2 =
       [AnalyzeTestResults.processedDataForPrompt input] ∧
     (run (AnalyzeTestResults.analyzeTestResults prompt2 input)).2 =
       [AnalyzeTestResults.processedDataForPrompt input]) ∧
  (∀ prompt1 prompt2 input,
     (run (GenerateMultipleFlashcards.generateMultipleFlashcards prompt1 input)).2 =
     (run (GenerateMultipleFlashcards.generateMultipleFlashcards prompt2 input)).2).
Proof.
  split; [| split; [| split]].
  - intros g today1 today2 prompt1 prompt2 input mo H1 H2.
    rewrite !generateStudyPlan_run, H1, H2.
    by destruct (GenerateStudyPlan.accepts input).
  - intros now1 now2 prompt1 prompt2 input mo H1 H2 Hsame.
    rewrite !generateTest_result, H1, H2.
    do 2 (case_bool_decide; [done |]).
    destruct (mo ≫= GenerateTest.questions) as [qs|] eqn:Hqs; [| done].
    do 3 f_equal. apply imap_ext. intros i q Hq. apply fillQuestion_clock.
    destruct Hsame as [Hids | Hclock]; [left | by right].
    by apply (Forall_lookup_1 _ _ _ _ (Hids qs eq_refl) Hq).
  - intros prompt1 prompt2 input.
    unfold run, AnalyzeTestResults.analyzeTestResults,
      AnalyzeTestResults.analyzeTestResultsInternalFlow, mbind, M_bind, bind, call.
    split.
    + by destruct (prompt1 _) as [[r|] | message].
    + by destruct (prompt2 _) as [[r|] | message].
  - intros prompt1 prompt2 input. by rewrite !generateMultipleFlashcards_calls.
Qed.

(** C9 as stated fails for the backfilled ids: two runs on that answer,
    a millisecond apart, return different questions. *)
Lemma generateTest_runs_differ :
  ∃ q1 q2,
    run (GenerateTest.generateTest (λ _, 1700000000000%N) unnamed_model
           (sample_request 1 0)) =
      (Ok {| GenerateTest.questions := Some [q1] |}, [sample_request 1 0]) ∧
    run (GenerateTest.generateTest (λ _, 1700000000001%N) unnamed_model
           (sample_request 1 0)) =
      (Ok {| GenerateTest.questions := Some [q2] |}, [sample_request 1 0]) ∧
    GenerateTest.q_id q1 = Some "q_1700000000000_0" ∧
    GenerateTest.q_id q2 = Some "q_1700000000001_0" ∧
    q1 ≠ q2.
Proof.
  do 2 eexists. split; [reflexivity |]. split; [reflexivity |].
  split; [by vm_compute |]. split; [by vm_compute |].
  intros H. apply (f_equal GenerateTest.q_id) in H. vm_compute in H. discriminate.
Qed.
End determinism.

(* ===================================================================== *)
(** * Numbers as text *)
(* ===================================================================== *)

Section number_text.

Lemma digit_pretty_N_char (d : N) :
  (d < 10)%N → JS.digit (pretty_N_char d) = Some (Z.of_N d).
Proof.
  intros Hd.
  assert (d = 0 ∨ d = 1 ∨ d = 2 ∨ d = 3 ∨ d = 4 ∨ d = 5 ∨ d = 6 ∨ d = 7 ∨
          d = 8 ∨ d = 9)%N as Hcases by lia.
  repeat (destruct Hcases as [-> | Hcases]; [reflexivity |]). by subst.
Qed.

Lemma digit_not_colon (c : ascii) :
  is_Some (JS.digit c) → Ascii.eqb c ":" = false.
Proof.
  destruct c as [[] [] [] [] [] [] [] []]; vm_compute; intros [d Hd];
    by try discriminate.
Qed.

Lemma pretty_N_go_digits (x : N) (s : string) :
  digitsOnly s = true → digitsOnly (pretty_N_go x s) = true.
Proof.
  revert s. induction (N.lt_wf_0 x) as [x _ IH]; intros s Hs.
  destruct (decide (x = 0)%N) as [-> | Hx]; [by rewrite pretty_N_go_0 |].
  rewrite pretty_N_go_step by lia. apply IH.
  - apply N.div_lt; lia.
  - simpl. rewrite Hs, andb_true_r. apply bool_decide_eq_true.
    rewrite digit_pretty_N_char; [done |]. by apply N.mod_lt.
Qed.

Lemma pretty_N_go_value (x : N) (s : string) :
  ∃ p, ∀ acc, JS.digits_value acc (pretty_N_go x s) =
              JS.digits_value (acc * p + Z.of_N x) s.
Proof.
  revert s. induction (N.lt_wf_0 x) as [x _ IH]; intros s.
  destruct (decide (x = 0)%N) as [-> | Hx].
  { exists 1. intros acc. rewrite pretty_N_go_0. f_equal. lia. }
  destruct (IH (x `div` 10)%N) with
    (s := String (pretty_N_char (x `mod` 10)) s) as [p Hp].
  { apply N.div_lt; lia. }
  exists (10 * p). intros acc. rewrite pretty_N_go_step by lia.
  rewrite Hp. simpl. rewrite digit_pretty_N_char by (by apply N.mod_lt).
  f_equal. rewrite (N.div_mod x 10) at 3 by done. lia.
Qed.

Lemma pretty_N_nonempty (x : N) (s : string) : s ≠ "" → pretty_N_go x s ≠ "".
Proof.
  revert s. induction (N.lt_wf_0 x) as [x _ IH]; intros s Hs.
  destruct (decide (x = 0)%N) as [-> | Hx]; [by rewrite pretty_N_go_0 |].
  rewrite pretty_N_go_step by lia. apply IH; [apply N.div_lt; lia | done].
Qed.

(** [Number(String(n))] is [n] again, for a non-negative integer. *)
Lemma toString_digits (n : Z) :
  0 ≤ n →
  JS.digits_value 0 (JSText.toString n) = Some n ∧
  digitsOnly (JSText.toString n) = true ∧
  JSText.toString n ≠ "".
Proof.
  intros Hn. unfold JSText.toString, pretty, pretty_Z.
  destruct n as [| q | q]; [done | | lia].
  unfold pretty, pretty_positive, pretty, pretty_N.
  rewrite decide_False by done.
  destruct (pretty_N_go_value (N.pos q) "") as [p Hp].
  split; [by rewrite Hp |]. split; [by apply pretty_N_go_digits |].
  rewrite pretty_N_go_step by lia. by apply pretty_N_nonempty.
Qed.

Lemma toString_length (n : Z) :
  0 ≤ n < 100 → (1 ≤ String.length (JSText.toString n) ≤ 2)%nat.
Proof.
  intros Hn. unfold JSText.toString, pretty, pretty_Z.
  destruct n as [| q | q]; [simpl; lia | | lia].
  unfold pretty, pretty_positive, pretty, pretty_N.
  rewrite decide_False by done.
  rewrite pretty_N_go_step by lia.
  destruct (decide (N.pos q `div` 10 = 0)%N) as [H0 | H0].
  - rewrite H0, pretty_N_go_0. simpl; lia.
  - rewrite pretty_N_go_step by (by apply N.neq_0_lt_0).
    assert ((N.pos q `div` 10) `div` 10 = 0)%N as ->.
    { rewrite N.Div0.div_div. apply N.div_small. lia. }
    rewrite pretty_N_go_0. simpl; lia.
Qed.

Lemma digits_value_zeros (k : nat) (s : string) :
  JS.digits_value 0 (String.string_of_list_ascii (replicate k "0"%char) +:+ s) =
  JS.digits_value 0 s.
Proof. induction k as [| k IH]; [done |]. simpl. exact IH. Qed.

Lemma digitsOnly_app (a b : string) :
  digitsOnly (a +:+ b) = digitsOnly a && digitsOnly b.
Proof.
  induction a as [| c a IH]; simpl; [done |]. by rewrite IH, andb_assoc.
Qed.

Lemma digitsOnly_zeros (k : nat) :
  digitsOnly (String.string_of_list_ascii (replicate k "0"%char)) = true.
Proof. induction k as [| k IH]; [done |]. simpl. exact IH. Qed.

Lemma padStart_digits (s : string) :
  digitsOnly s = true →
  digitsOnly (JSText.padStart 2 "0" s) = true ∧
  JS.digits_value 0 (JSText.padStart 2 "0" s) = JS.digits_value 0 s.
Proof.
  intros Hs. unfold JSText.padStart. split.
  - by rewrite digitsOnly_app, digitsOnly_zeros, Hs.
  - apply digits_value_zeros.
Qed.

Lemma string_app_length (a b : string) :
  String.length (a +:+ b) = (String.length a + String.length b)%nat.
Proof. induction a as [| c a IH]; simpl; [done |]. by rewrite IH. Qed.

Lemma zeros_length (k : nat) :
  String.length (String.string_of_list_ascii (replicate k "0"%char)) = k.
Proof. induction k as [| k IH]; [done |]. simpl. by rewrite IH. Qed.

Lemma padStart_length (s : string) :
  String.length (JSText.padStart 2 "0" s) = (String.length s `max` 2)%nat.
Proof.
  unfold JSText.padStart. rewrite string_app_length, zeros_length. lia.
Qed.

Lemma split_separator (sep : ascii) (r : string) :
  JS.split sep (String sep r) = "" :: JS.split sep r.
Proof. simpl. by rewrite Ascii.eqb_refl. Qed.

Lemma split_other (sep c : ascii) (r : string) :
  Ascii.eqb c sep = false →
  JS.split sep (String c r) =
    match JS.split sep r with
    | p :: ps => String c p :: ps
    | [] => [String c ""]
    end.
Proof. intros H. simpl. by rewrite H. Qed.

Lemma split_digits (b : string) :
  digitsOnly b = true → JS.split ":" b = [b].
Proof.
  induction b as [| c b IH]; [done |].
  intros [Hc Hb]%andb_true_iff. apply bool_decide_eq_true in Hc.
  by rewrite (split_other _ _ _ (digit_not_colon c Hc)), (IH Hb).
Qed.

Lemma split_fields (a b : string) :
  digitsOnly a = true → digitsOnly b = true →
  JS.split ":" (a +:+ ":" +:+ b) = [a; b].
Proof.
  intros Ha Hb. induction a as [| c a IH].
  - change ("" +:+ ":" +:+ b) with (String ":" b).
    by rewrite split_separator, (split_digits b Hb).
  - apply andb_true_iff in Ha as [Hc Ha]. apply bool_decide_eq_true in Hc.
    change (String c a +:+ ":" +:+ b) with (String c (a +:+ ":" +:+ b)).
    by rewrite (split_other _ _ _ (digit_not_colon c Hc)), (IH Ha).
Qed.
End number_text.

(* ===================================================================== *)
(** * The test page: clock, navigation, submission *)
(* ===================================================================== *)

Section test_controls.
Import Types AnalyzeTestResults TestPage TestControls.

(** X1. For a number of seconds that is not negative, [formatTime] gives
    two fields of digits around a colon: the minutes in two digits or
    more, the seconds in exactly two; read back as numbers they are the
    quotient and the remainder of the seconds by 60. *)
Theorem formatTime_fields (seconds : Z) :
  0 ≤ seconds →
  ∃ mm ss,
    formatTime (Some seconds) = mm +:+ ":" +:+ ss ∧
    JS.split ":" (formatTime (Some seconds)) = [mm; ss] ∧
    JS.Number mm = JS.Num (seconds `div` 60) ∧
    JS.Number ss = JS.Num (seconds `mod` 60) ∧
    (2 ≤ String.length mm)%nat ∧ String.length ss = 2%nat.
Proof.
  intros Hs. unfold formatTime.
  rewrite Z.rem_mod_nonneg by lia.
  assert (Hm : 0 ≤ seconds `div` 60) by (apply Z.div_pos; lia).
  assert (Hr : 0 ≤ seconds `mod` 60 < 60) by (apply Z.mod_pos_bound; lia).
  destruct (toString_digits _ Hm) as (Hmv & Hmd & _).
  destruct (toString_digits (seconds `mod` 60)) as (Hrv & Hrd & _); [lia |].
  destruct (padStart_digits _ Hmd) as [Hmd' Hmv'].
  destruct (padStart_digits _ Hrd) as [Hrd' Hrv'].
  eexists _, _. split; [reflexivity |].
  split; [by apply split_fields |].
  unfold JS.Number. rewrite Hmv', Hmv, Hrv', Hrv.
  split; [done |]. split; [done |].
  rewrite !padStart_length.
  pose proof (toString_length (seconds `mod` 60)) as Hlen. lia.
Qed.

Lemma formatTime_fields_witness :
  0 ≤ 3725 ∧
  ∃ mm ss,
    formatTime (Some 3725) = mm +:+ ":" +:+ ss ∧
    JS.split ":" (formatTime (Some 3725)) = [mm; ss] ∧
    JS.Number mm = JS.Num (3725 `div` 60) ∧
    JS.Number ss = JS.Num (3725 `mod` 60) ∧
    (2 ≤ String.length mm)%nat ∧ String.length ss = 2%nat.
Proof.
  assert (H : 0 ≤ 3725) by lia.
  split; [exact H |]. exact (formatTime_fields 3725 H).
Defined.

Example formatTime_samples :
  formatTime None = "N/A" ∧ formatTime (Some 0) = "00:00" ∧
  formatTime (Some 59) = "00:59" ∧ formatTime (Some 3725) = "62:05" ∧
  formatTime (Some 360000) = "6000:00".
Proof. repeat split; vm_compute; reflexivity. Qed.

Lemma click_in_range t i c :
  0 ≤ i < Z.of_nat (length (questions t)) →
  0 ≤ click (Some t) i c < Z.of_nat (length (questions t)).
Proof.
  intros Hi. destruct c; simpl; unfold handleNextQuestion, handlePrevQuestion;
    case_bool_decide; lia.
Qed.

Lemma clicks_in_range t cs i :
  0 ≤ i < Z.of_nat (length (questions t)) →
  0 ≤ clicks (Some t) cs i < Z.of_nat (length (questions t)).
Proof.
  revert i. induction cs as [| c cs IH]; intros i Hi; [done |].
  apply IH. by apply click_in_range.
Qed.

(** X2. On a test with at least one question, whatever series of Next
    and Previous clicks is made from the first question, the index stays
    on a question of the test: [currentQuestion] is defined. The page
    offers Submit in place of Next exactly on the last question, and
    disables Previous exactly on the first. *)
Theorem navigation_stays_on_a_question t cs :
  questions t ≠ [] →
  let i := clicks (Some t) cs 0 in
  0 ≤ i < Z.of_nat (length (questions t)) ∧
  is_Some (currentQuestion (Some t) i) ∧
  (canNavigateNext (Some t) i = false ↔ i = Z.of_nat (length (questions t)) - 1) ∧
  (canNavigatePrev i = false ↔ i = 0).
Proof.
  intros Hne. simpl.
  assert (Hi : 0 ≤ clicks (Some t) cs 0 < Z.of_nat (length (questions t))).
  { apply clicks_in_range. destruct (questions t); [done | simpl; lia]. }
  split; [done |]. split; [| split].
  - unfold currentQuestion. simpl. rewrite bool_decide_eq_true_2 by lia.
    apply lookup_lt_is_Some. lia.
  - unfold canNavigateNext. rewrite bool_decide_eq_false. lia.
  - unfold canNavigatePrev. rewrite bool_decide_eq_false. lia.
Qed.

Lemma navigation_stays_on_a_question_witness :
  questions (open_test [capital_question; essay_question]) ≠ [] ∧
  is_Some (currentQuestion (Some (open_test [capital_question; essay_question]))
             (clicks (Some (open_test [capital_question; essay_question]))
                [ClickNext; ClickNext; ClickPrev; ClickPrev; ClickPrev; ClickNext] 0)).
Proof.
  assert (H : questions (open_test [capital_question; essay_question]) ≠ [])
    by discriminate.
  split; [exact H |].
  exact (proj1 (proj2 (navigation_stays_on_a_question
                         (open_test [capital_question; essay_question])
                         [ClickNext; ClickNext; ClickPrev; ClickPrev; ClickPrev; ClickNext]
                         H))).
Defined.

(** X3. Next and Previous undo each other away from the two ends, and
    [k] clicks on Next from the first question lead to question [k], or
    to the last one when the test is shorter: every question can be
    reached. *)
Theorem navigation_round_trip t :
  (∀ i, 0 ≤ i < Z.of_nat (length (questions t)) - 1 →
        handlePrevQuestion (handleNextQuestion (Some t) i) = i) ∧
  (∀ i, 0 < i < Z.of_nat (length (questions t)) →
        handleNextQuestion (Some t) (handlePrevQuestion i) = i) ∧
  (∀ k : nat, questions t ≠ [] →
        clicks (Some t) (replicate k ClickNext) 0 =
          Z.of_nat k `min` (Z.of_nat (length (questions t)) - 1)).
Proof.
  split; [| split].
  - intros i Hi. unfold handleNextQuestion, handlePrevQuestion.
    repeat case_bool_decide; lia.
  - intros i Hi. unfold handleNextQuestion, handlePrevQuestion.
    repeat case_bool_decide; lia.
  - intros k Hne.
    assert (Hlen : 0 < Z.of_nat (length (questions t)))
      by (destruct (questions t); [done | simpl; lia]).
    assert (Hgen : ∀ i, 0 ≤ i < Z.of_nat (length (questions t)) →
              clicks (Some t) (replicate k ClickNext) i =
                (i + Z.of_nat k) `min` (Z.of_nat (length (questions t)) - 1)).
    { induction k as [| k IH]; intros i Hi; simpl; [lia |].
      fold (clicks (Some t) (replicate k ClickNext) (handleNextQuestion (Some t) i)).
      rewrite IH by (unfold handleNextQuestion; case_bool_decide; lia).
      unfold handleNextQuestion. case_bool_decide; lia. }
    rewrite Hgen by lia. f_equal.
Qed.
End test_controls.

Section test_submission.
Import Types AnalyzeTestResults TestPage TestControls.
Context (thePrompt : ProcessedData → Reply TestAnalysisReport).
Context (submitTestAndSaveAnswers :
           string → string → gmap string string → Result (option TestSet)).
Context (saveTestAnalysis : string → string → TestAnalysisReport → Result ()).

(** [trim] leaves a string empty exactly when it is white space only. *)
Lemma is_space_units c :
  JS.is_space c = bool_decide (nat_of_ascii c ∈ whiteSpaceUnits).
Proof. by destruct c as [[] [] [] [] [] [] [] []]; vm_compute. Qed.

Lemma trim_is_empty_whiteSpace s : JS.trim_is_empty s = true ↔ whiteSpace s.
Proof.
  unfold whiteSpace. induction s as [| c r IH]; simpl.
  - split; [constructor | done].
  - rewrite andb_true_iff, Forall_cons, IH, is_space_units.
    by rewrite bool_decide_eq_true.
Qed.

Example whiteSpace_cases :
  whiteSpace "" ∧ whiteSpace "   " ∧ whiteSpace no_break_space ∧
  ¬ whiteSpace " a " ∧ ¬ whiteSpace "_".
Proof.
  split_and!; try (apply (bool_decide_unpack _); by vm_compute);
    apply (bool_decide_eq_false_1 _); by vm_compute.
Qed.

(** The callback of the filter, by what the page holds for the
    question. *)
Lemma blank_answer callee userAnswers q :
  blank callee (JS.get userAnswers (id q)) =
    if decide (readsInherited userAnswers q) then Throw (notAFunction callee)
    else Ok (bool_decide (blankAnswer userAnswers q)).
Proof.
  destruct (userAnswers !! id q) as [s |] eqn:Hs.
  - rewrite (get_stored _ _ _ Hs), decide_False by (intros [? _]; congruence).
    simpl. f_equal. apply eq_true_iff_eq. rewrite bool_decide_eq_true.
    unfold blankAnswer. rewrite Hs. apply trim_is_empty_whiteSpace.
  - destruct (decide (id q ∈ JS.Object_prototype)) as [Hproto | Hproto].
    + rewrite decide_True by done. by rewrite (get_inherited userAnswers q).
    + rewrite decide_False by (by intros [_ ?]).
      rewrite (get_absent _ _ Hs Hproto). simpl. f_equal. symmetry.
      apply bool_decide_eq_true. unfold blankAnswer. by rewrite Hs.
Qed.

Lemma countUnanswered_throws userAnswers qs :
  Exists (readsInherited userAnswers) qs →
  countUnanswered userAnswers qs = Throw (notAFunction "userAnswers[q.id]?.trim").
Proof.
  induction qs as [| q qs IH]; [by intros ?%Exists_nil |].
  intros Hex. cbn [countUnanswered]. rewrite blank_answer.
  destruct (decide (readsInherited userAnswers q)) as [Hq | Hq]; [done |].
  apply Exists_cons in Hex as [? | Hex]; [done |]. simpl. by rewrite IH.
Qed.

Lemma countUnanswered_Ok userAnswers qs :
  Forall (λ q, ¬ readsInherited userAnswers q) qs →
  countUnanswered userAnswers qs =
    Ok (length (filter (blankAnswer userAnswers) qs)).
Proof.
  induction 1 as [| q qs Hq _ IH]; [done |].
  cbn [countUnanswered]. rewrite blank_answer, decide_False, IH by done. simpl.
  rewrite filter_cons. by case_bool_decide; [rewrite decide_True | rewrite decide_False].
Qed.

Lemma filter_length_pos {A} (P : A → Prop) `{!∀ x, Decision (P x)} (l : list A) :
  (0 < length (filter P l))%nat ↔ Exists P l.
Proof.
  induction l as [| x l IH]; [split; [simpl; lia | by intros ?%Exists_nil] |].
  rewrite filter_cons, Exists_cons. destruct (decide (P x)); simpl.
  - split; [by left | lia].
  - rewrite IH. split; [by right | by intros [? | ?]].
Qed.

(** The test the handler makes before it submits. *)
Lemma handleSubmitTest_open u testId t userAnswers forceSubmit :
  status t = generated →
  handleSubmitTest thePrompt submitTestAndSaveAnswers saveTestAnalysis
    (Some u) testId (Some t) userAnswers forceSubmit =
    if forceSubmit then
      submitAndAnalyse thePrompt submitTestAndSaveAnswers saveTestAnalysis
        u testId userAnswers
    else if decide (Exists (readsInherited userAnswers) (questions t)) then
      Rejected (notAFunction "userAnswers[q.id]?.trim")
    else if decide (Exists (blankAnswer userAnswers) (questions t)) then
      ConfirmationAsked
    else
      submitAndAnalyse thePrompt submitTestAndSaveAnswers saveTestAnalysis
        u testId userAnswers.
Proof.
  intros Hst. unfold handleSubmitTest, submitAndAnalyse. rewrite Hst.
  destruct forceSubmit; [done |]. unfold unansweredQuestions.
  destruct (decide (Exists (readsInherited userAnswers) (questions t))) as [Hex | Hno].
  - by rewrite (countUnanswered_throws _ _ Hex).
  - rewrite countUnanswered_Ok by (by apply not_Exists_Forall; [apply _ |]).
    simpl. destruct (decide (Exists (blankAnswer userAnswers) (questions t)))
      as [Hblank | Hblank].
    + by rewrite bool_decide_eq_true_2 by (by apply filter_length_pos).
    + by rewrite bool_decide_eq_false_2 by (by rewrite filter_length_pos).
Qed.

(** Once past its checks, [handleSubmitTest] ends in a saved analysis
    or in an error. *)
Lemma handleSubmitTest_proceeds u testId t userAnswers :
  status t = generated →
  ∀ forceSubmit,
    (forceSubmit = true ∨
     Forall (λ q, ¬ readsInherited userAnswers q ∧ ¬ blankAnswer userAnswers q)
       (questions t)) →
    handleSubmitTest thePrompt submitTestAndSaveAnswers saveTestAnalysis
      (Some u) testId (Some t) userAnswers forceSubmit =
    submitAndAnalyse thePrompt submitTestAndSaveAnswers saveTestAnalysis
      u testId userAnswers.
Proof.
  intros Hst forceSubmit Hgo. rewrite handleSubmitTest_open by done.
  destruct Hgo as [-> | Hall]; [done |]. destruct forceSubmit; [done |].
  rewrite decide_False.
  - rewrite decide_False; [done |]. apply Forall_Exists_neg.
    eapply Forall_impl; [exact Hall |]. by intros q [_ ?].
  - apply Forall_Exists_neg. eapply Forall_impl; [exact Hall |]. by intros q [? _].
Qed.

Lemma submitAndAnalyse_outcome u testId userAnswers :
  (∃ report, submitAndAnalyse thePrompt submitTestAndSaveAnswers saveTestAnalysis
               u testId userAnswers = AnalysisComplete report) ∨
  (∃ e, e ≠ "" ∧
        submitAndAnalyse thePrompt submitTestAndSaveAnswers saveTestAnalysis
          u testId userAnswers = SubmissionFailed e).
Proof.
  unfold submitAndAnalyse.
  assert (Hne : ∀ m, JS.string_or (Some m)
                       "Could not process your test. Please try again." ≠ "")
    by (intros m; by apply string_or_nonempty).
  destruct (submitTestAndSaveAnswers _ _ _) as [[st|]|m]; [| right; eauto..].
  destruct (analysisResult _ _) as [r|m]; [| right; eauto].
  destruct (saveTestAnalysis _ _ _) as [[]|m]; [left; eauto | right; eauto].
Qed.

(** X4. [handleSubmitTest] does nothing when there is no user, no test,
    or the test is not in the [generated] state (so a test already
    submitted or analyzed is never submitted again, forced or not).
    Otherwise, when it is not forced, it looks at the answer to every
    question. It throws, before anything is submitted and outside its
    [try] block, exactly when some question has no answer and an id that
    is the name of a member of [Object.prototype]: the read
    [userAnswers[q.id]] finds that member, which has no [trim]. It asks
    for confirmation exactly when it does not throw and some question
    has no answer or an answer that [trim] leaves empty (the empty
    string, or white space only, the no-break space included). In every
    other case it goes on to save and analyze. *)
Theorem handleSubmitTest_gate user testId testSet userAnswers forceSubmit :
  let outcome :=
    handleSubmitTest thePrompt submitTestAndSaveAnswers saveTestAnalysis
      user testId testSet userAnswers forceSubmit in
  (outcome = Returned ↔
     user = None ∨ testSet = None ∨ ∃ t, testSet = Some t ∧ status t ≠ generated) ∧
  ((∃ e, outcome = Rejected e) ↔
     is_Some user ∧ forceSubmit = false ∧
     ∃ t, testSet = Some t ∧ status t = generated ∧
          Exists (readsInherited userAnswers) (questions t)) ∧
  (outcome = ConfirmationAsked ↔
     is_Some user ∧ forceSubmit = false ∧
     ∃ t, testSet = Some t ∧ status t = generated ∧
          Forall (λ q, ¬ readsInherited userAnswers q) (questions t) ∧
          Exists (blankAnswer userAnswers) (questions t)) ∧
  (is_Some user → (∃ t, testSet = Some t ∧ status t = generated) →
   forceSubmit = true ∨
   (∃ t, testSet = Some t ∧
         Forall (λ q, ¬ readsInherited userAnswers q ∧ ¬ blankAnswer userAnswers q)
           (questions t)) →
   ∃ u, user = Some u ∧
        outcome =
          submitAndAnalyse thePrompt submitTestAndSaveAnswers saveTestAnalysis
            u testId userAnswers).
Proof.
  cbn zeta. destruct user as [u |]; [| split_and!].
  2: { split; [by left | done]. }
  2: { split; [by intros [e ?] | by intros ([? ?] & _)]. }
  2: { split; [done | by intros ([? ?] & _)]. }
  2: { by intros [? ?]. }
  destruct testSet as [t |]; [| split_and!].
  2: { split; [by right; left | done]. }
  2: { split; [by intros [e ?] | by intros (_ & _ & ? & ? & _)]. }
  2: { split; [done | by intros (_ & _ & ? & ? & _)]. }
  2: { by intros _ (? & ? & _). }
  destruct (decide (status t = generated)) as [Hst | Hst]; last first.
  { assert (handleSubmitTest thePrompt submitTestAndSaveAnswers saveTestAnalysis
              (Some u) testId (Some t) userAnswers forceSubmit = Returned) as ->.
    { unfold handleSubmitTest. by destruct (status t). }
    split_and!.
    - split; [| done]. intros _. right; right. by exists t.
    - split; [by intros [e ?] | by intros (_ & _ & t' & [= <-] & ? & _)].
    - split; [done | by intros (_ & _ & t' & [= <-] & ? & _)].
    - by intros _ (t' & [= <-] & ?). }
  rewrite handleSubmitTest_open by done.
  pose proof (submitAndAnalyse_outcome u testId userAnswers) as Hout.
  destruct forceSubmit.
  { split_and!.
    - split; [| by intros [? | [? | (t' & [= <-] & ?)]]].
      by destruct Hout as [[r ->] | (e & _ & ->)].
    - split; [| by intros (_ & ? & _)].
      intros [e He]. by destruct Hout as [[r Hr] | (e' & _ & Hr)]; rewrite Hr in He.
    - split; [| by intros (_ & ? & _)].
      by destruct Hout as [[r ->] | (e & _ & ->)].
    - intros _ _ _. by exists u. }
  destruct (decide (Exists (readsInherited userAnswers) (questions t))) as [Hin | Hin].
  { split_and!.
    - split; [done | by intros [? | [? | (t' & [= <-] & ?)]]].
    - split; [| by eexists]. intros _. split; [done |]. split; [done |]. by exists t.
    - split; [done |]. intros (_ & _ & t' & [= <-] & _ & Hall & _).
      by apply Forall_Exists_neg in Hall.
    - intros _ _ [? | (t' & [= <-] & Hall)]; [done |].
      destruct (proj1 (Forall_Exists_neg _ _)
                  (Forall_impl _ _ _ Hall (λ q H, proj1 H)) Hin). }
  assert (Hnone : Forall (λ q, ¬ readsInherited userAnswers q) (questions t))
    by (by apply not_Exists_Forall; [apply _ |]).
  destruct (decide (Exists (blankAnswer userAnswers) (questions t))) as [Hbl | Hbl].
  { split_and!.
    - split; [done | by intros [? | [? | (t' & [= <-] & ?)]]].
    - split; [by intros [e ?] | by intros (_ & _ & t' & [= <-] & _ & ?)].
    - split; [| done]. intros _. split; [done |]. split; [done |]. by exists t.
    - intros _ _ [? | (t' & [= <-] & Hall)]; [done |].
      destruct (proj1 (Forall_Exists_neg _ _)
                  (Forall_impl _ _ _ Hall (λ q H, proj2 H)) Hbl). }
  split_and!.
  - split; [| by intros [? | [? | (t' & [= <-] & ?)]]].
    by destruct Hout as [[r ->] | (e & _ & ->)].
  - split; [| by intros (_ & _ & t' & [= <-] & _ & ?)].
    intros [e He]. by destruct Hout as [[r Hr] | (e' & _ & Hr)]; rewrite Hr in He.
  - split; [| by intros (_ & _ & t' & [= <-] & _ & _ & ?)].
    by destruct Hout as [[r ->] | (e & _ & ->)].
  - intros _ _ _. by exists u.
Qed.

Lemma answerAll_lookup answer qs userAnswers k :
  (∃ q, q ∈ qs ∧ id q = k ∧ answerAll answer qs userAnswers !! k = Some (answer q)) ∨
  ((∀ q, q ∈ qs → id q ≠ k) ∧ answerAll answer qs userAnswers !! k = userAnswers !! k).
Proof.
  revert userAnswers. induction qs as [| q0 qs IH]; intros userAnswers.
  - right. split; [by intros q ?%not_elem_of_nil | done].
  - change (answerAll answer (q0 :: qs) userAnswers) with
      (answerAll answer qs (<[id q0 := answer q0]> userAnswers)).
    destruct (IH (<[id q0 := answer q0]> userAnswers)) as [(q & Hq & Hk & Hl) | [Hnone Hl]].
    + left. exists q. split; [by right | done].
    + rewrite Hl. destruct (decide (id q0 = k)) as [Hk | Hk].
      * left. exists q0. split; [by left |]. split; [done |].
        by rewrite <- Hk, lookup_insert_eq.
      * right. split; [| by rewrite lookup_insert_ne].
        intros q [-> | Hq]%elem_of_cons; [done | by apply Hnone].
Qed.

(** X5. Once an answer that [trim] does not leave empty has been entered
    for every question of an open test (in the order of the questions,
    through [handleAnswerChange], whatever answers were there before and
    whatever the ids of the questions are), [handleSubmitTest] does not
    ask for confirmation and does not throw, also when it is not forced:
    it goes through its saving and analyzing part, and ends with a
    completed analysis or with a submission error that is not empty. *)
Theorem answered_test_is_submitted u testId t answer userAnswers :
  status t = generated →
  Forall (λ q, ¬ whiteSpace (answer q)) (questions t) →
  let outcome :=
    handleSubmitTest thePrompt submitTestAndSaveAnswers saveTestAnalysis
      (Some u) testId (Some t) (answerAll answer (questions t) userAnswers) false in
  outcome =
    submitAndAnalyse thePrompt submitTestAndSaveAnswers saveTestAnalysis
      u testId (answerAll answer (questions t) userAnswers) ∧
  ((∃ report, outcome = AnalysisComplete report) ∨
   (∃ e, e ≠ "" ∧ outcome = SubmissionFailed e)).
Proof.
  intros Hst Hall outcome.
  assert (Hgo : outcome =
    submitAndAnalyse thePrompt submitTestAndSaveAnswers saveTestAnalysis
      u testId (answerAll answer (questions t) userAnswers)).
  { apply handleSubmitTest_proceeds; [done |]. right.
    apply Forall_forall. intros q Hq. unfold readsInherited, blankAnswer.
    destruct (answerAll_lookup answer (questions t) userAnswers (id q))
      as [(q' & Hq' & _ & ->) | [Hnone _]].
    - split; [by intros [? _] |].
      by apply (proj1 (Forall_forall _ _) Hall).
    - by destruct (Hnone q Hq). }
  split; [exact Hgo |]. rewrite Hgo. apply submitAndAnalyse_outcome.
Qed.

Lemma analysisResult_Ok submittedTest report :
  analysisResult thePrompt submittedTest = Ok report ↔
  thePrompt (processedDataForPrompt (analysisInput submittedTest)) =
    Responds (Some report) ∨
  ∃ m, thePrompt (processedDataForPrompt (analysisInput submittedTest)) = Fails m ∧
       modelOverloaded m = true ∧ generateBasicReport submittedTest = Ok report.
Proof.
  unfold analysisResult, run, analyzeTestResults, analyzeTestResultsInternalFlow,
    mbind, M_bind, bind, call.
  destruct (thePrompt _) as [[r|] | m]; simpl.
  - split; [intros [= <-]; by left | intros [[= <-] | (m & ? & _)]; done].
  - split; [done | intros [? | (m & ? & _)]; done].
  - destruct m as [| c m].
    + split; [done | intros [? | (m & [= <-] & ? & _)]; done].
    + change (JS.string_or (Some (String c m)) "AI analysis failed.")
        with (String c m).
      destruct (modelOverloaded (String c m)) eqn:Hov.
      * split; [intros Hr; right; by eexists |].
        intros [? | (m' & _ & _ & Hr)]; done.
      * split; [done | intros [? | (m' & [= <-] & ? & _)]; [done | congruence]].
Qed.

(** X6. When [handleSubmitTest] ends with a saved analysis, the store had
    returned the submitted test and accepted the report, and the report
    is either the one the model gave for that submitted test, or its
    basic report after the call to the model failed with an overload
    message. No other report is ever saved. *)
Theorem saved_analysis_origin user testId testSet userAnswers forceSubmit report :
  handleSubmitTest thePrompt submitTestAndSaveAnswers saveTestAnalysis
    user testId testSet userAnswers forceSubmit = AnalysisComplete report →
  ∃ u submittedTest,
    user = Some u ∧
    submitTestAndSaveAnswers (uid u) testId userAnswers = Ok (Some submittedTest) ∧
    saveTestAnalysis (uid u) testId report = Ok () ∧
    (thePrompt (processedDataForPrompt (analysisInput submittedTest)) =
       Responds (Some report) ∨
     ∃ m, thePrompt (processedDataForPrompt (analysisInput submittedTest)) = Fails m ∧
          modelOverloaded m = true ∧ generateBasicReport submittedTest = Ok report).
Proof.
  unfold handleSubmitTest. destruct user as [u|]; [| done].
  destruct testSet as [t|]; [| done]. destruct (status t); try done.
  match goal with
  | |- context [match ?confirm with Ok _ => _ | Throw _ => _ end] =>
      destruct confirm as [[] | e]; try done
  end.
  destruct (submitTestAndSaveAnswers _ _ _) as [[st|]|m] eqn:Hsub; try done.
  destruct (analysisResult thePrompt st) as [r|m] eqn:Hres; [| done].
  destruct (saveTestAnalysis _ _ _) as [[]|m] eqn:Hsave; [| done].
  intros [= <-]. exists u, st. split; [done |]. split; [done |]. split; [done |].
  by apply (proj1 (analysisResult_Ok st r)).
Qed.

(** X7. An error of the analysis that is not an overload message is
    passed on as it is, without a basic report: in particular when the
    model responds with no output, the error of the flow reaches the
    page, and [handleSubmitTest] ends with that message as its
    submission error. *)
Theorem analysis_errors_pass_on :
  (∀ t m,
     thePrompt (processedDataForPrompt (analysisInput t)) = Fails m →
     modelOverloaded m = false →
     analysisResult thePrompt t = Throw m) ∧
  (∀ t,
     thePrompt (processedDataForPrompt (analysisInput t)) = Responds None →
     analysisResult thePrompt t = Throw "AI analysis failed to return an output.") ∧
  (∀ u testId userAnswers t0 t,
     status t0 = generated →
     submitTestAndSaveAnswers (uid u) testId userAnswers = Ok (Some t) →
     thePrompt (processedDataForPrompt (analysisInput t)) = Responds None →
     handleSubmitTest thePrompt submitTestAndSaveAnswers saveTestAnalysis
       (Some u) testId (Some t0) userAnswers true =
     SubmissionFailed "AI analysis failed to return an output.").
Proof.
  assert (Hnone : ∀ t,
    thePrompt (processedDataForPrompt (analysisInput t)) = Responds None →
    analysisResult thePrompt t = Throw "AI analysis failed to return an output.").
  { intros t Hp. unfold analysisResult, run.
    by rewrite (analyzeTestResults_missing_output _ _ _ Hp). }
  split; [| split; [exact Hnone |]].
  - intros t m Hp Hov. unfold analysisResult, run, analyzeTestResults,
      analyzeTestResultsInternalFlow.
    rewrite (bind_call_fails _ _ _ _ _ Hp).
    destruct m as [| c m]; [done |].
    change (JS.string_or (Some (String c m)) "AI analysis failed.") with (String c m).
    by rewrite Hov.
  - intros u testId userAnswers t0 t Hst Hsub Hp.
    rewrite handleSubmitTest_proceeds by (done || by left).
    unfold submitAndAnalyse. by rewrite Hsub, (Hnone t Hp).
Qed.
End test_submission.

Section test_submission_witnesses.
Import Types AnalyzeTestResults TestPage TestControls.

(** A question left with a no-break space as its answer counts as not
    answered, and a question named [constructor] that has no answer
    makes the handler throw. *)
Example handleSubmitTest_cases :
  handleSubmitTest (λ _, Responds None)
    (storeAnswers (open_test [essay_question])) acceptAnalysis
    (Some {| uid := "u1" |}) "t1" (Some (open_test [essay_question]))
    {[ "q3" := no_break_space ]} false = ConfirmationAsked ∧
  handleSubmitTest (λ _, Responds None)
    (storeAnswers (open_test [constructor_question])) acceptAnalysis
    (Some {| uid := "u1" |}) "t1" (Some (open_test [constructor_question]))
    ∅ false = Rejected "userAnswers[q.id]?.trim is not a function".
Proof. split; by vm_compute. Qed.

Lemma answered_test_is_submitted_witness :
  (status (open_test [capital_question; essay_question]) = generated ∧
   Forall (λ q, ¬ whiteSpace ((λ _ : TestQuestion, "a") q))
     (questions (open_test [capital_question; essay_question]))) ∧
  handleSubmitTest (λ _, Responds None)
    (storeAnswers (open_test [capital_question; essay_question])) acceptAnalysis
    (Some {| uid := "u1" |}) "t1" (Some (open_test [capital_question; essay_question]))
    (answerAll (λ _, "a") (questions (open_test [capital_question; essay_question])) ∅)
    false =
  submitAndAnalyse (λ _, Responds None)
    (storeAnswers (open_test [capital_question; essay_question])) acceptAnalysis
    {| uid := "u1" |} "t1"
    (answerAll (λ _, "a") (questions (open_test [capital_question; essay_question])) ∅).
Proof.
  assert (H1 : status (open_test [capital_question; essay_question]) = generated)
    by reflexivity.
  assert (H2 : Forall (λ q, ¬ whiteSpace ((λ _ : TestQuestion, "a") q))
                 (questions (open_test [capital_question; essay_question])))
    by (repeat constructor; apply (bool_decide_eq_false_1 _); by vm_compute).
  split; [by split |].
  exact (proj1 (answered_test_is_submitted (λ _, Responds None)
           (storeAnswers (open_test [capital_question; essay_question])) acceptAnalysis
           {| uid := "u1" |} "t1" (open_test [capital_question; essay_question])
           (λ _, "a") ∅ H1 H2)).
Defined.

Lemma saved_analysis_origin_witness :
  ∃ report,
    handleSubmitTest (λ _, Fails overloaded_message)
      (storeAnswers (open_test [capital_question])) acceptAnalysis
      (Some {| uid := "u1" |}) "t1" (Some (open_test [capital_question]))
      {[ "q1" := "a" ]} true = AnalysisComplete report ∧
    ∃ u submittedTest,
      Some {| uid := "u1" |} = Some u ∧
      storeAnswers (open_test [capital_question]) (uid u) "t1" {[ "q1" := "a" ]} =
        Ok (Some submittedTest) ∧
      acceptAnalysis (uid u) "t1" report = Ok () ∧
      ((λ _ : ProcessedData, Fails (O := TestAnalysisReport) overloaded_message)
         (processedDataForPrompt (analysisInput submittedTest)) =
         Responds (Some report) ∨
       ∃ m, (λ _ : ProcessedData, Fails (O := TestAnalysisReport) overloaded_message)
              (processedDataForPrompt (analysisInput submittedTest)) = Fails m ∧
            modelOverloaded m = true ∧ generateBasicReport submittedTest = Ok report).
Proof.
  eexists. split; [reflexivity |].
  exact (saved_analysis_origin (λ _, Fails overloaded_message)
           (storeAnswers (open_test [capital_question])) acceptAnalysis
           (Some {| uid := "u1" |}) "t1" (Some (open_test [capital_question]))
           {[ "q1" := "a" ]} true _ eq_refl).
Defined.
End test_submission_witnesses.

Section countdown.
Import Types TestControls.

(** X8. When the countdown effect installs its interval (the test is
    open, nothing is being submitted or analyzed, and [timeLeft] is a
    positive number), a tick on that [timeLeft] takes one second off,
    leaves a number that is not negative, and does not submit the test.
    The updater calls [handleSubmitTest(true)] only when it finds a
    [timeLeft] that is zero or negative, a value on which the effect
    installs no interval. *)
Theorem countdown_tick status timeLeft isSubmitting isAnalyzing :
  (timerStopped status timeLeft isSubmitting isAnalyzing = false →
   ∃ t, timeLeft = Some t ∧ 0 < t ∧
        tick status isSubmitting isAnalyzing timeLeft = (t - 1, false)) ∧
  ((tick status isSubmitting isAnalyzing timeLeft).2 = true →
   (∃ t, timeLeft = Some t ∧ t ≤ 0) ∧
   (tick status isSubmitting isAnalyzing timeLeft).1 = 0 ∧
   timerStopped status timeLeft isSubmitting isAnalyzing = true) ∧
  0 ≤ (tick status isSubmitting isAnalyzing timeLeft).1.
Proof.
  split; [| split].
  - unfold timerStopped, tick. destruct timeLeft as [t|].
    + intros H. exists t. split; [done |].
      assert (Ht : 0 < t).
      { destruct (decide (t ≤ 0)) as [Hle | Hgt]; [| lia].
        rewrite (bool_decide_eq_true_2 (t ≤ 0)) in H by done.
        by destruct (bool_decide (status ≠ Some generated)). }
      rewrite (bool_decide_eq_true_2 (t > 0)) by lia. done.
    + intros H. by destruct (bool_decide (status ≠ Some generated)).
  - unfold timerStopped, tick. destruct timeLeft as [t|]; [| done].
    destruct (decide (t > 0)) as [Ht | Ht].
    { by rewrite (bool_decide_eq_true_2 (t > 0)). }
    rewrite (bool_decide_eq_false_2 (t > 0)) by done. simpl. intros _.
    split; [exists t; split; [done | lia] |]. split; [done |].
    rewrite (bool_decide_eq_true_2 (t ≤ 0)) by lia.
    by destruct (bool_decide (status ≠ Some generated)).
  - unfold tick. destruct timeLeft as [t|]; [| done].
    case_bool_decide; simpl; lia.
Qed.
End countdown.

(* ===================================================================== *)
(** * Conversations: the title of a new conversation *)
(* ===================================================================== *)

Section conversations.
Import SummarizeConversation TestControls Database.

Lemma substring_short n s :
  (String.length s ≤ n)%nat → String.substring 0 n s = s.
Proof.
  revert n. induction s as [| c s IH]; intros [| n] Hn; simpl in *;
    try done; try lia.
  f_equal. apply IH. lia.
Qed.

Lemma substring_length n s :
  (n ≤ String.length s)%nat → String.length (String.substring 0 n s) = n.
Proof.
  revert n. induction s as [| c s IH]; intros [| n] Hn; simpl in *;
    try done; try lia.
  f_equal. apply IH. lia.
Qed.

Lemma substring_prefix n s :
  ∃ rest, s = String.substring 0 n s +:+ rest.
Proof.
  revert n. induction s as [| c s IH]; intros [| n]; simpl.
  - by exists "".
  - by exists "".
  - by exists (String c s).
  - destruct (IH n) as [rest Hrest]. exists rest.
    change (String c s = String c (String.substring 0 n s +:+ rest)). by f_equal.
Qed.

Lemma string_app_empty (s : string) : s +:+ "" = s.
Proof.
  induction s as [| c s IH]; [done |].
  change (String c (s +:+ "") = String c s). by f_equal.
Qed.

Lemma defaultTitle_short content :
  (String.length content ≤ 50)%nat → defaultTitle content = content.
Proof.
  intros Hlen. unfold defaultTitle, JSText.substring0.
  rewrite substring_short by done.
  rewrite bool_decide_eq_false_2 by lia. apply string_app_empty.
Qed.

Lemma defaultTitle_long content :
  (50 < String.length content)%nat →
  String.length (defaultTitle content) = 53%nat ∧
  ∃ rest, rest ≠ "" ∧
    content = JSText.substring0 50 content +:+ rest ∧
    defaultTitle content = JSText.substring0 50 content +:+ "...".
Proof.
  intros Hlen. unfold defaultTitle, JSText.substring0.
  rewrite bool_decide_eq_true_2 by done.
  assert (Hsub : String.length (String.substring 0 50 content) = 50%nat)
    by (apply substring_length; lia).
  split.
  - rewrite string_app_length, Hsub. done.
  - destruct (substring_prefix 50 content) as [rest Hrest].
    exists rest. split; [| done].
    intros ->. apply (f_equal String.length) in Hrest.
    rewrite string_app_length, Hsub in Hrest. simpl in Hrest. lia.
Qed.

Lemma createNewConversation_run prompt key createdAt updatedAt u firstMessage :
  uid u ≠ "" →
  run (createNewConversation prompt key createdAt updatedAt (Some u) firstMessage) =
    let request :=
      {| conversationHistory :=
           role_text (role firstMessage) +:+ ": " +:+ content firstMessage |} in
    let title :=
      match prompt request with
      | Responds (Some summaryResult) => summary summaryResult
      | _ => defaultTitle (content firstMessage)
      end in
    (match key with
     | Some (String c r) =>
         Ok (String c r,
             {| c_id := String c r; c_title := title;
                c_createdAt := createdAt; c_updatedAt := updatedAt;
                messages := [firstMessage]; c_userId := uid u |})
     | _ => Throw "Failed to generate conversation ID."
     end, [request]).
Proof.
  intros Hu. unfold run, createNewConversation.
  destruct (uid u) as [| a v] eqn:Huid; [done |]. simpl.
  unfold mbind, M_bind, bind. rewrite summarizeConversation_run.
  destruct (prompt _) as [[summaryResult |] | message]; simpl;
    by destruct key as [[| c r] |].
Qed.

(** X9. A signed-in user whose store key was issued always gets the new
    conversation, whatever the model does: the model is asked exactly
    once, with the text [role: content] of the first message; the
    conversation holds that one message and the user's id; its title is
    the model's summary when the model gave one, and otherwise (the call
    failed, or its output is missing) the first message itself when that
    has at most 50 characters, or its first 50 characters followed by
    three dots, 53 characters in all. *)
Theorem createNewConversation_title prompt key createdAt updatedAt u firstMessage :
  uid u ≠ "" → JS.truthy key = true →
  ∃ newConversationId conversation,
    run (createNewConversation prompt key createdAt updatedAt (Some u) firstMessage) =
      (Ok (newConversationId, conversation),
       [ {| conversationHistory :=
              role_text (role firstMessage) +:+ ": " +:+ content firstMessage |} ]) ∧
    key = Some newConversationId ∧
    c_id conversation = newConversationId ∧
    c_userId conversation = uid u ∧
    messages conversation = [firstMessage] ∧
    match prompt {| conversationHistory :=
                      role_text (role firstMessage) +:+ ": " +:+ content firstMessage |} with
    | Responds (Some summaryResult) => c_title conversation = summary summaryResult
    | _ =>
        if bool_decide (String.length (content firstMessage) ≤ 50)%nat
        then c_title conversation = content firstMessage
        else String.length (c_title conversation) = 53%nat ∧
             c_title conversation =
               JSText.substring0 50 (content firstMessage) +:+ "..."
    end.
Proof.
  intros Hu Hkey. rewrite createNewConversation_run by done.
  destruct key as [[| c r] |]; try done. simpl.
  eexists _, _. split; [reflexivity |]. simpl. repeat split.
  assert (Hdefault :
    if bool_decide (String.length (content firstMessage) ≤ 50)%nat
    then defaultTitle (content firstMessage) = content firstMessage
    else String.length (defaultTitle (content firstMessage)) = 53%nat ∧
         defaultTitle (content firstMessage) =
           JSText.substring0 50 (content firstMessage) +:+ "...").
  { case_bool_decide as Hlen.
    - by apply defaultTitle_short.
    - destruct (defaultTitle_long (content firstMessage)) as (? & ? & ? & ? & ?);
        [lia | done]. }
  by destruct (prompt _) as [[summaryResult |] | message].
Qed.

(** X10. [createNewConversation] checks the user before it asks the
    model and the store key after: without a user, or with an empty
    [uid], it throws "User not authenticated." and the model is not
    called; with a user but no key it throws "Failed to generate
    conversation ID." after the one call to the model was made. *)
Theorem createNewConversation_guards prompt key createdAt updatedAt firstMessage :
  (∀ user,
     (user = None ∨ ∃ u, user = Some u ∧ uid u = "") →
     run (createNewConversation prompt key createdAt updatedAt user firstMessage) =
       (Throw "User not authenticated.", [])) ∧
  (∀ u,
     uid u ≠ "" → JS.truthy key = false →
     run (createNewConversation prompt key createdAt updatedAt (Some u) firstMessage) =
       (Throw "Failed to generate conversation ID.",
        [ {| conversationHistory :=
               role_text (role firstMessage) +:+ ": " +:+ content firstMessage |} ])).
Proof.
  split.
  - intros user [-> | (u & -> & Hu)]; [done |].
    unfold run, createNewConversation. by rewrite Hu.
  - intros u Hu Hkey. rewrite createNewConversation_run by done.
    by destruct key as [[| c r] |].
Qed.

End conversations.

Section conversations_witnesses.
Import SummarizeConversation TestControls Database.

Lemma createNewConversation_title_witness :
  ∃ newConversationId conversation,
    run (createNewConversation (λ _, Fails "503 Service Unavailable")
           (Some "-Nabc") "2024-05-01T10:00:00.000Z" "2024-05-01T10:00:00.001Z"
           (Some {| uid := "u1" |})
           {| m_id := "m1"; role := role_user;
              content := "How do I solve a quadratic equation by completing the square?";
              timestamp := "2024-05-01T10:00:00.000Z"; imageUrl := None |}) =
      (Ok (newConversationId, conversation),
       [ {| conversationHistory :=
              "user: How do I solve a quadratic equation by completing the square?" |} ]) ∧
    c_title conversation =
      "How do I solve a quadratic equation by completing ...".
Proof.
  destruct (createNewConversation_title (λ _, Fails "503 Service Unavailable")
              (Some "-Nabc") "2024-05-01T10:00:00.000Z" "2024-05-01T10:00:00.001Z"
              {| uid := "u1" |}
              {| m_id := "m1"; role := role_user;
                 content := "How do I solve a quadratic equation by completing the square?";
                 timestamp := "2024-05-01T10:00:00.000Z"; imageUrl := None |})
    as (i & c & Hrun & _ & _ & _ & _ & Htitle); [done | done |].
  exists i, c. split; [exact Hrun |]. simpl in Htitle. by destruct Htitle.
Defined.

End conversations_witnesses.

(* ===================================================================== *)
(** * Creating a test *)
(* ===================================================================== *)

Section test_creation.
Import TestControls Database TestsPage.
Context (now : nat → N)
  (prompt : GenerateTest.GenerateTestInput → Reply GenerateTest.GenerateTestOutput)
  (key : option string) (createdAt updatedAt : string).

Lemma generateTest_refuses input :
  ¬ (0 < GenerateTest.numSubjective input + GenerateTest.numObjective input ≤ 20) →
  ∃ message,
    run (GenerateTest.generateTest now prompt input) = (Throw message, []).
Proof.
  intros Hsum. unfold run, GenerateTest.generateTest, GenerateTest.generateTestInternalFlow.
  case_bool_decide; [by eexists |].
  case_bool_decide; [by eexists |]. lia.
Qed.

Lemma imap_nil_inv {A B} (f : nat → A → B) (l : list A) : imap f l = [] → l = [].
Proof. by destruct l. Qed.

(** The handler, by the answer of the model, for a total the flow accepts. *)
Lemma handleCreateTestSet_accepted u values :
  0 < numSubjective values + numObjective values ≤ 20 →
  handleCreateTestSet now prompt key createdAt updatedAt (Some u) values =
    (match prompt (generateTestInput values) with
     | Responds (Some {| GenerateTest.questions := Some [] |}) => GenerationFailed
     | Responds (Some {| GenerateTest.questions := Some qs |}) =>
         match uid u, key with
         | String _ _, Some (String c r) =>
             TestCreated (String c r)
               {| n_id := String c r; n_userId := uid u;
                  n_title := title values;
                  n_subject := JS.string_or (subject values) "";
                  n_description := JS.string_or (description values) "";
                  n_numSubjective := numSubjective values;
                  n_numObjective := numObjective values;
                  n_timeLimitMinutes :=
                    JS.number_or (Some (JS.Num (timeLimitMinutes values))) (JS.Num 60);
                  n_questions := imap (GenerateTest.fillQuestion now) qs;
                  n_createdAt := createdAt; n_updatedAt := updatedAt;
                  n_status := Types.generated |}
         | _, _ => CreationFailed
         end
     | _ => CreationFailed
     end, [generateTestInput values]).
Proof.
  intros Hsum. unfold handleCreateTestSet, run.
  destruct (prompt (generateTestInput values)) as [mo | message] eqn:Hp.
  - rewrite (generateTest_accepts now prompt _ mo []) by done.
    destruct mo as [[[qs |]] |]; simpl; try done.
    destruct qs as [| q qs]; simpl; [done |].
    unfold createTestSetAndGenerateQuestions.
    destruct (uid u) as [| a v]; simpl; [done |].
    by destruct key as [[| c r] |].
  - unfold GenerateTest.generateTest, GenerateTest.generateTestInternalFlow.
    rewrite !bool_decide_eq_false_2 by (simpl; lia).
    by rewrite (bind_call_fails _ _ _ _ _ Hp).
Qed.

Lemma handleCreateTestSet_refused u values :
  ¬ (0 < numSubjective values + numObjective values ≤ 20) →
  handleCreateTestSet now prompt key createdAt updatedAt (Some u) values = (CreationFailed, []).
Proof.
  intros Hsum. unfold handleCreateTestSet.
  destruct (generateTest_refuses (generateTestInput values) Hsum) as [message ->].
  done.
Qed.

(** X11. A test that [handleCreateTestSet] creates is well formed. The
    user is signed in with a non-empty [uid], which the test carries;
    the requested total lies between 1 and 20; the model was asked
    exactly once and answered with a non-empty list of questions, and
    the test stores the questions of the flow for them, one for each
    and each with a non-empty id; the test has the store key as its id,
    the status [generated], the counts and the title of the form, and
    the time limit of the form, 60 standing in for 0. *)
Theorem handleCreateTestSet_created user values testSetId testSet calls :
  handleCreateTestSet now prompt key createdAt updatedAt user values = (TestCreated testSetId testSet, calls) →
  ∃ u qs,
    user = Some u ∧ uid u ≠ "" ∧ n_userId testSet = uid u ∧
    0 < numSubjective values + numObjective values ≤ 20 ∧
    calls = [generateTestInput values] ∧
    prompt (generateTestInput values) =
      Responds (Some {| GenerateTest.questions := Some qs |}) ∧
    qs ≠ [] ∧
    n_questions testSet = imap (GenerateTest.fillQuestion now) qs ∧
    length (n_questions testSet) = length qs ∧
    Forall (λ q, has_id (GenerateTest.q_id q)) (n_questions testSet) ∧
    key = Some testSetId ∧ testSetId ≠ "" ∧ n_id testSet = testSetId ∧
    n_status testSet = Types.generated ∧
    n_title testSet = title values ∧
    n_numSubjective testSet = numSubjective values ∧
    n_numObjective testSet = numObjective values ∧
    n_timeLimitMinutes testSet =
      JS.Num (if bool_decide (timeLimitMinutes values = 0) then 60
              else timeLimitMinutes values).
Proof.
  destruct user as [u |]; [| done].
  destruct (decide (0 < numSubjective values + numObjective values ≤ 20))
    as [Hsum | Hsum]; [| by rewrite handleCreateTestSet_refused].
  rewrite handleCreateTestSet_accepted by done.
  destruct (prompt (generateTestInput values)) as [[[[qs |]] |] | message];
    try done.
  destruct qs as [| q qs]; [done |].
  destruct (uid u) as [| a v] eqn:Hu; [done |].
  destruct key as [[| c r] |]; try done.
  intros [= <- <- <-]. exists u, (q :: qs). rewrite Hu. simpl.
  repeat split; try done; try lia.
  - f_equal. apply length_imap.
  - apply Forall_lookup_2. intros i q'.
    change (GenerateTest.fillQuestion now 0 q ::
            imap (GenerateTest.fillQuestion now ∘ S) qs)
      with (imap (GenerateTest.fillQuestion now) (q :: qs)).
    rewrite list_lookup_imap.
    destruct ((q :: qs) !! i) as [q0 |]; simpl; [| done].
    intros [= <-]. apply (fillQuestion_filled now i q0).
  - unfold JS.number_or.
    by destruct (timeLimitMinutes values) as [| p | p].
Qed.

(** X12. The form accepts requests that the flow refuses. Each count may
    be as large as 20, so values that pass [testSetSchema] can ask for
    up to 40 questions; when they ask for more than 20,
    [handleCreateTestSet] ends with "Creation Failed", the model is not
    called and nothing is stored. *)
Theorem form_total_above_flow_limit u values :
  testSetSchema values = true →
  numSubjective values + numObjective values > 20 →
  numSubjective values + numObjective values ≤ 40 ∧
  handleCreateTestSet now prompt key createdAt updatedAt (Some u) values = (CreationFailed, []).
Proof.
  intros Hschema Hsum. split.
  - unfold testSetSchema in Hschema.
    repeat (apply andb_prop in Hschema as [Hschema ?]).
    repeat match goal with
           | H : bool_decide _ = true |- _ => apply bool_decide_eq_true_1 in H
           end.
    lia.
  - apply handleCreateTestSet_refused. lia.
Qed.

(** X13. For values that pass [testSetSchema] with a total of at most
    20, the model is asked exactly once, and the check of the handler on
    the result ("AI Generation Failed") fires exactly when the model
    answered with an empty list of questions: a missing output and a
    missing list are thrown by the flow and end in "Creation Failed", as
    an error of the model does. *)
Theorem handleCreateTestSet_failures u values :
  testSetSchema values = true →
  numSubjective values + numObjective values ≤ 20 →
  (handleCreateTestSet now prompt key createdAt updatedAt (Some u) values).2 = [generateTestInput values] ∧
  ((handleCreateTestSet now prompt key createdAt updatedAt (Some u) values).1 = GenerationFailed ↔
   prompt (generateTestInput values) =
     Responds (Some {| GenerateTest.questions := Some [] |})) ∧
  ((∃ message, prompt (generateTestInput values) = Fails message) ∨
   prompt (generateTestInput values) = Responds None ∨
   prompt (generateTestInput values) =
     Responds (Some {| GenerateTest.questions := None |}) →
   (handleCreateTestSet now prompt key createdAt updatedAt (Some u) values).1 = CreationFailed).
Proof.
  intros Hschema Hsum.
  assert (Hpos : 0 < numSubjective values + numObjective values).
  { unfold testSetSchema in Hschema.
    repeat (apply andb_prop in Hschema as [Hschema ?]).
    repeat match goal with
           | H : bool_decide _ = true |- _ => apply bool_decide_eq_true_1 in H
           end.
    match goal with
    | H : _ || _ = true |- _ => apply orb_prop in H as [H | H];
        apply bool_decide_eq_true_1 in H
    end; lia. }
  rewrite handleCreateTestSet_accepted by lia. simpl.
  split; [done |]. split.
  - destruct (prompt (generateTestInput values)) as [[[[qs |]] |] | message];
      try (split; [done | by intros [=]]).
    destruct qs as [| q qs]; [done |].
    split; [| by intros [=]].
    destruct (uid u) as [| a v]; [done |]. by destruct key as [[| c r] |].
  - intros [[message ->] | [-> | ->]]; done.
Qed.

End test_creation.

Section test_creation_witnesses.
Import TestControls Database TestsPage.

Lemma handleCreateTestSet_created_witness :
  ∃ u qs testSet,
    handleCreateTestSet (λ _, 0%N) stray_key_model (Some "-Ntest") "t0" "t1"
      (Some u)
      {| title := "Algebra"; subject := None; description := None;
         numSubjective := 0; numObjective := 1; timeLimitMinutes := 30 |} =
      (TestCreated "-Ntest" testSet, [sample_request 0 1]) ∧
    n_questions testSet = imap (GenerateTest.fillQuestion (λ _, 0%N)) qs ∧
    n_timeLimitMinutes testSet = JS.Num 30.
Proof.
  assert (H : handleCreateTestSet (λ _, 0%N) stray_key_model (Some "-Ntest") "t0" "t1"
      (Some {| uid := "u1" |})
      {| title := "Algebra"; subject := None; description := None;
         numSubjective := 0; numObjective := 1; timeLimitMinutes := 30 |} =
      (TestCreated "-Ntest"
         {| n_id := "-Ntest"; n_userId := "u1"; n_title := "Algebra";
            n_subject := ""; n_description := "";
            n_numSubjective := 0; n_numObjective := 1;
            n_timeLimitMinutes := JS.Num 30;
            n_questions := [stray_key_question];
            n_createdAt := "t0"; n_updatedAt := "t1";
            n_status := Types.generated |}, [sample_request 0 1]))
    by reflexivity.
  destruct (handleCreateTestSet_created _ _ _ _ _ _ _ _ _ _ H)
    as (u & qs & Hu & _ & _ & _ & _ & _ & _ & Hqs & _ & _ & _ & _ & _ & _ & _ & _ & _ & Ht).
  injection Hu as <-. eexists _, qs, _. split; [exact H |]. by split.
Defined.

Lemma form_total_above_flow_limit_witness :
  testSetSchema
    {| title := "Mock exam"; subject := Some "Physics"; description := None;
       numSubjective := 20; numObjective := 20; timeLimitMinutes := 180 |} = true ∧
  handleCreateTestSet (λ _, 0%N) stray_key_model (Some "-Ntest") "t0" "t1"
    (Some {| uid := "u1" |})
    {| title := "Mock exam"; subject := Some "Physics"; description := None;
       numSubjective := 20; numObjective := 20; timeLimitMinutes := 180 |} =
    (CreationFailed, []).
Proof.
  split; [reflexivity |].
  by apply (form_total_above_flow_limit (λ _, 0%N) stray_key_model (Some "-Ntest")
              "t0" "t1" {| uid := "u1" |}).
Defined.

Lemma handleCreateTestSet_failures_witness :
  (handleCreateTestSet (λ _, 0%N)
     (λ _, Responds (Some {| GenerateTest.questions := Some [] |}))
     (Some "-Ntest") "t0" "t1" (Some {| uid := "u1" |})
     {| title := "Algebra"; subject := None; description := None;
        numSubjective := 5; numObjective := 5; timeLimitMinutes := 60 |}).1 =
    GenerationFailed.
Proof.
  by apply (handleCreateTestSet_failures (λ _, 0%N)
              (λ _, Responds (Some {| GenerateTest.questions := Some [] |}))
              (Some "-Ntest") "t0" "t1" {| uid := "u1" |}
              {| title := "Algebra"; subject := None; description := None;
                 numSubjective := 5; numObjective := 5; timeLimitMinutes := 60 |}).
Defined.

End test_creation_witnesses.

(* ===================================================================== *)
(** * Creating a set of flashcards *)
(* ===================================================================== *)

Section flashcard_sets.
Import TestControls Database FlashcardsPage.
Context
  (prompt : GenerateMultipleFlashcards.GenerateMultipleFlashcardsInput →
            Reply GenerateMultipleFlashcards.GenerateMultipleFlashcardsOutput)
  (setKey : option string) (setStored : Result ())
  (cardKey : nat → option string) (cardStored countRaised : nat → Result ())
  (createdAt updatedAt : string).

Lemma topicOf_nonempty values : topicOf values ≠ "".
Proof. unfold topicOf. by apply string_or_nonempty. Qed.

(** One call of [addFlashcardToSet], by what the store does. *)
Lemma addFlashcardToSet_accepted index userId set front back :
  cardAccepted cardKey cardStored countRaised index →
  addFlashcardToSet (cardKey index) (cardStored index) (countRaised index)
    createdAt updatedAt userId set front back =
    (Some {| f_id := default "" (cardKey index); setId := set; frontText := front;
             backText := back; f_createdAt := createdAt; f_updatedAt := updatedAt |},
     Ok (default "" (cardKey index))).
Proof.
  intros (Hkey & Hstored & Hcounted). unfold addFlashcardToSet.
  by rewrite Hkey, Hstored, Hcounted.
Qed.

Lemma addFlashcardToSet_failed index userId set front back :
  ¬ cardAccepted cardKey cardStored countRaised index →
  ∃ e,
    addFlashcardToSet (cardKey index) (cardStored index) (countRaised index)
      createdAt updatedAt userId set front back =
      (if decide (cardKept cardKey cardStored index)
       then Some {| f_id := default "" (cardKey index); setId := set;
                    frontText := front; backText := back;
                    f_createdAt := createdAt; f_updatedAt := updatedAt |}
       else None,
       Throw e).
Proof.
  intros Hno.
  destruct (decide (cardKept cardKey cardStored index)) as [[Hkey Hst] | Hkept].
  - unfold addFlashcardToSet. rewrite Hkey, Hst. simpl.
    destruct (countRaised index) as [[] | e] eqn:Hc; [| by eexists].
    destruct Hno. by split_and!.
  - unfold addFlashcardToSet.
    destruct (JS.truthy (cardKey index)) eqn:Hkey; simpl; [| by eexists].
    destruct (cardStored index) as [[] | e] eqn:Hst; [| by eexists].
    destruct Hkept. by split.
Qed.

(** The loop over the cards writes a prefix of them, all of them when it
    runs to its end, and only cards of the set; when it does not run to
    its end, the store has failed one of the cards. *)
Lemma addCards_prefix userId set index cards :
  let '(written, done) :=
    addCards cardKey cardStored countRaised createdAt updatedAt userId set index cards in
  cardTexts written `prefix_of` pairTexts cards ∧
  (done = true → cardTexts written = pairTexts cards) ∧
  (done = false →
   ∃ k, (k < length cards)%nat ∧
        ¬ cardAccepted cardKey cardStored countRaised (index + k)) ∧
  Forall (λ w, ∃ cardId card, w = WrittenCard cardId card ∧ setId card = set) written.
Proof.
  revert index. induction cards as [| card cards IH]; intros index.
  - simpl. by split_and!.
  - cbn [addCards].
    destruct (decide (cardAccepted cardKey cardStored countRaised index)) as [Hok | Hno].
    + rewrite addFlashcardToSet_accepted by done.
      specialize (IH (S index)).
      destruct (addCards _ _ _ _ _ _ _ _ _) as [more done].
      destruct IH as (Hpre & Hall & Hstop & Hset). simpl. split_and!.
      * by apply prefix_cons.
      * intros Hdone. f_equal. by apply Hall.
      * intros Hdone. destruct (Hstop Hdone) as (k & Hk & Hfail).
        exists (S k). split; [lia |]. by replace (index + S k)%nat with (S index + k)%nat by lia.
      * apply Forall_cons. split; [by eexists _, _ | done].
    + destruct (addFlashcardToSet_failed index userId set
                  (GenerateMultipleFlashcards.questionText card)
                  (GenerateMultipleFlashcards.answerText card) Hno) as [e ->].
      split_and!.
      * destruct (decide (cardKept _ _ _)); simpl;
          [apply prefix_cons, prefix_nil | apply prefix_nil].
      * done.
      * intros _. exists 0%nat. split; [simpl; lia |]. by rewrite Nat.add_0_r.
      * destruct (decide (cardKept _ _ _)); simpl; [| constructor].
        repeat constructor. by eexists _, _.
Qed.

(** The loop stops at the first card the store fails, and that card is
    written all the same when only the update of the counter failed. *)
Lemma addCards_stops userId set index cards k :
  (k < length cards)%nat →
  (∀ i, (i < k)%nat → cardAccepted cardKey cardStored countRaised (index + i)) →
  ¬ cardAccepted cardKey cardStored countRaised (index + k) →
  ∃ written,
    addCards cardKey cardStored countRaised createdAt updatedAt userId set index cards =
      (written, false) ∧
    length written =
      (if decide (cardKept cardKey cardStored (index + k)) then S k else k) ∧
    cardTexts written = take (length written) (pairTexts cards).
Proof.
  revert index k. induction cards as [| card cards IH]; intros index k Hk Hkeys Hstop;
    simpl in Hk; [lia |].
  cbn [addCards]. destruct k as [| k].
  - rewrite Nat.add_0_r in Hstop |- *.
    destruct (addFlashcardToSet_failed index userId set
                (GenerateMultipleFlashcards.questionText card)
                (GenerateMultipleFlashcards.answerText card) Hstop) as [e ->].
    destruct (decide (cardKept _ _ _)); simpl; by eexists.
  - assert (H0 : cardAccepted cardKey cardStored countRaised index).
    { assert (index = index + 0)%nat as -> by lia. apply Hkeys. lia. }
    rewrite addFlashcardToSet_accepted by done.
    destruct (IH (S index) k) as (written & -> & Hlen & Htexts).
    + lia.
    + intros i Hi. replace (S index + i)%nat with (index + S i)%nat by lia.
      apply Hkeys. lia.
    + by replace (S index + k)%nat with (index + S k)%nat by lia.
    + replace (S index + k)%nat with (index + S k)%nat in Hlen by lia.
      eexists. split; [reflexivity |]. simpl. rewrite Hlen.
      split; [by destruct (decide _) |]. f_equal. by rewrite Htexts, Hlen.
Qed.

Lemma handleCreateSet_run u values :
  handleCreateSet prompt setKey setStored cardKey cardStored countRaised
    createdAt updatedAt (Some u) values =
    match prompt (flashcardsRequest values) with
    | Fails _ | Responds None => (SetCreationFailed, [flashcardsRequest values], [])
    | Responds (Some {| GenerateMultipleFlashcards.flashcards := [] |}) =>
        (SetGenerationFailed, [flashcardsRequest values], [])
    | Responds (Some {| GenerateMultipleFlashcards.flashcards := cards |}) =>
        match createFlashcardSet setKey setStored createdAt updatedAt (uid u)
                (title values) (subject values) (chapter values) with
        | Throw _ => (SetCreationFailed, [flashcardsRequest values], [])
        | Ok (id, set) =>
            ((if (addCards cardKey cardStored countRaised createdAt updatedAt
                    (uid u) id 0 cards).2
              then FlashcardsAdded (length cards) else SetCreationFailed),
             [flashcardsRequest values],
             WrittenSet id set ::
               (addCards cardKey cardStored countRaised createdAt updatedAt
                  (uid u) id 0 cards).1)
        end
    end.
Proof.
  unfold handleCreateSet. rewrite generateMultipleFlashcards_run. cbn zeta.
  change {| GenerateMultipleFlashcards.topic :=
              GenerateMultipleFlashcards.topic
                {| GenerateMultipleFlashcards.topic := topicOf values;
                   GenerateMultipleFlashcards.numberOfCards := Some (JS.Num 5) |};
            GenerateMultipleFlashcards.numberOfCards :=
              Some (GenerateMultipleFlashcards.effectiveNumCards
                      {| GenerateMultipleFlashcards.topic := topicOf values;
                         GenerateMultipleFlashcards.numberOfCards := Some (JS.Num 5) |}) |}
    with (flashcardsRequest values).
  destruct (prompt (flashcardsRequest values)) as [[[cards] |] | message];
    cbn -[addCards createFlashcardSet]; try done.
  destruct cards as [| card cards]; [done |].
  destruct (createFlashcardSet _ _ _ _ _ _ _ _) as [[id set] | ?]; [| done].
  by destruct (addCards _ _ _ _ _ _ _ _ _).
Qed.

Lemma handleCreateSet_calls u values :
  (handleCreateSet prompt setKey setStored cardKey cardStored countRaised
     createdAt updatedAt (Some u) values).1.2 =
    [flashcardsRequest values].
Proof.
  rewrite handleCreateSet_run.
  destruct (prompt (flashcardsRequest values)) as [[[cards] |] | message];
    try done.
  destruct cards as [| card cards]; [done |].
  by destruct (createFlashcardSet _ _ _ _ _ _ _ _) as [[id set] | ?].
Qed.

(** X14. [handleCreateSet] asks the model exactly once, for five cards,
    on a topic that is never empty: the non-empty ones among title,
    subject and chapter joined by " - ", and "General Knowledge" when
    all three are empty or absent; a title alone is the topic itself. *)
Theorem handleCreateSet_request u values :
  (handleCreateSet prompt setKey setStored cardKey cardStored countRaised
     createdAt updatedAt (Some u) values).1.2 =
    [ {| GenerateMultipleFlashcards.topic := topicOf values;
         GenerateMultipleFlashcards.numberOfCards := Some (JS.Num 5) |} ] ∧
  topicOf values ≠ "" ∧
  (JS.truthy (Some (title values)) = false →
   JS.truthy (subject values) = false → JS.truthy (chapter values) = false →
   topicOf values = "General Knowledge") ∧
  (JS.truthy (Some (title values)) = true →
   JS.truthy (subject values) = false → JS.truthy (chapter values) = false →
   topicOf values = title values).
Proof.
  split; [apply handleCreateSet_calls |]. split; [apply topicOf_nonempty |].
  unfold topicOf, JSText.filterBoolean. destruct values as [t s c]; simpl.
  split; intros Ht Hs Hc.
  - destruct t; [| done]. by destruct s as [[|] |], c as [[|] |].
  - destruct t as [| a t]; [done |]. by destruct s as [[|] |], c as [[|] |].
Qed.

(** X15. What [handleCreateSet] writes. Nothing is written unless the
    model answered with at least one card and the store took the new
    set. What is written is the new set first, empty and with the
    user's id and the title of the form, and then cards of that set that
    carry the texts of the model's cards in the model's order, from the
    first on. When the handler reports "Flashcards Added!" every card of
    the model was written and the number reported is their number; when
    it reports a failure after the set was written, the store has failed
    one of the cards: it issued no key for it, or rejected the write of
    the card or the update of the counter of the set. *)
Theorem handleCreateSet_writes u values outcome calls written :
  handleCreateSet prompt setKey setStored cardKey cardStored countRaised
    createdAt updatedAt (Some u) values = (outcome, calls, written) →
  written = [] ∧ (∀ n, outcome ≠ FlashcardsAdded n) ∨
  ∃ id set cards stored,
    prompt (flashcardsRequest values) =
      Responds (Some {| GenerateMultipleFlashcards.flashcards := cards |}) ∧
    cards ≠ [] ∧
    written = WrittenSet id set :: stored ∧
    setKey = Some id ∧ id ≠ "" ∧ setStored = Ok () ∧ fs_id set = id ∧
    fs_userId set = uid u ∧ fs_title set = title values ∧
    flashcardCount set = Some 0 ∧
    Forall (λ w, ∃ cardId card, w = WrittenCard cardId card ∧ setId card = id) stored ∧
    cardTexts stored `prefix_of` pairTexts cards ∧
    (∀ n, outcome = FlashcardsAdded n →
       n = length cards ∧ cardTexts stored = pairTexts cards) ∧
    (outcome = SetCreationFailed →
       ∃ k, (k < length cards)%nat ∧
            ¬ cardAccepted cardKey cardStored countRaised k).
Proof.
  rewrite handleCreateSet_run.
  destruct (prompt (flashcardsRequest values)) as [[[cards] |] | message];
    try (intros [= <- <- <-]; by left).
  destruct cards as [| card cards]; [intros [= <- <- <-]; by left |].
  unfold createFlashcardSet.
  destruct (uid u) as [| a v] eqn:Hu; cbn -[addCards];
    [intros [= <- <- <-]; by left |].
  destruct setKey as [[| c r] |]; cbn -[addCards];
    try (intros [= <- <- <-]; by left).
  destruct setStored as [[] | e]; cbn -[addCards];
    [| intros [= <- <- <-]; by left].
  pose proof (addCards_prefix (String a v) (String c r) 0 (card :: cards)) as Hadd.
  destruct (addCards _ _ _ _ _ _ _ _ _) as [stored done]. cbn -[addCards].
  destruct Hadd as (Hpre & Hall & Hstop & Hset).
  intros [= <- <- <-]. right.
  eexists _, _, (card :: cards), stored. split_and!; try done.
  - intros n. destruct done; [| done]. intros [= <-]. split; [done | by apply Hall].
  - destruct done; [done |]. intros _. by apply Hstop.
Qed.

(** X16. A failure while the cards are added is not undone. When the
    set was created and the store takes the first [k] cards of the model
    (a key, the card and the update of the counter) but fails the next
    one, [handleCreateSet] reports "Creation Failed", and the set and
    those first [k] cards have been written; so has the card that
    failed, when the store took it and rejected only the update of the
    counter. In particular, when the store issues keys for the first [k]
    cards but none for the next, the set and the first [k] cards are what
    is written. *)
Theorem handleCreateSet_partial u values cards k :
  uid u ≠ "" → JS.truthy setKey = true → setStored = Ok () →
  prompt (flashcardsRequest values) =
    Responds (Some {| GenerateMultipleFlashcards.flashcards := cards |}) →
  (k < length cards)%nat →
  (∀ i, (i < k)%nat → cardAccepted cardKey cardStored countRaised i) →
  ¬ cardAccepted cardKey cardStored countRaised k →
  ∃ id set stored,
    handleCreateSet prompt setKey setStored cardKey cardStored countRaised
      createdAt updatedAt (Some u) values =
      (SetCreationFailed, [flashcardsRequest values], WrittenSet id set :: stored) ∧
    setKey = Some id ∧
    length stored = (if decide (cardKept cardKey cardStored k) then S k else k) ∧
    cardTexts stored = take (length stored) (pairTexts cards) ∧
    (JS.truthy (cardKey k) = false →
     length stored = k ∧ cardTexts stored = take k (pairTexts cards)).
Proof.
  intros Hu Hkey Hset Hp Hk Hkeys Hstop. rewrite handleCreateSet_run, Hp.
  destruct cards as [| card cards]; [simpl in Hk; lia |].
  unfold createFlashcardSet. rewrite Hset.
  destruct (uid u) as [| a v]; [done |].
  destruct setKey as [[| c r] |]; try done. cbn -[addCards].
  destruct (addCards_stops (String a v) (String c r) 0 (card :: cards) k)
    as (stored & Hadd & Hlen & Htexts); try done.
  rewrite Hadd. cbn -[addCards]. simpl in Hlen.
  eexists _, _, stored. split_and!; try done.
  intros Hnokey. rewrite decide_False in Hlen by (intros [? _]; congruence).
  split; [done |]. by rewrite Htexts, Hlen.
Qed.

End flashcard_sets.

Section flashcard_sets_witnesses.
Import TestControls Database FlashcardsPage.

Lemma handleCreateSet_writes_witness :
  ∃ id set stored,
    handleCreateSet sums_model (Some "-Nset") (Ok ())
      (λ i, Some ("-Ncard" +:+ pretty i)) accepting accepting
      "t0" "t1" (Some {| uid := "u1" |}) sums_form =
      (FlashcardsAdded 2, [flashcardsRequest sums_form], WrittenSet id set :: stored) ∧
    cardTexts stored = [("2+2?", "4"); ("3+3?", "6")].
Proof.
  pose (r := handleCreateSet sums_model (Some "-Nset") (Ok ())
               (λ i, Some ("-Ncard" +:+ pretty i)) accepting accepting "t0" "t1"
               (Some {| uid := "u1" |}) sums_form).
  assert (Hrun : r = ltac:(let v := eval vm_compute in r in exact v))
    by (vm_compute; reflexivity).
  destruct (handleCreateSet_writes _ _ _ _ _ _ _ _ _ _ _ _ _ Hrun)
    as [[[=] _] | (id & set & cards & stored & Hp & _ & Hw & _ & _ & _ & _ & _ & _ & _ & _ & _ & Hall & _)].
  injection Hp as <-. destruct (Hall 2%nat eq_refl) as [_ Htexts].
  exists id, set, stored. split; [| exact Htexts].
  rewrite <- Hw. exact Hrun.
Defined.

(** The store rejects the update of the counter after the second and
    last card: both cards are written, and the handler reports a
    failure. *)
Example handleCreateSet_all_written_and_failed :
  ∃ id set stored,
    handleCreateSet sums_model (Some "-Nset") (Ok ())
      (λ i, Some ("-Ncard" +:+ pretty i)) accepting
      (λ i, if decide (i = 1%nat) then Throw "PERMISSION_DENIED" else Ok ())
      "t0" "t1" (Some {| uid := "u1" |}) sums_form =
      (SetCreationFailed, [flashcardsRequest sums_form], WrittenSet id set :: stored) ∧
    cardTexts stored = [("2+2?", "4"); ("3+3?", "6")].
Proof. do 3 eexists. split; by vm_compute. Qed.

Lemma handleCreateSet_partial_witness :
  ∃ id set stored,
    handleCreateSet sums_model (Some "-Nset") (Ok ())
      (λ i, if decide (i = 0%nat) then Some "-Ncard0" else None) accepting accepting
      "t0" "t1" (Some {| uid := "u1" |}) sums_form =
      (SetCreationFailed, [flashcardsRequest sums_form], WrittenSet id set :: stored) ∧
    cardTexts stored = [("2+2?", "4")].
Proof.
  destruct (handleCreateSet_partial sums_model (Some "-Nset") (Ok ())
              (λ i, if decide (i = 0%nat) then Some "-Ncard0" else None)
              accepting accepting
              "t0" "t1" {| uid := "u1" |} sums_form sums_cards 1%nat)
    as (id & set & stored & Hrun & _ & _ & _ & Htexts);
    [done | done | done | reflexivity | simpl; lia | | by intros [? _] |].
  - intros i Hi. by replace i with 0%nat by lia.
  - exists id, set, stored. split; [exact Hrun |]. by apply Htexts.
Defined.

End flashcard_sets_witnesses.

(* ===================================================================== *)
(** * The name of a downloaded plan *)
(* ===================================================================== *)

Section download_name.
Import PlannerPage.

Lemma replaced_char_safe (c : ascii) :
  fileNameChar (JS.lower (if JSText.alphanumeric c then c else "_"%char)) = true.
Proof. by destruct c as [[] [] [] [] [] [] [] []]. Qed.

Lemma safe_char_kept (c : ascii) :
  fileNameChar c = true →
  JS.lower (if JSText.alphanumeric c then c else "_"%char) = c.
Proof. by destruct c as [[] [] [] [] [] [] [] []]. Qed.

Lemma sanitized_safe (s : string) :
  Forall (λ c, fileNameChar c = true)
    (String.list_ascii_of_string (JS.toLowerCase (JSText.replaceNonAlphanumeric s))).
Proof.
  induction s as [| c s IH]; simpl; [apply Forall_nil_2 |].
  apply Forall_cons. split; [apply replaced_char_safe | done].
Qed.

Lemma safe_sanitized (s : string) :
  Forall (λ c, fileNameChar c = true) (String.list_ascii_of_string s) →
  JS.toLowerCase (JSText.replaceNonAlphanumeric s) = s.
Proof.
  induction s as [| c s IH]; simpl; [done |].
  intros [Hc Hs]%Forall_cons. f_equal; [by apply safe_char_kept | by apply IH].
Qed.

(** X17. The file name [handleDownloadPlan] builds from the title of a
    plan is never empty and consists of lower-case letters, digits and
    underscores only, so it holds no dot, slash or space; a title that
    already has this form is kept as it is, and the name of the download
    is that name followed by ".ics". *)
Theorem fileName_safe planTitle :
  fileName planTitle ≠ "" ∧
  Forall (λ c, fileNameChar c = true)
    (String.list_ascii_of_string (fileName planTitle)) ∧
  fileName (Some (fileName planTitle)) = fileName planTitle ∧
  download planTitle = fileName planTitle +:+ ".ics" ∧
  (∀ name,
     name ≠ "" →
     Forall (λ c, fileNameChar c = true) (String.list_ascii_of_string name) →
     fileName (Some name) = name).
Proof.
  assert (Hkept : ∀ name,
     name ≠ "" →
     Forall (λ c, fileNameChar c = true) (String.list_ascii_of_string name) →
     fileName (Some name) = name).
  { intros name Hname Hsafe. unfold fileName.
    destruct name as [| c r]; [done |]. by apply safe_sanitized. }
  assert (Hnonempty : fileName planTitle ≠ "").
  { unfold fileName.
    destruct (JS.string_or planTitle "Study Plan") as [| c r] eqn:Ht; [| done].
    by destruct planTitle as [[| c r] |]. }
  split_and!; try done.
  - apply sanitized_safe.
  - apply Hkept; [done | apply sanitized_safe].
Qed.

End download_name.

(* ===================================================================== *)
(** * Test generation: the ids the flow makes up *)
(* ===================================================================== *)

Section generated_ids.
Import Types(QuestionType(..)).
Import GenerateTest.

Lemma pretty_N_digits (x : N) : digitsOnly (pretty x) = true.
Proof.
  unfold pretty, pretty_N. case_decide; [done |]. by apply pretty_N_go_digits.
Qed.

Lemma pretty_nat_digits (i : nat) : digitsOnly (pretty i) = true.
Proof. apply pretty_N_digits. Qed.

(** Two texts of digits followed by an underscore and more text agree
    part by part when they agree as a whole. *)
Lemma digits_underscore_inj (a a' d d' : string) :
  digitsOnly a = true → digitsOnly a' = true →
  a +:+ String "_" d = a' +:+ String "_" d' → a = a' ∧ d = d'.
Proof.
  revert a'. induction a as [| c a IH]; intros [| c' a'] Ha Ha'; simpl in *.
  - by intros [= <-].
  - intros [= <- _]. by apply andb_prop in Ha' as [Hc%bool_decide_eq_true_1 _];
      destruct Hc.
  - intros [= -> _]. by apply andb_prop in Ha as [Hc%bool_decide_eq_true_1 _];
      destruct Hc.
  - intros [= <- Hrest].
    apply andb_prop in Ha as [_ Ha]. apply andb_prop in Ha' as [_ Ha'].
    destruct (IH a' Ha Ha' Hrest) as [-> ->]. done.
Qed.

Lemma string_app_inj_l (p a b : string) : p +:+ a = p +:+ b → a = b.
Proof. induction p as [| c p IH]; simpl; [done |]. intros [= H]. by apply IH. Qed.

(** The id made up for the question at [index] names that index. *)
Lemma generated_id_inj (now : nat → N) (i j : nat) :
  "q_" +:+ pretty (now i) +:+ "_" +:+ pretty i =
  "q_" +:+ pretty (now j) +:+ "_" +:+ pretty j → i = j.
Proof.
  intros H. apply (string_app_inj_l "q_") in H.
  apply digits_underscore_inj in H as [_ H]; try apply pretty_N_digits.
  by apply (inj pretty) in H.
Qed.

Lemma fillQuestion_generated_id now index q :
  JS.truthy (q_id q) = false →
  q_id (fillQuestion now index q) =
    Some ("q_" +:+ pretty (now index) +:+ "_" +:+ pretty index).
Proof. intros Hq. simpl. by destruct (q_id q) as [[| c r] |]. Qed.

Lemma fillOption_generated_id questionId optIndex opt :
  JS.truthy (o_id opt) = false →
  o_id (fillOption questionId optIndex opt) =
    Some (questionId +:+ "_opt" +:+ pretty optIndex).
Proof. intros Ho. simpl. by destruct (o_id opt) as [[| c r] |]. Qed.

(** X18. The ids the flow makes up do not collide. When the model
    answers a request the flow accepts with questions none of which has
    an id, the returned questions have pairwise distinct ids, whatever
    the clock reads; and when the options of an objective question all
    lack an id, the options returned for it have pairwise distinct
    ids. *)
Theorem generateTest_fresh_ids now prompt input qs :
  0 < numSubjective input + numObjective input ≤ 20 →
  prompt input = Responds (Some {| questions := Some qs |}) →
  Forall (λ q, JS.truthy (q_id q) = false) qs →
  ∃ qs',
    run (generateTest now prompt input) = (Ok {| questions := Some qs' |}, [input]) ∧
    length qs' = length qs ∧
    NoDup (q_id <$> qs') ∧
    ∀ i q q' opts,
      qs !! i = Some q → qs' !! i = Some q' →
      q_type q = objective → options q = Some opts →
      Forall (λ o, JS.truthy (o_id o) = false) opts →
      ∃ opts', options q' = Some opts' ∧ length opts' = length opts ∧
               NoDup (o_id <$> opts').
Proof.
  intros Hsum Hp Hids. exists (imap (fillQuestion now) qs).
  split; [| split; [apply length_imap | split]].
  - unfold run. by rewrite (generateTest_accepts now prompt input _ [] Hsum Hp).
  - apply NoDup_alt. intros i j x.
    rewrite !list_lookup_fmap, !list_lookup_imap.
    destruct (qs !! i) as [qi |] eqn:Hi; [| done].
    destruct (qs !! j) as [qj |] eqn:Hj; [| done].
    cbn [fmap option_fmap option_map].
    rewrite !fillQuestion_generated_id
      by (by eapply (Forall_lookup_1 (λ q, JS.truthy (q_id q) = false))).
    intros Hx Hy. rewrite <- Hy in Hx. apply (inj Some), (inj Some) in Hx.
    by apply (generated_id_inj now).
  - intros i q q' opts Hq. rewrite list_lookup_imap, Hq. simpl.
    intros [= <-] Hty Hopts Hall. simpl. rewrite Hty, Hopts. simpl.
    eexists. split; [reflexivity |]. split; [apply length_imap |].
    apply NoDup_alt. intros a b x.
    rewrite !list_lookup_fmap, !list_lookup_imap.
    destruct (opts !! a) as [oa |] eqn:Ha; [| done].
    destruct (opts !! b) as [ob |] eqn:Hb; [| done].
    cbn [fmap option_fmap option_map].
    rewrite !fillOption_generated_id
      by (by eapply (Forall_lookup_1 (λ o, JS.truthy (o_id o) = false))).
    intros Hx Hy. rewrite <- Hy in Hx. apply (inj Some), (inj Some) in Hx.
    apply string_app_inj_l, string_app_inj_l in Hx.
    by apply (inj pretty) in Hx.
Qed.

Lemma generateTest_fresh_ids_witness :
  ∃ qs',
    run (generateTest (λ _, 1700000000000%N)
           (λ _, Responds (Some {| questions :=
              Some [unnamed_question; unnamed_question] |}))
           (sample_request 2 0)) =
      (Ok {| questions := Some qs' |}, [sample_request 2 0]) ∧
    q_id <$> qs' = [Some "q_1700000000000_0"; Some "q_1700000000000_1"] ∧
    NoDup (q_id <$> qs').
Proof.
  destruct (generateTest_fresh_ids (λ _, 1700000000000%N)
              (λ _, Responds (Some {| questions :=
                 Some [unnamed_question; unnamed_question] |}))
              (sample_request 2 0) [unnamed_question; unnamed_question])
    as (qs' & Hrun & _ & Hdistinct & _).
  - simpl. lia.
  - reflexivity.
  - by repeat constructor.
  - exists qs'. split; [exact Hrun |]. split; [| exact Hdistinct].
    vm_compute in Hrun. by injection Hrun as <-.
Defined.

End generated_ids.

(* ===================================================================== *)
(** * The basic report: the answer texts *)
(* ===================================================================== *)

Section basic_report_texts.
Import Types AnalyzeTestResults TestPage.

Lemma findSelected_response q r :
  findSelected q (Some (JS.Text r)) =
    opts ← options q; find (λ opt, bool_decide (opt_id opt = r)) opts.
Proof.
  unfold findSelected. destruct (options q) as [opts |]; simpl; [| done].
  apply find_text.
Qed.

Lemma findSelected_none q : findSelected q None = None.
Proof.
  unfold findSelected. destruct (options q) as [opts |]; simpl; [| done].
  induction opts as [| o opts IH]; simpl; [done |].
  by rewrite ?bool_decide_eq_false_2 by done.
Qed.

Lemma findSelected_member q name : findSelected q (Some (JS.Member name)) = None.
Proof.
  unfold findSelected. destruct (options q) as [opts |]; simpl; [| done].
  apply (find_member name).
Qed.

(** The entry for one question in closed form. *)
Lemma entryOf_inv responses q a :
  entryOf responses q a →
  a = {| questionId := id q;
         qa_questionText := questionText q;
         userAnswerText :=
           match type q with
           | objective =>
               match findSelected q (userAnswerValue responses q) with
               | Some selectedOption => JS.Text (opt_text selectedOption)
               | None =>
                   if JS.value_truthy (userAnswerValue responses q)
                   then JS.Text "Invalid option selected"
                   else JS.Text "Not Attempted"
               end
           | subjective =>
               match userAnswerValue responses q with
               | Some (JS.Text s) =>
                   JS.Text (if JS.trim_is_empty s then "Not Attempted" else s)
               | _ => JS.Text "Not Attempted"
               end
           end;
         qa_correctAnswerText :=
           Some (JS.string_or (correctAnswerText q)
                   (match type q with
                    | objective => "Correct answer not specified"
                    | subjective => "Model answer not specified"
                    end));
         isCorrect :=
           match type q with
           | objective => answeredCorrectly q (userAnswerValue responses q)
           | subjective => false
           end;
         feedback := unavailableFeedback;
         suggestedScoreOutOfTen := None |}.
Proof.
  intros (c & c' & Ha). revert Ha. unfold analyseQuestion.
  destruct (type q).
  - destruct (userAnswerValue responses q) as [[s | name] |]; simpl; [| done |].
    + intros [= <- _]. f_equal. destruct (JS.trim_is_empty s) eqn:Hs; [done |].
      unfold JS.value_or. simpl. destruct s; [done | done].
    + by intros [= <- _].
  - destruct (answeredCorrectly _ _); simpl; intros [= <- _]; f_equal;
      destruct (findSelected _ _); try done;
      unfold JS.value_or; by destruct (JS.value_truthy _).
Qed.

Lemma basicReport_entry t i q :
  questions t !! i = Some q →
  readable (userResponses t) (questions t) →
  ∃ report a,
    generateBasicReport t = Ok report ∧
    questionAnalyses report !! i = Some a ∧
    entryOf (userResponses t) q a.
Proof.
  intros Hq Hread. destruct (generateBasicReport_returns t Hread) as [report Hreport].
  destruct (generateBasicReport_Ok t report Hreport) as (_ & _ & Hall).
  destruct (Forall2_lookup_l _ _ _ _ _ Hall Hq) as (a & Ha & Hentry).
  by exists report, a.
Qed.

(** The answer text of the basic report is a string in every entry. *)
Lemma basic_report_texts_are_strings t report :
  generateBasicReport t = Ok report →
  Forall (λ a, ∃ text, userAnswerText a = JS.Text text) (questionAnalyses report).
Proof.
  intros Hreport.
  destruct (generateBasicReport_Ok t report Hreport) as (_ & _ & Hall).
  apply Forall_forall. intros a Ha. apply list_elem_of_lookup in Ha as [i Ha].
  destruct (Forall2_lookup_r _ _ _ _ _ Hall Ha) as (q & _ & Hentry).
  by destruct (entryOf_entry _ _ _ Hentry) as (_ & _ & _ & _ & Htext & _).
Qed.

(** X19. The two answer texts of an entry of the basic report, for a
    test in which no subjective question has its response read from the
    prototype chain (the report is then made). The correct answer shown
    is never empty: it is the question's [correctAnswerText] when that is
    not empty, and a placeholder otherwise. For an objective question
    the user's answer is shown as the text of the first option whose id
    is the stored response, as "Invalid option selected" when a
    non-empty response is the id of no option (or the question has no
    options), and as "Not Attempted" when the response is empty and the
    id of no option. Without a stored response it is "Not Attempted",
    except when the id of the question is the name of a member of
    [Object.prototype], which the read then finds: "Invalid option
    selected". For a subjective question it is "Not Attempted" when
    the response is absent or [trim] leaves it empty (white space only,
    the no-break space included), and the response itself otherwise. *)
Theorem basic_report_answer_texts t i q :
  questions t !! i = Some q →
  readable (userResponses t) (questions t) →
  ∃ report a,
    generateBasicReport t = Ok report ∧
    questionAnalyses report !! i = Some a ∧
    (∃ text,
       qa_correctAnswerText a = Some text ∧ text ≠ "" ∧
       ∀ c, correctAnswerText q = Some c → c ≠ "" → text = c) ∧
    match type q with
    | objective =>
        (∀ r opts o,
           storedResponse (userResponses t) q = Some r →
           options q = Some opts → firstWithId r opts o →
           userAnswerText a = JS.Text (opt_text o)) ∧
        (∀ r,
           storedResponse (userResponses t) q = Some r →
           options q = None ∨
           (∃ opts, options q = Some opts ∧ Forall (λ o, opt_id o ≠ r) opts) →
           userAnswerText a =
             JS.Text (if bool_decide (r = "") then "Not Attempted"
                      else "Invalid option selected")) ∧
        (storedResponse (userResponses t) q = None →
         userAnswerText a =
           JS.Text (if bool_decide (inheritedResponse (userResponses t) q)
                    then "Invalid option selected" else "Not Attempted"))
    | subjective =>
        (storedResponse (userResponses t) q = None →
         userAnswerText a = JS.Text "Not Attempted") ∧
        (∀ r,
           storedResponse (userResponses t) q = Some r →
           userAnswerText a =
             JS.Text (if bool_decide (whiteSpace r) then "Not Attempted" else r))
    end.
Proof.
  intros Hq Hread.
  destruct (basicReport_entry t i q Hq Hread) as (report & a & Hreport & Ha & Hentry).
  exists report, a. split; [done |]. split; [done |].
  rewrite (entryOf_inv _ _ _ Hentry). cbn [qa_correctAnswerText userAnswerText].
  split.
  { eexists. split; [reflexivity |]. split.
    - apply string_or_nonempty. by destruct (type q).
    - intros c -> Hc. by destruct c. }
  destruct (type q) eqn:Hty.
  - split.
    + intros Hnone. rewrite userAnswerValue_absent; [done | done |].
      by apply (proj1 (Forall_forall _ _) Hread q (list_elem_of_lookup_2 _ _ _ Hq)).
    + intros r Hr. rewrite (userAnswerValue_stored _ _ _ Hr).
      case_bool_decide as Hw; rewrite <- trim_is_empty_whiteSpace in Hw;
        [by rewrite Hw | by destruct (JS.trim_is_empty r)].
  - split_and!.
    + intros r opts o Hr Hopts Hfirst.
      rewrite (userAnswerValue_stored _ _ _ Hr), findSelected_response, Hopts. simpl.
      by rewrite (find_id_Some _ _ _ Hfirst).
    + intros r Hr Hnone.
      assert (Hfind : findSelected q (Some (JS.Text r)) = None).
      { rewrite findSelected_response.
        destruct Hnone as [-> | (opts & -> & Hall)]; [done |]. simpl.
        by apply find_id_None. }
      rewrite (userAnswerValue_stored _ _ _ Hr), Hfind. by destruct r.
    + intros Hr. case_bool_decide as Hin.
      * by rewrite (userAnswerValue_inherited _ _ Hin), findSelected_member.
      * by rewrite (userAnswerValue_absent _ _ Hr Hin), findSelected_none.
Qed.

Lemma basic_report_entry_and_prompt t i q :
  questions t !! i = Some q →
  ∃ p,
    processedQuestions (analysisInput t) !! i = Some p ∧
    userAnswerTextForPrompt p = resolveAnswer (default ∅ (userResponses t)) q.
Proof.
  intros Hq. unfold processedQuestions, analysisInput. simpl.
  rewrite list_lookup_imap, list_lookup_fmap, Hq. simpl.
  eexists. split; [reflexivity |]. simpl. by destruct q.
Qed.

(** X20. The basic report and the request for the AI analysis show the
    same text for an answer that was really given: for a subjective
    question whose stored response is not left empty by [trim], and for
    an objective question whose stored response is the id of one of its
    options, the [userAnswerText] of the basic report is the text that
    [analyzeTestResults] puts into its prompt. (The report is made when
    no subjective question has its response read from the prototype
    chain.) *)
Theorem basic_report_agrees_with_prompt t i q r :
  questions t !! i = Some q →
  readable (userResponses t) (questions t) →
  storedResponse (userResponses t) q = Some r →
  r ≠ "" →
  match type q with
  | objective => ∃ opts o, options q = Some opts ∧ firstWithId r opts o
  | subjective => ¬ whiteSpace r
  end →
  ∃ report a p,
    generateBasicReport t = Ok report ∧
    questionAnalyses report !! i = Some a ∧
    processedQuestions (analysisInput t) !! i = Some p ∧
    userAnswerText a = userAnswerTextForPrompt p.
Proof.
  intros Hq Hread Hr Hne Hcase.
  destruct (basicReport_entry t i q Hq Hread) as (report & a & Hreport & Ha & Hentry).
  destruct (basic_report_entry_and_prompt t i q Hq) as (p & Hp & Htext).
  exists report, a, p. split; [done |]. split; [done |]. split; [done |].
  rewrite Htext. clear Hp Htext p.
  assert (Hstored : default ∅ (userResponses t) !! id q = Some r).
  { unfold storedResponse in Hr. by destruct (userResponses t). }
  rewrite (entryOf_inv _ _ _ Hentry). cbn [userAnswerText].
  rewrite (userAnswerValue_stored _ _ _ Hr).
  destruct (type q) eqn:Hty.
  - rewrite (resolveAnswer_subjective _ _ _ Hty Hstored Hne).
    rewrite <- trim_is_empty_whiteSpace in Hcase.
    by destruct (JS.trim_is_empty r).
  - destruct Hcase as (opts & o & Hopts & Hfirst).
    rewrite (resolveAnswer_option _ _ _ _ _ Hty Hopts Hstored Hne Hfirst).
    rewrite findSelected_response, Hopts. simpl.
    by rewrite (find_id_Some _ _ _ Hfirst).
Qed.

(** A response that is a no-break space: the basic report shows
    "Not Attempted", and the prompt the response itself. *)
Example no_break_space_response :
  ∃ report,
    generateBasicReport
      (sample_test [essay_question] (Some {[ "q3" := no_break_space ]})) =
      Ok report ∧
    userAnswerText <$> questionAnalyses report = [JS.Text "Not Attempted"] ∧
    userAnswerTextForPrompt <$>
      processedQuestions
        (analysisInput
           (sample_test [essay_question] (Some {[ "q3" := no_break_space ]}))) =
      [JS.Text no_break_space].
Proof. eexists. split; [reflexivity |]. split; by vm_compute. Qed.

Lemma basic_report_answer_texts_witness :
  (questions (sample_test [capital_question; essay_question] (Some {[ "q1" := "a" ]}))
     !! 0%nat = Some capital_question ∧
   readable (Some {[ "q1" := "a" ]}) [capital_question; essay_question]) ∧
  ∃ report a,
    generateBasicReport
      (sample_test [capital_question; essay_question] (Some {[ "q1" := "a" ]})) =
      Ok report ∧
    questionAnalyses report !! 0%nat = Some a ∧
    userAnswerText a = JS.Text "Paris" ∧ qa_correctAnswerText a = Some "Paris".
Proof.
  assert (Hread : readable (Some {[ "q1" := "a" ]}) [capital_question; essay_question]).
  { repeat constructor; [discriminate |]. intros _ [_ Hproto].
    revert Hproto. apply (bool_decide_eq_false_1 _). by vm_compute. }
  split; [by split |].
  destruct (basic_report_answer_texts
              (sample_test [capital_question; essay_question] (Some {[ "q1" := "a" ]}))
              0 capital_question eq_refl Hread)
    as (report & a & Hreport & Ha & (text & Htext & _ & Hgiven) & Hshown & _).
  exists report, a. split; [exact Hreport |]. split; [exact Ha |]. split.
  - apply (Hshown "a" _ {| opt_id := "a"; opt_text := "Paris" |} eq_refl eq_refl).
    by exists [], [ {| opt_id := "b"; opt_text := "Rome" |} ].
  - rewrite Htext. f_equal. by apply Hgiven.
Defined.

Lemma basic_report_agrees_with_prompt_witness :
  ∃ report a p,
    generateBasicReport
      (sample_test [capital_question; essay_question]
         (Some {[ "q1" := "b"; "q3" := "Diffusion of water." ]})) = Ok report ∧
    questionAnalyses report !! 1%nat = Some a ∧
    processedQuestions
      (analysisInput
         (sample_test [capital_question; essay_question]
            (Some {[ "q1" := "b"; "q3" := "Diffusion of water." ]})))
      !! 1%nat = Some p ∧
    userAnswerText a = userAnswerTextForPrompt p.
Proof.
  apply (basic_report_agrees_with_prompt
           (sample_test [capital_question; essay_question]
              (Some {[ "q1" := "b"; "q3" := "Diffusion of water." ]}))
           1 essay_question "Diffusion of water."); try done.
  - repeat constructor; [discriminate |]. intros _ [Hnone _]. by vm_compute in Hnone.
  - apply (bool_decide_eq_false_1 _). by vm_compute.
Defined.

End basic_report_texts.

(* ===================================================================== *)
(** * Study plan: the sort is stable and settles at once *)
(* ===================================================================== *)

Section sort_stability.
Context {A : Type} (comparefn : A → A → JS.number) (key : A → JS.number).
Hypothesis comparefn_key : ∀ a b, comparefn a b = JS.sub (key a) (key b).

Lemma sort_insert_stable x l k :
  numeric key x → Forall (numeric key) l →
  filter (λ a, key a = k) (JS.sort_insert comparefn x l) =
  filter (λ a, key a = k) (x :: l).
Proof.
  intros Hx Hl. induction l as [| y l IH]; simpl; [done |].
  apply Forall_cons in Hl as [Hy Hl].
  rewrite (sort_le_key comparefn key comparefn_key) by done.
  case_bool_decide as Hxy; [done |].
  rewrite (filter_cons _ y), IH, !filter_cons by done.
  destruct (decide (key x = k)) as [Hxk | Hxk]; [| done].
  destruct (decide (key y = k)) as [Hyk | Hyk]; [| done].
  exfalso. apply Hxy. unfold key_le. rewrite Hxk, Hyk.
  unfold numeric in Hx. rewrite Hxk in Hx. destruct k; [simpl; lia | done].
Qed.

Lemma sort_stable l k :
  Forall (numeric key) l →
  filter (λ a, key a = k) (JS.sort comparefn l) = filter (λ a, key a = k) l.
Proof.
  induction l as [| x l IH]; simpl; intros Hl; [done |].
  apply Forall_cons in Hl as [Hx Hl].
  rewrite sort_insert_stable; [| done | by rewrite sort_Permutation].
  by rewrite !filter_cons, IH.
Qed.

Lemma sort_twice l :
  Forall (numeric key) l →
  JS.sort comparefn (JS.sort comparefn l) = JS.sort comparefn l.
Proof.
  intros Hl. apply (sort_sorted_id comparefn key comparefn_key).
  - by rewrite sort_Permutation.
  - by apply (sort_sorted comparefn key comparefn_key).
Qed.
End sort_stability.

Section study_plan_stability.
Import GenerateStudyPlan.

Lemma orderable_sessions_numeric g day ss :
  orderable g day → sessions day = Some ss →
  Forall (numeric (λ s, convertTime (startTime s))) ss.
Proof.
  intros [_ Hss] Hday. rewrite Hday in Hss. simpl in Hss.
  eapply Forall_impl; [exact Hss |]. intros s. apply clockTime_numeric.
Qed.

Lemma sortSessions_twice g day :
  orderable g day → sortSessions (sortSessions day) = sortSessions day.
Proof.
  intros Hday. unfold sortSessions. simpl. f_equal.
  destruct (sessions day) as [ss |] eqn:Hss; simpl; [| done]. f_equal.
  apply (sort_twice compareSessions (λ s, convertTime (startTime s))); [done |].
  by apply (orderable_sessions_numeric g day).
Qed.

Lemma filter_date_sortSessions (g : string → JS.number) (t : JS.number)
    (days : list DailySessions) :
  filter (λ day, g (date day) = t) (sortSessions <$> days) =
  sortSessions <$> filter (λ day, g (date day) = t) days.
Proof.
  induction days as [| day days IH]; [done |].
  rewrite fmap_cons, !filter_cons, IH. simpl.
  by destruct (decide (g (date day) = t)).
Qed.

(** X21. Both sorts of the study plan keep the model's order among
    equals, for an answer the comparators can order: the days of one
    date are returned in the order the model gave them, each with its
    sessions sorted, and within a day the sessions that start at the same
    minute are returned in the order the model gave them. *)
Theorem sortPlan_stable g output days :
  dailySessions output = Some days →
  Forall (orderable g) days →
  ∃ days',
    dailySessions (sortPlan g output) = Some days' ∧
    (∀ t,
       filter (λ day, g (date day) = t) days' =
       sortSessions <$> filter (λ day, g (date day) = t) days) ∧
    (∀ day ss minute,
       day ∈ days → sessions day = Some ss →
       filter (λ s, convertTime (startTime s) = minute) <$>
         sessions (sortSessions day) =
       Some (filter (λ s, convertTime (startTime s) = minute) ss)).
Proof.
  intros Hd Hall. exists (sortSessions <$> JS.sort (compareDays g) days).
  split; [unfold sortPlan; simpl; by rewrite Hd |]. split.
  - intros t. rewrite filter_date_sortSessions. f_equal.
    apply (sort_stable (compareDays g) (λ day, g (date day))); [done |].
    eapply Forall_impl; [exact Hall |]. by intros day [Hdate _].
  - intros day ss minute Hday Hss. unfold sortSessions. simpl. rewrite Hss. simpl.
    f_equal.
    apply (sort_stable compareSessions (λ s, convertTime (startTime s))); [done |].
    apply (orderable_sessions_numeric g day); [| done].
    by apply (proj1 (Forall_forall _ _) Hall).
Qed.

(** X22. The sorting settles at once: applied to a plan it has already
    sorted, [sortPlan] changes nothing, for an answer the comparators
    can order. *)
Theorem sortPlan_idempotent g output days :
  dailySessions output = Some days →
  Forall (orderable g) days →
  sortPlan g (sortPlan g output) = sortPlan g output.
Proof.
  intros Hd Hall. unfold sortPlan. simpl. rewrite Hd. simpl. do 2 f_equal.
  assert (Hsorted : Forall (orderable g) (JS.sort (compareDays g) days))
    by (by rewrite sort_Permutation).
  assert (Hkeys : Forall (numeric (λ day, g (date day)))
                    (sortSessions <$> JS.sort (compareDays g) days)).
  { apply Forall_fmap. eapply Forall_impl; [exact Hsorted |].
    by intros day [Hdate _]. }
  rewrite (sort_sorted_id (compareDays g) (λ day, g (date day))); [| done | done |].
  - rewrite <- list_fmap_compose. apply Forall_fmap_ext_1.
    eapply Forall_impl; [exact Hsorted |]. intros day. apply sortSessions_twice.
  - apply (StronglySorted_fmap _ (key_le (λ day, g (date day)))
             (key_le (λ day, g (date day)))); [done |].
    apply (sort_sorted (compareDays g) (λ day, g (date day))); [done |].
    eapply Forall_impl; [exact Hall |]. by intros day [Hdate _].
Qed.

Lemma sortPlan_stable_witness :
  Forall (orderable JS.iso_getTime) shuffled_days ∧
  ∃ days',
    dailySessions (sortPlan JS.iso_getTime shuffled_plan) = Some days' ∧
    ∀ t,
      filter (λ day, JS.iso_getTime (date day) = t) days' =
      sortSessions <$> filter (λ day, JS.iso_getTime (date day) = t) shuffled_days.
Proof.
  assert (H : Forall (orderable JS.iso_getTime) shuffled_days)
    by (apply (bool_decide_unpack _); vm_compute; exact I).
  split; [exact H |].
  destruct (sortPlan_stable JS.iso_getTime shuffled_plan shuffled_days eq_refl H)
    as (days' & Hdays & Hdates & _).
  by exists days'.
Defined.

Lemma sortPlan_idempotent_witness :
  sortPlan JS.iso_getTime (sortPlan JS.iso_getTime shuffled_plan) =
  sortPlan JS.iso_getTime shuffled_plan.
Proof.
  apply (sortPlan_idempotent JS.iso_getTime shuffled_plan shuffled_days eq_refl).
  apply (bool_decide_unpack _). vm_compute. exact I.
Defined.

End study_plan_stability.

(* ===================================================================== *)
(** * One set of flashcards: the study session and the AI helpers *)
(* ===================================================================== *)

Section flashcard_set_page.
Import TestControls Database FlashcardSetPage.

Lemma studyStep_in_range flashcards st a :
  0 ≤ currentStudyCardIndex st < Z.of_nat (length flashcards) →
  0 ≤ currentStudyCardIndex (studyStep flashcards st a) <
    Z.of_nat (length flashcards) ∧
  isStudySessionActive (studyStep flashcards st a) = isStudySessionActive st ∧
  (currentStudyCardIndex (studyStep flashcards st a) ≠ currentStudyCardIndex st →
   isStudyCardFlipped (studyStep flashcards st a) = false).
Proof.
  intros Hst. destruct a; simpl.
  - unfold handleStudyNext. case_bool_decide; simpl; split_and!; try done; lia.
  - unfold handleStudyPrev. case_bool_decide; simpl; split_and!; try done; lia.
  - split_and!; try done; lia.
Qed.

Lemma studySteps_in_range flashcards st actions :
  0 ≤ currentStudyCardIndex st < Z.of_nat (length flashcards) →
  0 ≤ currentStudyCardIndex (studySteps flashcards st actions) <
    Z.of_nat (length flashcards) ∧
  isStudySessionActive (studySteps flashcards st actions) = isStudySessionActive st.
Proof.
  revert st. induction actions as [| a actions IH]; intros st Hst; [done |].
  destruct (studyStep_in_range flashcards st a Hst) as (Hrange & Hactive & _).
  destruct (IH (studyStep flashcards st a) Hrange) as [Hr Ha].
  split; [exact Hr |]. unfold studySteps in *. simpl. by rewrite Ha.
Qed.

(** X23. A study session always shows a card. Started on a set that has
    cards, and after any clicks on next, previous and flip, the session
    is active and its index names a card of the set; a click that moves
    to another card shows that card front up. On a set without cards the
    session does not start. *)
Theorem study_session_shows_a_card flashcards st actions :
  flashcards ≠ [] →
  let st' := studySteps flashcards (handleStartStudySession flashcards st) actions in
  isStudySessionActive st' = true ∧
  is_Some (currentStudyCard flashcards st') ∧
  (∀ a,
     currentStudyCardIndex (studyStep flashcards st' a) ≠ currentStudyCardIndex st' →
     isStudyCardFlipped (studyStep flashcards st' a) = false ∧
     is_Some (currentStudyCard flashcards (studyStep flashcards st' a))) ∧
  handleStartStudySession [] st = st.
Proof.
  intros Hcards st'.
  assert (Hlen : (0 < length flashcards)%nat) by (destruct flashcards; [done | simpl; lia]).
  assert (Hstart : handleStartStudySession flashcards st =
                   {| isStudySessionActive := true; currentStudyCardIndex := 0;
                      isStudyCardFlipped := false |}).
  { unfold handleStartStudySession. rewrite bool_decide_eq_false_2; [done | lia]. }
  assert (Hshown : ∀ s, 0 ≤ currentStudyCardIndex s < Z.of_nat (length flashcards) →
                        is_Some (currentStudyCard flashcards s)).
  { intros s Hs. unfold currentStudyCard. rewrite bool_decide_eq_true_2 by lia.
    apply lookup_lt_is_Some. lia. }
  destruct (studySteps_in_range flashcards (handleStartStudySession flashcards st) actions)
    as [Hrange Hactive]; [rewrite Hstart; simpl; lia |].
  fold st' in Hrange, Hactive. split_and!.
  - by rewrite Hactive, Hstart.
  - by apply Hshown.
  - intros a Hmoved.
    destruct (studyStep_in_range flashcards st' a Hrange) as (Hr & _ & Hflip).
    split; [by apply Hflip | by apply Hshown].
  - done.
Qed.

Lemma study_session_shows_a_card_witness :
  currentStudyCard [sample_card "2+2?" "4"; sample_card "3+3?" "6"]
    (studySteps [sample_card "2+2?" "4"; sample_card "3+3?" "6"]
       (handleStartStudySession [sample_card "2+2?" "4"; sample_card "3+3?" "6"] idle)
       [StudyFlip; StudyNext; StudyNext; StudyFlip]) =
    Some (sample_card "3+3?" "6") ∧
  is_Some (currentStudyCard [sample_card "2+2?" "4"; sample_card "3+3?" "6"]
    (studySteps [sample_card "2+2?" "4"; sample_card "3+3?" "6"]
       (handleStartStudySession [sample_card "2+2?" "4"; sample_card "3+3?" "6"] idle)
       [StudyFlip; StudyNext; StudyNext; StudyFlip])).
Proof.
  split; [reflexivity |].
  by apply (study_session_shows_a_card
              [sample_card "2+2?" "4"; sample_card "3+3?" "6"] idle
              [StudyFlip; StudyNext; StudyNext; StudyFlip]).
Defined.

(** X24. [handleGenerateAnswer] asks the model only for a question that
    [trim] does not leave empty (one that is not white space only, the
    no-break space counted as white space), and then exactly once, with
    the question as typed. The answer field of the form changes only
    when the model gave an output, and then to the model's answer; a
    blank question, a failed call and a missing output leave it as it
    was. *)
Theorem handleGenerateAnswer_result prompt frontText backText :
  (whiteSpace frontText →
   handleGenerateAnswer prompt frontText backText = (backText, QuestionNeeded, [])) ∧
  (¬ whiteSpace frontText →
   ∃ backText' toast,
     handleGenerateAnswer prompt frontText backText =
       (backText', toast,
        [ {| GenerateFlashcardAnswer.questionText := frontText |} ]) ∧
     match prompt {| GenerateFlashcardAnswer.questionText := frontText |} with
     | Responds (Some result) =>
         backText' = GenerateFlashcardAnswer.answerText result ∧
         toast = AnswerGenerated
     | _ => backText' = backText ∧ toast = AIError
     end).
Proof.
  unfold handleGenerateAnswer. rewrite <- trim_is_empty_whiteSpace.
  split; [by intros -> | intros ->%not_true_is_false].
  rewrite generateFlashcardAnswer_run.
  destruct (prompt _) as [[result |] | message]; simpl; by eexists _, _.
Qed.

(** A question that is a no-break space is no question. *)
Example handleGenerateAnswer_no_break_space :
  handleGenerateAnswer
    (λ _, Responds (Some {| GenerateFlashcardAnswer.answerText := "4" |}))
    no_break_space "" = ("", QuestionNeeded, []).
Proof. reflexivity. Qed.

Lemma handleGenerateMoreCards_run prompt cardKey cardStored countRaised
    createdAt updatedAt u setDetails set :
  handleGenerateMoreCards prompt cardKey cardStored countRaised createdAt updatedAt
    (Some u) (Some setDetails) set =
    let request :=
      {| GenerateMultipleFlashcards.topic := topicOf setDetails;
         GenerateMultipleFlashcards.numberOfCards := Some (JS.Num 5) |} in
    match prompt request with
    | Fails _ | Responds None => (MoreFailed, [request], [])
    | Responds (Some {| GenerateMultipleFlashcards.flashcards := [] |}) =>
        (MoreGenerationFailed, [request], [])
    | Responds (Some {| GenerateMultipleFlashcards.flashcards := cards |}) =>
        ((if (FlashcardsPage.addCards cardKey cardStored countRaised
                createdAt updatedAt (uid u) set 0 cards).2
          then MoreAdded (length cards) else MoreFailed),
         [request],
         (FlashcardsPage.addCards cardKey cardStored countRaised
            createdAt updatedAt (uid u) set 0 cards).1)
    end.
Proof.
  unfold handleGenerateMoreCards. rewrite generateMultipleFlashcards_run. cbn zeta.
  change {| GenerateMultipleFlashcards.topic :=
              GenerateMultipleFlashcards.topic
                {| GenerateMultipleFlashcards.topic := topicOf setDetails;
                   GenerateMultipleFlashcards.numberOfCards := Some (JS.Num 5) |};
            GenerateMultipleFlashcards.numberOfCards :=
              Some (GenerateMultipleFlashcards.effectiveNumCards
                      {| GenerateMultipleFlashcards.topic := topicOf setDetails;
                         GenerateMultipleFlashcards.numberOfCards := Some (JS.Num 5) |}) |}
    with {| GenerateMultipleFlashcards.topic := topicOf setDetails;
            GenerateMultipleFlashcards.numberOfCards := Some (JS.Num 5) |}.
  destruct (prompt _) as [[[cards] |] | message];
    cbn -[FlashcardsPage.addCards]; try done.
  destruct cards as [| card cards]; [done |].
  by destruct (FlashcardsPage.addCards _ _ _ _ _ _ _ _ _).
Qed.

(** X25. What [handleGenerateMoreCards] adds to a set. The model is
    asked once, for five cards, on a topic that is never empty (the
    non-empty ones among title, subject and chapter of the set, or
    "General"). Only cards are written, all into the set of the page,
    and they carry the texts of the model's cards in the model's order,
    from the first on; "Flashcards Added!" is reported only when every
    card of the model was written, with their number; nothing is
    written when the model gave no card; and when a failure is reported
    for cards the model gave, the store has failed one of them: it
    issued no key for it, or rejected the write of the card or the
    update of the counter of the set. *)
Theorem handleGenerateMoreCards_writes prompt cardKey cardStored countRaised
    createdAt updatedAt u setDetails set outcome calls written :
  handleGenerateMoreCards prompt cardKey cardStored countRaised createdAt updatedAt
    (Some u) (Some setDetails) set = (outcome, calls, written) →
  calls = [ {| GenerateMultipleFlashcards.topic := topicOf setDetails;
               GenerateMultipleFlashcards.numberOfCards := Some (JS.Num 5) |} ] ∧
  topicOf setDetails ≠ "" ∧
  Forall (λ w, ∃ cardId card,
            w = FlashcardsPage.WrittenCard cardId card ∧ setId card = set) written ∧
  (written = [] ∧ (∀ n, outcome ≠ MoreAdded n) ∨
   ∃ cards,
     prompt {| GenerateMultipleFlashcards.topic := topicOf setDetails;
               GenerateMultipleFlashcards.numberOfCards := Some (JS.Num 5) |} =
       Responds (Some {| GenerateMultipleFlashcards.flashcards := cards |}) ∧
     cards ≠ [] ∧
     cardTexts written `prefix_of` pairTexts cards ∧
     (∀ n, outcome = MoreAdded n →
        n = length cards ∧ cardTexts written = pairTexts cards) ∧
     (outcome = MoreFailed →
        ∃ k, (k < length cards)%nat ∧
             ¬ cardAccepted cardKey cardStored countRaised k)).
Proof.
  rewrite handleGenerateMoreCards_run. cbn zeta.
  assert (Htopic : topicOf setDetails ≠ "")
    by (unfold topicOf; by apply string_or_nonempty).
  destruct (prompt _) as [[[cards] |] | message] eqn:Hp;
    try (intros [= <- <- <-]; split_and!; try done; by left).
  destruct cards as [| card cards];
    [intros [= <- <- <-]; split_and!; try done; by left |].
  pose proof (addCards_prefix cardKey cardStored countRaised createdAt updatedAt
                (uid u) set 0 (card :: cards)) as Hadd.
  destruct (FlashcardsPage.addCards _ _ _ _ _ _ _ _ _) as [stored done].
  cbn -[FlashcardsPage.addCards].
  destruct Hadd as (Hpre & Hall & Hstop & Hset).
  intros [= <- <- <-]. split_and!; try done. right.
  exists (card :: cards). split_and!; try done.
  - intros n. destruct done; [| done]. intros [= <-]. split; [done | by apply Hall].
  - destruct done; [done |]. intros _. by apply Hstop.
Qed.

Lemma handleGenerateMoreCards_writes_witness :
  ∃ written,
    handleGenerateMoreCards sums_model (λ i, Some ("-Ncard" +:+ pretty i))
      accepting accepting "t0" "t1"
      (Some {| uid := "u1" |})
      (Some {| fs_id := "-Nset"; fs_userId := "u1"; fs_title := "Sums";
               fs_subject := Some ""; fs_chapter := None;
               fs_createdAt := "t0"; fs_updatedAt := "t0";
               flashcardCount := Some 0 |}) "-Nset" =
      (MoreAdded 2,
       [ {| GenerateMultipleFlashcards.topic := "Sums";
            GenerateMultipleFlashcards.numberOfCards := Some (JS.Num 5) |} ],
       written) ∧
    cardTexts written = [("2+2?", "4"); ("3+3?", "6")].
Proof.
  pose (r := handleGenerateMoreCards sums_model (λ i, Some ("-Ncard" +:+ pretty i))
               accepting accepting
               "t0" "t1" (Some {| uid := "u1" |})
               (Some {| fs_id := "-Nset"; fs_userId := "u1"; fs_title := "Sums";
                        fs_subject := Some ""; fs_chapter := None;
                        fs_createdAt := "t0"; fs_updatedAt := "t0";
                        flashcardCount := Some 0 |}) "-Nset").
  assert (Hrun : r = ltac:(let v := eval vm_compute in r in exact v))
    by (vm_compute; reflexivity).
  destruct (handleGenerateMoreCards_writes _ _ _ _ _ _ _ _ _ _ _ _ Hrun)
    as (_ & _ & _ & [[_ Hnot] | (cards & Hp & _ & _ & Hall & _)]).
  - by destruct (Hnot 2%nat).
  - injection Hp as <-. destruct (Hall 2%nat eq_refl) as [_ Htexts].
    eexists. split; [exact Hrun | exact Htexts].
Defined.

End flashcard_set_page.

(* ===================================================================== *)
(** * The community: likes *)
(* ===================================================================== *)

Section community_likes.
Import Community.

Lemma toggleLike_liked u v likes likedBy :
  liked v (toggleLike u likes likedBy).2 =
    if decide (v = u) then negb (liked v likedBy) else liked v likedBy.
Proof.
  unfold toggleLike, liked.
  destruct (default false (default ∅ likedBy !! u)) eqn:Hu; simpl;
    destruct (decide (v = u)) as [-> | Hv].
  - by rewrite lookup_delete_eq, Hu.
  - by rewrite lookup_delete_ne.
  - by rewrite lookup_insert_eq, Hu.
  - by rewrite lookup_insert_ne.
Qed.

Lemma toggleLike_consistent u likes likedBy :
  likesConsistent likes likedBy →
  likesConsistent (toggleLike u likes likedBy).1 (toggleLike u likes likedBy).2 ∧
  (toggleLike u likes likedBy).1 =
    Some (JS.Num (Z.of_nat (size (default ∅ likedBy)) +
                  (if liked u likedBy then -1 else 1))).
Proof.
  intros [Htrue ->]. unfold toggleLike, likesConsistent, liked.
  set (m := default ∅ likedBy) in *.
  assert (Hor : ∀ n : nat,
    JS.number_or (Some (JS.Num (Z.of_nat n))) (JS.Num 0) = JS.Num (Z.of_nat n)).
  { by intros [| n]. }
  rewrite Hor.
  destruct (m !! u) as [b |] eqn:Hu; simpl.
  - assert (b = true) as -> by (by apply (Htrue u)). simpl.
    assert (Hpos : (0 < size m)%nat).
    { destruct (size m) eqn:Hsize; [| lia].
      apply map_size_empty_inv in Hsize. by rewrite Hsize in Hu. }
    rewrite map_size_delete_Some by done.
    split_and!; [by apply map_Forall_delete | |]; do 2 f_equal; lia.
  - rewrite map_size_insert_None by done.
    split_and!; [by apply map_Forall_insert_2 | |]; do 2 f_equal; lia.
Qed.

Lemma likeCommunityPost_step u post :
  likesConsistent (cp_likes post) (cp_likedBy post) →
  ∃ post',
    likeCommunityPost u (Some post) = Some post' ∧
    likesConsistent (cp_likes post') (cp_likedBy post') ∧
    (∀ v, liked v (cp_likedBy post') =
          if decide (v = u) then negb (liked v (cp_likedBy post))
          else liked v (cp_likedBy post)) ∧
    cp_likes post' =
      Some (JS.Num (Z.of_nat (size (default ∅ (cp_likedBy post))) +
                    (if liked u (cp_likedBy post) then -1 else 1))) ∧
    (cp_id post', cp_userId post', cp_username post', cp_questionText post',
     cp_imageUrl post', cp_timestamp post', cp_updatedAt post', cp_comments post',
     cp_commentCount post') =
    (cp_id post, cp_userId post, cp_username post, cp_questionText post,
     cp_imageUrl post, cp_timestamp post, cp_updatedAt post, cp_comments post,
     cp_commentCount post).
Proof.
  intros Hc. unfold likeCommunityPost.
  pose proof (toggleLike_consistent u _ _ Hc) as [Hc' Hlikes].
  pose proof (λ v, toggleLike_liked u v (cp_likes post) (cp_likedBy post)) as Hv.
  destruct (toggleLike u (cp_likes post) (cp_likedBy post)) as [likes likedBy].
  simpl in *. eexists. split; [reflexivity |]. simpl. by split_and!.
Qed.

(** X26. A like on a post keeps its counter right. On a post whose
    [likes] is the number of entries of [likedBy], all of them [true],
    the update function of [likeCommunityPost] returns a post for which
    this holds again: the user is a liker afterwards exactly when they
    were not before, the counter went down or up by one accordingly, no
    other user's like and no other field changed. *)
Theorem likeCommunityPost_keeps_count u post :
  likesConsistent (cp_likes post) (cp_likedBy post) →
  ∃ post',
    likeCommunityPost u (Some post) = Some post' ∧
    likesConsistent (cp_likes post') (cp_likedBy post') ∧
    liked u (cp_likedBy post') = negb (liked u (cp_likedBy post)) ∧
    (∀ v, v ≠ u → liked v (cp_likedBy post') = liked v (cp_likedBy post)) ∧
    cp_likes post' =
      Some (JS.Num (Z.of_nat (size (default ∅ (cp_likedBy post))) +
                    (if liked u (cp_likedBy post) then -1 else 1))) ∧
    (cp_id post', cp_userId post', cp_username post', cp_questionText post',
     cp_imageUrl post', cp_timestamp post', cp_updatedAt post', cp_comments post',
     cp_commentCount post') =
    (cp_id post, cp_userId post, cp_username post, cp_questionText post,
     cp_imageUrl post, cp_timestamp post, cp_updatedAt post, cp_comments post,
     cp_commentCount post).
Proof.
  intros Hc.
  destruct (likeCommunityPost_step u post Hc)
    as (post' & Hrun & Hc' & Hv & Hlikes & Hrest).
  exists post'. split_and!; try done.
  - by rewrite Hv, decide_True.
  - intros v Hne. by rewrite Hv, decide_False.
Qed.

(** X27. A like on a comment keeps its counter right, in the same way:
    the update function of [likeCommunityComment] turns a comment whose
    [likes] is the number of entries of [likedBy], all [true], into one
    for which this holds again, flips the like of the user, moves the
    counter by one, and changes nothing else. *)
Theorem likeCommunityComment_keeps_count u comment :
  likesConsistent (cc_likes comment) (cc_likedBy comment) →
  ∃ comment',
    likeCommunityComment u (Some comment) = Some comment' ∧
    likesConsistent (cc_likes comment') (cc_likedBy comment') ∧
    liked u (cc_likedBy comment') = negb (liked u (cc_likedBy comment)) ∧
    (∀ v, v ≠ u → liked v (cc_likedBy comment') = liked v (cc_likedBy comment)) ∧
    cc_likes comment' =
      Some (JS.Num (Z.of_nat (size (default ∅ (cc_likedBy comment))) +
                    (if liked u (cc_likedBy comment) then -1 else 1))) ∧
    (cc_id comment', cc_postId comment', cc_userId comment', cc_username comment',
     cc_text comment', cc_timestamp comment', cc_updatedAt comment') =
    (cc_id comment, cc_postId comment, cc_userId comment, cc_username comment,
     cc_text comment, cc_timestamp comment, cc_updatedAt comment).
Proof.
  intros Hc. unfold likeCommunityComment.
  pose proof (toggleLike_consistent u _ _ Hc) as [Hc' Hlikes].
  pose proof (toggleLike_liked u u (cc_likes comment) (cc_likedBy comment)) as Hu.
  pose proof (λ v, toggleLike_liked u v (cc_likes comment) (cc_likedBy comment)) as Hv.
  destruct (toggleLike u (cc_likes comment) (cc_likedBy comment)) as [likes likedBy].
  simpl in *. eexists. split; [reflexivity |]. simpl. split_and!; try done.
  - by rewrite Hu, decide_True.
  - intros v Hne. by rewrite Hv, decide_False.
Qed.




Lemma likeCommunityPost_keeps_count_witness :
  ∃ post',
    likeCommunityPost "u2" (Some sample_post) = Some post' ∧
    cp_likes post' = Some (JS.Num 2) ∧
    liked "u2" (cp_likedBy post') = true ∧ liked "u1" (cp_likedBy post') = true.
Proof.
  destruct (likeCommunityPost_keeps_count "u2" sample_post)
    as (post' & Hrun & _ & Hu & Hv & Hlikes & _).
  { split; [| done]. intros i x Hix. simpl in Hix.
    by apply lookup_singleton_Some in Hix as [_ <-]. }
  exists post'. split; [exact Hrun |]. split; [exact Hlikes |].
  split; [exact Hu |]. by apply (Hv "u1").
Defined.

Lemma likeCommunityComment_keeps_count_witness :
  ∃ comment',
    likeCommunityComment "u1" (Some sample_comment) = Some comment' ∧
    cc_likes comment' = Some (JS.Num 1) ∧
    liked "u1" (cc_likedBy comment') = true.
Proof.
  destruct (likeCommunityComment_keeps_count "u1" sample_comment)
    as (comment' & Hrun & _ & Hu & _ & Hlikes & _).
  { split; [| done]. intros i x Hix. simpl in Hix. by rewrite lookup_empty in Hix. }
  exists comment'. split; [exact Hrun |]. split; [exact Hlikes | exact Hu].
Defined.


End community_likes.

(* ===================================================================== *)
(** * The list of conversations *)
(* ===================================================================== *)

Section conversation_list.
Import ConversationList.
Context (Date_getTime : string → JS.number).

Lemma compareItems_key a b :
  compareItems Date_getTime a b =
    JS.sub (negatedTime Date_getTime a) (negatedTime Date_getTime b).
Proof.
  unfold compareItems, negatedTime.
  destruct (getTime _ (lastMessageAt a)), (getTime _ (lastMessageAt b)); simpl;
    try done.
  f_equal. lia.
Qed.

Lemma negatedTime_le a b :
  key_le (negatedTime Date_getTime) a b ↔ newestFirst Date_getTime a b.
Proof.
  unfold key_le, negatedTime, newestFirst.
  destruct (getTime _ (lastMessageAt a)), (getTime _ (lastMessageAt b)); simpl;
    try done.
  lia.
Qed.

Lemma negatedTime_numeric a :
  getTime Date_getTime (lastMessageAt a) ≠ JS.NaN →
  numeric (negatedTime Date_getTime) a.
Proof.
  unfold numeric, negatedTime. by destruct (getTime _ (lastMessageAt a)).
Qed.

Lemma StronglySorted_weaken {A} (R R' : A → A → Prop) (l : list A) :
  (∀ a b, R a b → R' a b) → StronglySorted R l → StronglySorted R' l.
Proof.
  intros HR. induction 1 as [| a l Hl IH Ha]; constructor; [done |].
  eapply Forall_impl; [exact Ha |]. intros b. apply HR.
Qed.

Lemma toListItem_title entry : li_title (toListItem entry) ≠ "".
Proof. destruct entry as [id convo]. simpl. by apply string_or_nonempty. Qed.

(** X29. The list of conversations shows the latest first. For a
    snapshot in which every conversation has a time that parses (its
    [updatedAt], or its [createdAt] when [updatedAt] is missing or
    empty), [getConversationList] hands on one item for each
    conversation of the snapshot, with the ids of the snapshot, ordered
    by that time from the latest to the earliest; no title is empty, a
    missing or empty one being shown as "Untitled Conversation"; and a
    snapshot without a value gives the empty list. *)
Theorem getConversationList_newest_first entries :
  Forall (λ entry,
            getTime Date_getTime (lastMessageAt (toListItem entry)) ≠ JS.NaN)
         entries →
  getConversationList Date_getTime (Some entries) ≡ₚ toListItem <$> entries ∧
  li_id <$> getConversationList Date_getTime (Some entries) ≡ₚ entries.*1 ∧
  StronglySorted (newestFirst Date_getTime)
    (getConversationList Date_getTime (Some entries)) ∧
  Forall (λ item, li_title item ≠ "")
    (getConversationList Date_getTime (Some entries)) ∧
  getConversationList Date_getTime None = [].
Proof.
  intros Htimes. unfold getConversationList.
  assert (Hperm : JS.sort (compareItems Date_getTime) (toListItem <$> entries) ≡ₚ
                  toListItem <$> entries) by apply sort_Permutation.
  split_and!; try done.
  - rewrite Hperm, <- list_fmap_compose.
    assert ((li_id ∘ toListItem) <$> entries = entries.*1) as ->; [| done].
    apply list_fmap_ext. by intros i [id convo].
  - eapply StronglySorted_weaken; last first.
    + apply (sort_sorted (compareItems Date_getTime) (negatedTime Date_getTime)
               compareItems_key).
      apply Forall_fmap. eapply Forall_impl; [exact Htimes |].
      intros entry. apply negatedTime_numeric.
    + intros a b. apply negatedTime_le.
  - rewrite Hperm. apply Forall_fmap, Forall_forall. intros entry _.
    apply toListItem_title.
Qed.

End conversation_list.

Section conversation_list_witness.
Import ConversationList.

Lemma getConversationList_newest_first_witness :
  getConversationList JS.iso_getTime (Some sample_conversations) =
    [ {| li_id := "c2"; li_title := "Untitled Conversation";
         lastMessageAt := Some "2025-03-05" |};
      {| li_id := "c3"; li_title := "Untitled Conversation";
         lastMessageAt := Some "2025-03-03" |};
      {| li_id := "c1"; li_title := "Algebra";
         lastMessageAt := Some "2025-03-01" |} ] ∧
  StronglySorted (newestFirst JS.iso_getTime)
    (getConversationList JS.iso_getTime (Some sample_conversations)).
Proof.
  split; [by vm_compute |].
  apply (getConversationList_newest_first JS.iso_getTime sample_conversations).
  repeat constructor; by vm_compute.
Defined.

End conversation_list_witness.
